(** * MeneBot: conversation synchronisation and streaming-response engine

    A shallow embedding of the JavaScript sources of the MeneBot chat client
    and of its REST back end:

    - [src/index.js]          the Firestore client with [withExponentialBackoff]
                              (module [IndexJs]);
    - [src/src/App.jsx]       the Firestore client for the static deployment
                              (module [AppJsx]) followed by the Express/SQLite
                              server (module [ServerJs]);
    - [src/unnamed/part_000]  the three-part rewrite of the client
                              (module [Part000]).

    JavaScript strings are sequences of UTF-16 code units, asynchronous
    functions are run to completion one at a time (the cooperative scheduling
    of the sources), and everything the program cannot decide itself -- the
    answers of the completion service, the outcome of store writes,
    [Math.random], fresh identifiers -- is an explicit oracle. *)

From Stdlib Require Import String Ascii.
From Stdlib Require Import NArith ZArith QArith Lia Lqa Bool Arith List.
From Stdlib Require Import DecimalString Sorted Permutation.
From Equations Require Import Equations.
Import ListNotations.

Set Implicit Arguments.

(* ===================================================================== *)
(** * JavaScript strings *)
(* ===================================================================== *)

(** A code unit is a 16-bit number; nothing below depends on the bound. *)
Definition CodeUnit := N.
Definition JSString := list CodeUnit.

(** String literals of the sources (all of them are ASCII, except the
    one-character default reply of [part_000]). *)
Definition lit (s : string) : JSString :=
  map N_of_ascii (list_ascii_of_string s).

(** [String(n)] for a non-negative integer. *)
Definition numToString (n : nat) : JSString :=
  lit (NilEmpty.string_of_uint (Nat.to_uint n)).

(** The class [\s] of ECMAScript regular expressions: WhiteSpace and
    LineTerminator code points. *)
Definition isWhiteSpace (c : CodeUnit) : bool :=
  ((9 <=? c) && (c <=? 13) || (c =? 32) || (c =? 160) || (c =? 5760)
   || (8192 <=? c) && (c <=? 8202) || (c =? 8232) || (c =? 8233)
   || (c =? 8239) || (c =? 8287) || (c =? 12288) || (c =? 65279))%N.

Fixpoint takeWhile {A} (p : A -> bool) (l : list A) : list A :=
  match l with
  | [] => []
  | x :: l' => if p x then x :: takeWhile p l' else []
  end.

Fixpoint dropWhile {A} (p : A -> bool) (l : list A) : list A :=
  match l with
  | [] => []
  | x :: l' => if p x then dropWhile p l' else l
  end.

(** [s.split(/\s+/)] and [s.split(/(\s+)/)], following
    RegExp.prototype[Symbol.split]: the string is scanned from the left, [cur]
    is the text between the end of the last match (position [p]) and the
    scanning position [q], and [s] is what follows [q].  A match of [\s+] at
    [q] is the maximal run of white space starting there; it is never empty,
    so the end of the match always differs from [p].  With [capture] the
    matched run is spliced into the result (the capturing group). *)
Equations? splitWs (capture : bool) (cur s : JSString) : list JSString
  by wf (length s) lt :=
  splitWs capture cur [] := [cur];
  splitWs capture cur (c :: s') with isWhiteSpace c := {
    | false := splitWs capture (cur ++ [c]) s';
    | true := cur :: (if capture then [c :: takeWhile isWhiteSpace s'] else [])
                  ++ splitWs capture [] (dropWhile isWhiteSpace s') }.
Proof.
  all: simpl; try lia.
  assert (Hdrop : forall l : JSString,
             (length (dropWhile isWhiteSpace l) <= length l)%nat).
  { induction l as [|x l IH]; simpl; [lia|].
    destruct (isWhiteSpace x); simpl; lia. }
  specialize (Hdrop s'). lia.
Qed.

Definition split_ws_capture (s : JSString) : list JSString := splitWs true [] s.
Definition split_ws (s : JSString) : list JSString := splitWs false [] s.

(** [a.filter(c => c.length > 0)], which is also [a.filter(Boolean)] on
    strings: the empty string is the only falsy one. *)
Definition nonEmpty (c : JSString) : bool :=
  match c with [] => false | _ :: _ => true end.

(** [a.join(sep)] *)
Fixpoint join (sep : JSString) (a : list JSString) : JSString :=
  match a with
  | [] => []
  | [x] => x
  | x :: rest => x ++ sep ++ join sep rest
  end.

(** [s.startsWith(p)] and [s.includes(p)] *)
Fixpoint startsWith (s p : JSString) : bool :=
  match p, s with
  | [], _ => true
  | _ :: _, [] => false
  | a :: p', b :: s' => (a =? b)%N && startsWith s' p'
  end.

Fixpoint includes (s p : JSString) : bool :=
  startsWith s p ||
  match s with
  | [] => false
  | _ :: s' => includes s' p
  end.

(** [s.trim()] *)
Definition trim (s : JSString) : JSString :=
  rev (dropWhile isWhiteSpace (rev (dropWhile isWhiteSpace s))).

(** [a || b] on strings: the empty string is falsy; [None] is [undefined]. *)
Definition orElse (a : option JSString) (b : JSString) : JSString :=
  match a with
  | Some ((_ :: _) as s) => s
  | _ => b
  end.

(* ===================================================================== *)
(** * Completions of asynchronous calls *)
(* ===================================================================== *)

(** An [Error] object, as far as the program looks at it. *)
Record Error := mkError { message : JSString }.

(** A promise either resolves or rejects. *)
Inductive Completion (A : Type) :=
| Normal (v : A)
| Throw (e : Error).
Arguments Normal {A} v.
Arguments Throw {A} e.

(* ===================================================================== *)
(** * BackoffPolicy: [withExponentialBackoff] (src/index.js) *)
(* ===================================================================== *)

Section Backoff.
Variable A : Type.
(** [fn k] is what the [k]-th invocation of the wrapped operation does
    (counting from 0); [rnd k] is the value of the [k]-th [Math.random()],
    an idealised real in [0, 1). *)
Variable fn : nat -> Completion A.
Variable rnd : nat -> Q.
Variable maxRetries : Z.

(** What one run of the policy did: its completion ([Normal None] is a
    promise resolved with [undefined], when the loop is never entered), how
    often it invoked the operation, and the delays it slept, in
    milliseconds and in order. *)
Record Run := mkRun {
  outcome : Completion (option A);
  invocations : nat;
  delays : list Q }.

Definition retryable (e : Error) : bool :=
  includes (message e) (lit "429") || includes (message e) (lit "500")
  || includes (message e) (lit "Failed to fetch").

(** [Math.pow(2, attempt) * 1000 + Math.random() * 1000] *)
Definition delayOf (attempt : nat) : Q :=
  inject_Z (2 ^ Z.of_nat attempt * 1000) + rnd attempt * 1000.

(** The [for] loop; [fuel] is the number of iterations left, that is
    [maxRetries - attempt]. *)
Fixpoint backoffLoop (fuel attempt : nat) : Run :=
  match fuel with
  | O => mkRun (Normal None) 0 []
  | S fuel' =>
      match fn attempt with
      | Normal v => mkRun (Normal (Some v)) 1 []
      | Throw error =>
          if (Z.of_nat attempt =? maxRetries - 1)%Z || negb (retryable error)
          then mkRun (Throw error) 1 []
          else
            let r := backoffLoop fuel' (S attempt) in
            mkRun (outcome r) (S (invocations r)) (delayOf attempt :: delays r)
      end
  end.

Definition withExponentialBackoff : Run :=
  backoffLoop (Z.to_nat maxRetries) 0.
End Backoff.

Arguments mkRun {A} _ _ _.

(* ===================================================================== *)
(** * The completion service, as the clients see it *)
(* ===================================================================== *)

Inductive Role := RoleUser | RoleModel.

(** One element of [contents]: [{ role, parts: [{ text }] }]. *)
Record Turn := mkTurn { role : Role; turnText : JSString }.

(** The body of the POST request. *)
Record Request := mkRequest {
  contents : list Turn;
  systemInstruction : JSString;
  googleSearch : bool }.

(** A parsed JSON body, reduced to the two paths the clients read:
  [body.error] with its [message] (both may be missing), and
  [body.candidates?.[0]?.content?.parts?.[0]?.text]. *)
Record Body := mkBody {
  bodyError : option (option JSString);
  bodyText : option JSString }.

(** A [Response]: [response.json()] rejects when the body is not JSON. *)
Record Response := mkResponse {
  status : nat;
  statusText : JSString;
  json : Completion Body }.

(** [response.ok]: the status is in the range 200-299. *)
Definition ok (r : Response) : bool :=
  (200 <=? status r)%nat && (status r <=? 299)%nat.

(** [fetch] rejects on a network-level failure. *)
Definition FetchResult := Completion Response.

(** What [next()] resolves with; [None] is [undefined]. *)
Record IterResult := mkIter { value : option JSString; done : bool }.

(** The mutable variables closed over by the iterator object. *)
Record Stream := mkStream {
  fullResponse : option JSString;
  chunks : list JSString;
  chunkIndex : nat }.

(** [fullResponse.split(/(\s+)/).filter(c => c.length > 0)] *)
Definition chunksOf (full : JSString) : list JSString :=
  filter nonEmpty (split_ws_capture full).

(** The network as the iterator sees it: the number of [fetch] calls and of
  [Math.random()] calls made so far, the requests sent and the timer
  delays awaited, in milliseconds (newest last). *)
Record Net := mkNet {
  nFetch : nat;
  nRandom : nat;
  requests : list Request;
  sleeps : list Q }.

(** The oracles of the network: the result of the [k]-th [fetch], the value
  of the [k]-th [Math.random()], and the text of the [TypeError] the engine
  raises when a property of [undefined] is read. *)
Record NetEnv := mkNetEnv {
  fetchResult : nat -> FetchResult;
  random : nat -> Q;
  typeErrorMessage : JSString }.

(** Driving an iterator by hand, as [while (!next.done)] and [for await] do:
  pull until a result has [done], appending each yielded value.  [fuel]
  bounds the number of pulls; [None] means it ran out. *)
Section Drain.
Variables St Wd : Type.
Variable next : St -> Wd -> Completion IterResult * St * Wd.

(** The text a pulled value contributes to [acc += value]: appending
    [undefined] appends the text "undefined". *)
Definition textOf (v : option JSString) : JSString :=
  match v with Some c => c | None => lit "undefined" end.

Fixpoint drain (fuel : nat) (frags : list JSString) (s : St) (w : Wd)
  : option (Completion (list JSString * IterResult) * St * Wd) :=
  match fuel with
  | O => None
  | S fuel' =>
      match next s w with
      | (Throw e, s', w') => Some (Throw e, s', w')
      | (Normal r, s', w') =>
          if done r then Some (Normal (frags, r), s', w')
          else drain fuel' (frags ++ [textOf (value r)]) s' w'
      end
  end.
End Drain.

(* ===================================================================== *)
(** * Data shared by the clients *)
(* ===================================================================== *)

(** Document and session identifiers are strings. *)
Definition Id := JSString.

Definition eqId (a b : Id) : bool :=
  if list_eq_dec N.eq_dec a b then true else false.

(** [!!x] for a string that may be [null]. *)
Definition truthy (x : option JSString) : bool :=
  match x with
  | Some (_ :: _) => true
  | _ => false
  end.

(** [a === b] for identifiers that may be [null]. *)
Definition eqOptId (a b : option Id) : bool :=
  match a, b with
  | Some x, Some y => eqId x y
  | None, None => true
  | _, _ => false
  end.

Inductive Sender := SenderUser | SenderBot.

(** [msg.sender === 'user' ? 'user' : 'model'] *)
Definition roleOf (s : Sender) : Role :=
  match s with
  | SenderUser => RoleUser
  | SenderBot => RoleModel
  end.

(** [Array.prototype.sort(cmp)] is stable; for a comparator that is a
  difference of numbers its result is the stable arrangement in
  non-decreasing order, computed here by insertion from the right. *)
Section Sort.
Variable A : Type.
Variable cmp : A -> A -> Z.

Fixpoint insertSorted (x : A) (l : list A) : list A :=
  match l with
  | [] => [x]
  | y :: l' => if (cmp x y <=? 0)%Z then x :: l else y :: insertSorted x l'
  end.

Fixpoint sortBy (l : list A) : list A :=
  match l with
  | [] => []
  | x :: l' => insertSorted x (sortBy l')
  end.
End Sort.

(* ===================================================================== *)
(** * src/index.js : the Firestore client with backoff *)
(* ===================================================================== *)

Module IndexJs.

Definition SYSTEM_INSTRUCTION : JSString :=
  lit "You are Mene Bot, an expert, cheerful, and helpful AI assistant. Keep your responses concise and highly informative. Use Google Search grounding for up-to-date facts when necessary.".

(** ** [askAIStream] *)
Section Stream.
Variable env : NetEnv.
Variable chatHistory : list Turn.
Variable systemInstruction : JSString.

Definition request : Request := mkRequest chatHistory systemInstruction true.

(** [fetchContent], given what [fetch] answered: the text it assigns to
    [fullResponse], or the error it throws. *)
Definition fetchContent (r : FetchResult) : Completion JSString :=
  match r with
  | Throw e => Throw e
  | Normal response =>
      if negb (ok response) then
        let errorDetails :=
          match json response with
          | Normal b => b
          | Throw _ => mkBody (Some (Some (lit "Unknown error format"))) None
          end in
        match bodyError errorDetails with
        | None => Throw (mkError (typeErrorMessage env))
        | Some m =>
            Throw (mkError (numToString (status response) ++ lit " "
                            ++ statusText response ++ lit ": " ++ textOf m))
        end
      else
        match json response with
        | Throw e => Throw e
        | Normal data =>
            Normal (orElse (bodyText data) (lit "No response received from AI."))
        end
  end.

(** [await withExponentialBackoff(fetchContent)] at network state [w]. *)
Definition fetchRun (w : Net) : Run JSString :=
  withExponentialBackoff
    (fun k => fetchContent (fetchResult env (nFetch w + k)))
    (fun k => random env (nRandom w + k)) 5.

Definition afterRun (w : Net) (run : Run JSString) : Net :=
  mkNet (nFetch w + invocations run) (nRandom w + length (delays run))
        (requests w ++ repeat request (invocations run))
        (sleeps w ++ delays run).

Definition next (s : Stream) (w : Net) : Completion IterResult * Stream * Net :=
  let '(fetched, s1, w1) :=
    match fullResponse s with
    | Some _ => (Normal tt, s, w)
    | None =>
        let run := fetchRun w in
        match outcome run with
        | Normal (Some full) =>
            (Normal tt, mkStream (Some full) (chunksOf full) (chunkIndex s),
             afterRun w run)
        | Normal None => (Normal tt, s, afterRun w run)
        | Throw error => (Throw error, s, afterRun w run)
        end
    end in
  match fetched with
  | Throw error =>
      (Normal (mkIter (Some (lit "ERROR: Failed to connect to AI. Details: "
                             ++ message error)) true), s1, w1)
  | Normal _ =>
      if (length (chunks s1) <=? chunkIndex s1)%nat
      then (Normal (mkIter None true), s1, w1)
      else
        (Normal (mkIter (nth_error (chunks s1) (chunkIndex s1)) false),
         mkStream (fullResponse s1) (chunks s1) (S (chunkIndex s1)),
         mkNet (nFetch w1) (nRandom w1) (requests w1) (sleeps w1 ++ [20]))
  end.

Definition askAIStream : Stream := mkStream None [] 0.
End Stream.

(** ** The Firestore collections of one user *)

(** A document of [sessions]; [createdAt] is [null] while the server
    timestamp is pending, and [title] may be missing. *)
Record SessionDoc := mkSessionDoc {
  sdId : Id;
  sdTitle : option JSString;
  sdCreatedAt : option Z }.

(** A document of [messages]. *)
Record MessageDoc := mkMessageDoc {
  mdId : Id;
  mdSessionId : Id;
  mdSender : Sender;
  mdText : JSString;
  mdTimestamp : option Z }.

(** The collections, in the order in which a query without [orderBy]
    returns their documents. *)
Record Firestore := mkFirestore {
  sessionsColl : list SessionDoc;
  messagesColl : list MessageDoc }.

(** A document reference, as put into a write batch. *)
Inductive Ref := MessageRef (id : Id) | SessionRef (id : Id).

Definition batchDelete (fs : Firestore) (r : Ref) : Firestore :=
  match r with
  | MessageRef i =>
      mkFirestore (sessionsColl fs)
                  (filter (fun d => negb (eqId (mdId d) i)) (messagesColl fs))
  | SessionRef i =>
      mkFirestore (filter (fun d => negb (eqId (sdId d) i)) (sessionsColl fs))
                  (messagesColl fs)
  end.

(** A committed batch applies all of its writes at once. *)
Definition applyBatch (batch : list Ref) (fs : Firestore) : Firestore :=
  fold_left batchDelete batch fs.

(** [setDoc(ref, { title }, { merge: true })] on a session document. *)
Fixpoint mergeTitle (id : Id) (t : JSString) (l : list SessionDoc) : list SessionDoc :=
  match l with
  | [] => [mkSessionDoc id (Some t) None]
  | d :: l' =>
      if eqId (sdId d) id then mkSessionDoc id (Some t) (sdCreatedAt d) :: l'
      else d :: mergeTitle id t l'
  end.

(** ** React state *)

Record Session := mkSession {
  sessId : Id;
  title : JSString;
  createdAt : Z }.

Record Message := mkMessage {
  msgId : Id;
  sender : Sender;
  text : JSString;
  timestamp : Z }.

Record UI := mkUI {
  sessions : list Session;
  currentSessionId : option Id;
  messages : list Message;
  input : JSString;
  isTyping : bool;
  isAuthReady : bool;
  userId : option Id;
  db : bool;
  error : option JSString }.

(** A function scheduled with [setTimeout]; it closes over the state of
    the render that created it. *)
Inductive Timer := AutoStart (delayMs : nat) (closure : UI).

Record World := mkWorld {
  net : Net;
  fs : Firestore;
  nStore : nat;
  nIds : nat;
  ui : UI;
  timers : list Timer }.

(** The oracles: the network, whether the [k]-th Firestore operation fails
    (and with which message), the [k]-th generated identifier, the server
    timestamp given to the [k]-th operation, [new Date()] and
    [toLocaleTimeString()]. *)
Record Env := mkEnv {
  netEnv : NetEnv;
  storeError : nat -> option JSString;
  freshId : nat -> Id;
  serverTime : nat -> Z;
  clock : Z;
  localeTime : JSString }.

Definition setNet (n : Net) (w : World) : World :=
  mkWorld n (fs w) (nStore w) (nIds w) (ui w) (timers w).
Definition setFs (f : Firestore) (w : World) : World :=
  mkWorld (net w) f (nStore w) (nIds w) (ui w) (timers w).
Definition tickStore (k : nat) (w : World) : World :=
  mkWorld (net w) (fs w) (nStore w + k) (nIds w) (ui w) (timers w).
Definition tickIds (w : World) : World :=
  mkWorld (net w) (fs w) (nStore w) (S (nIds w)) (ui w) (timers w).
Definition setUI (f : UI -> UI) (w : World) : World :=
  mkWorld (net w) (fs w) (nStore w) (nIds w) (f (ui w)) (timers w).
Definition addTimer (t : Timer) (w : World) : World :=
  mkWorld (net w) (fs w) (nStore w) (nIds w) (ui w) (timers w ++ [t]).

Definition setSessions (v : list Session) : World -> World :=
  setUI (fun u => mkUI v (currentSessionId u) (messages u) (input u)
                       (isTyping u) (isAuthReady u) (userId u) (db u) (error u)).
Definition setCurrentSessionId (v : option Id) : World -> World :=
  setUI (fun u => mkUI (sessions u) v (messages u) (input u)
                       (isTyping u) (isAuthReady u) (userId u) (db u) (error u)).
Definition setMessages (f : list Message -> list Message) : World -> World :=
  setUI (fun u => mkUI (sessions u) (currentSessionId u) (f (messages u)) (input u)
                       (isTyping u) (isAuthReady u) (userId u) (db u) (error u)).
Definition setInput (v : JSString) : World -> World :=
  setUI (fun u => mkUI (sessions u) (currentSessionId u) (messages u) v
                       (isTyping u) (isAuthReady u) (userId u) (db u) (error u)).
Definition setIsTyping (v : bool) : World -> World :=
  setUI (fun u => mkUI (sessions u) (currentSessionId u) (messages u) (input u)
                       v (isAuthReady u) (userId u) (db u) (error u)).
Definition setError (v : option JSString) : World -> World :=
  setUI (fun u => mkUI (sessions u) (currentSessionId u) (messages u) (input u)
                       (isTyping u) (isAuthReady u) (userId u) (db u) v).

Section App.
Variable env : Env.

(** *** [saveMessage] *)
(** [closure] is the state of the render whose [saveMessage] is called. *)
Definition saveMessage (closure : UI) (who : Sender) (txt : JSString)
           (sessionId : option Id) (w : World) : Completion unit * World :=
  match sessionId with
  | Some sid =>
      if negb (db closure) || negb (truthy (userId closure)) || negb (truthy sessionId)
      then (Throw (mkError (lit "Cannot save message: Authentication not complete or session missing.")), w)
      else
        match storeError env (nStore w) with
        | Some m =>
            (Throw (mkError (lit "Could not save message to database: " ++ m)),
             tickStore 1 w)
        | None =>
            (Normal tt,
             tickIds (tickStore 1
               (setFs (mkFirestore (sessionsColl (fs w))
                         (messagesColl (fs w) ++
                          [mkMessageDoc (freshId env (nIds w)) sid who txt
                                        (Some (serverTime env (nStore w)))])) w)))
        end
  | None =>
      (Throw (mkError (lit "Cannot save message: Authentication not complete or session missing.")), w)
  end.

(** *** [createSession] *)
Definition createSession (closure : UI) (initialTitle : option JSString)
           (w : World) : World :=
  if negb (db closure) || negb (truthy (userId closure)) then w
  else
    match storeError env (nStore w) with
    | None =>
        let id := freshId env (nIds w) in
        let newSession :=
          mkSessionDoc id
            (Some (orElse initialTitle (lit "New Chat " ++ localeTime env)))
            (Some (serverTime env (nStore w))) in
        setCurrentSessionId (Some id)
          (tickIds (tickStore 1
             (setFs (mkFirestore (sessionsColl (fs w) ++ [newSession])
                                 (messagesColl (fs w))) w)))
    | Some m =>
        setError (Some (lit "Could not create new session: " ++ m)) (tickStore 1 w)
    end.

(** *** [deleteSession] *)
Definition deleteSession (closure : UI) (sessionIdToDelete : Id)
           (w : World) : World :=
  if negb (db closure) || negb (truthy (userId closure)) then w
  else
    (* getDocs(messagesQuery), through the backoff policy *)
    let read := withExponentialBackoff
                  (fun k => match storeError env (nStore w + k) with
                            | Some m => Throw (mkError m)
                            | None => Normal tt
                            end)
                  (fun k => random (netEnv env) (nRandom (net w) + k)) 5 in
    let w1 := setNet (mkNet (nFetch (net w))
                            (nRandom (net w) + length (delays read))
                            (requests (net w))
                            (sleeps (net w) ++ delays read))
                     (tickStore (invocations read) w) in
    match outcome read with
    | Throw e =>
        setError (Some (lit "Could not delete session: " ++ message e)) w1
    | Normal _ =>
        let messagesSnapshot :=
          filter (fun d => eqId (mdSessionId d) sessionIdToDelete)
                 (messagesColl (fs w1)) in
        let batch := map (fun d => MessageRef (mdId d)) messagesSnapshot
                     ++ [SessionRef sessionIdToDelete] in
        (* batch.commit() *)
        match storeError env (nStore w1) with
        | Some m =>
            setError (Some (lit "Could not delete session: " ++ m)) (tickStore 1 w1)
        | None =>
            let w2 := tickStore 1 (setFs (applyBatch batch (fs w1)) w1) in
            if eqOptId (Some sessionIdToDelete) (currentSessionId closure) then
              let remainingSessions :=
                filter (fun s => negb (eqId (sessId s) sessionIdToDelete))
                       (sessions closure) in
              match remainingSessions with
              | s :: _ => setCurrentSessionId (Some (sessId s)) w2
              | [] => setMessages (fun _ => []) (setCurrentSessionId None w2)
              end
            else w2
        end
    end.

(** *** Listener 1: the sessions snapshot *)
(** [snapshot] is what the query [orderBy('createdAt', 'desc')] delivered. *)
Definition onSessionsSnapshot (closure : UI) (snapshot : list SessionDoc)
           (w : World) : World :=
  let fetchedSessions :=
    map (fun d =>
           mkSession (sdId d)
             (orElse (sdTitle d) (lit "Chat " ++ firstn 5 (sdId d)))
             (match sdCreatedAt d with Some t => t | None => clock env end))
        snapshot in
  let w1 := setSessions fetchedSessions w in
  if (0 <? length fetchedSessions)%nat && negb (truthy (currentSessionId closure))
  then
    match fetchedSessions with
    | s :: _ => setCurrentSessionId (Some (sessId s)) w1
    | [] => w1
    end
  else if (length fetchedSessions =? 0)%nat && truthy (userId closure)
  then addTimer (AutoStart 100 closure) w1
  else w1.

(** The sessions effect attaches the listener only once authentication
    is complete; [snapshot] is then handed to its callback. *)
Definition sessionsEffect (closure : UI) (snapshot : list SessionDoc)
           (w : World) : World :=
  if negb (isAuthReady closure) || negb (db closure)
     || negb (truthy (userId closure))
  then w
  else onSessionsSnapshot closure snapshot w.

(** The body of a scheduled function. *)
Definition runTimer (t : Timer) (w : World) : World :=
  match t with
  | AutoStart _ closure =>
      if truthy (userId closure) && db closure
      then createSession closure (Some (lit "Auto-Start Chat")) w
      else w
  end.

(** Let every pending timer fire, in the order of scheduling. *)
Definition runTimers (w : World) : World :=
  fold_left (fun w' t => runTimer t w') (timers w)
            (mkWorld (net w) (fs w) (nStore w) (nIds w) (ui w) []).

(** *** Listener 2: the messages snapshot *)
(** The query [where('sessionId', '==', currentSessionId), limit(100)]. *)
Definition messagesQuery (f : Firestore) (sid : Id) : list MessageDoc :=
  firstn 100 (filter (fun d => eqId (mdSessionId d) sid) (messagesColl f)).

Definition onMessagesSnapshot (snapshot : list MessageDoc) (w : World) : World :=
  let fetchedMessages :=
    map (fun d =>
           mkMessage (mdId d) (mdSender d) (mdText d)
             (match mdTimestamp d with Some t => t | None => clock env end))
        snapshot in
  setMessages
    (fun _ => sortBy (fun a b => timestamp a - timestamp b)%Z fetchedMessages) w.

(** The messages effect: with no session selected the list is emptied,
    otherwise the listener shows what the query delivers. *)
Definition messagesEffect (w : World) : World :=
  match currentSessionId (ui w) with
  | Some sid =>
      if negb (isAuthReady (ui w)) || negb (db (ui w))
         || negb (truthy (userId (ui w))) || negb (truthy (Some sid))
      then setMessages (fun _ => []) w
      else onMessagesSnapshot (messagesQuery (fs w) sid) w
  | None => setMessages (fun _ => []) w
  end.

(** *** [handleSend] *)

(** The context sent to the completion service. *)
Definition chatHistoryForAPI (msgs : list Message) (userInput : JSString)
  : list Turn :=
  map (fun msg => mkTurn (roleOf (sender msg)) (text msg))
      (filter (fun msg => negb (startsWith (text msg) (lit "ERROR"))) msgs)
  ++ [mkTurn RoleUser userInput].

(** The state update of the streaming loop: the text of the last
    message is replaced when that message is the placeholder. *)
Definition updateLast (botMessageId : Id) (botText : JSString)
           (prev : list Message) : list Message :=
  match rev prev with
  | [] => prev
  | m :: before =>
      if eqId (msgId m) botMessageId
      then rev before ++ [mkMessage (msgId m) (sender m) botText (timestamp m)]
      else prev
  end.

(** [while (!next.done) { ... next = await generator.next(); }];
    [fuel] bounds the number of iterations. *)
Fixpoint streamLoop (fuel : nat) (hist : list Turn) (botMessageId : Id)
         (nxt : IterResult) (botText : JSString) (s : Stream) (w : World)
  : Completion JSString * Stream * World :=
  match fuel with
  | O => (Normal botText, s, w)
  | S fuel' =>
      if done nxt then (Normal botText, s, w)
      else
        let botText' := botText ++ textOf (value nxt) in
        let w1 := setMessages (updateLast botMessageId botText') w in
        match next (netEnv env) hist SYSTEM_INSTRUCTION s (net w1) with
        | (Normal nxt', s', n') =>
            streamLoop fuel' hist botMessageId nxt' botText' s' (setNet n' w1)
        | (Throw e, s', n') => (Throw e, s', setNet n' w1)
        end
  end.

(** Step 5 of [handleSend]: the title of the session. *)
Definition updateTitle (closure : UI) (sid : Id) (userInput : JSString)
           (w : World) : Completion unit * World :=
  let currentSession := find (fun s => eqId (sessId s) sid) (sessions closure) in
  if db closure && truthy (userId closure)
     && match currentSession with
        | None => true
        | Some s => startsWith (title s) (lit "Auto-Start Chat")
        end
  then
    let firstWords := join (lit " ") (firstn 5 (split_ws userInput)) ++ lit "..." in
    let write := withExponentialBackoff
                   (fun k => match storeError env (nStore w + k) with
                             | Some m => Throw (mkError m)
                             | None => Normal tt
                             end)
                   (fun k => random (netEnv env) (nRandom (net w) + k)) 5 in
    let w1 := setNet (mkNet (nFetch (net w))
                            (nRandom (net w) + length (delays write))
                            (requests (net w))
                            (sleeps (net w) ++ delays write))
                     (tickStore (invocations write) w) in
    match outcome write with
    | Throw e => (Throw e, w1)
    | Normal _ =>
        (Normal tt,
         setFs (mkFirestore (mergeTitle sid firstWords (sessionsColl (fs w1)))
                            (messagesColl (fs w1))) w1)
    end
  else (Normal tt, w).

(** The [try] block of [handleSend]: the stream is driven to its end,
    then the bot message is saved and the title updated. *)
Definition tryBlock (closure : UI) (sid : Id) (userInput : JSString)
           (hist : list Turn) (botMessageId : Id) (w2 : World)
  : Completion unit * World :=
  match next (netEnv env) hist SYSTEM_INSTRUCTION askAIStream (net w2) with
  | (Throw e, _, n) => (Throw e, setNet n w2)
  | (Normal nxt, s, n) =>
      match streamLoop (S (length (chunks s))) hist botMessageId
                       nxt [] s (setNet n w2) with
      | (Throw e, _, w3) => (Throw e, w3)
      | (Normal botText, _, w3) =>
          (* 4. the final bot message *)
          match saveMessage closure SenderBot botText (Some sid) w3 with
          | (Throw e, w4) => (Throw e, w4)
          | (Normal _, w4) => updateTitle closure sid userInput w4
          end
      end
  end.

(** The [catch] block, applied to the completion of the [try] block. *)
Definition catchBlock (closure : UI) (sid : Id)
           (tried : Completion unit * World) : Completion unit * World :=
  match tried with
  | (Normal _, w') => (Normal tt, w')
  | (Throw e, w') =>
      let botText :=
        lit "ERROR: Failed to get response from AI. Details: " ++ message e in
      saveMessage closure SenderBot botText (Some sid)
                  (setError (Some botText) w')
  end.

(** [closure] is the state of the render whose [handleSend] runs; [w]
    is the world at the time of the call.  The result tells whether the
    promise of [handleSend] resolves or rejects. *)
Definition handleSend (closure : UI) (w : World) : Completion unit * World :=
  match currentSessionId closure with
  | Some sid =>
      if negb (nonEmpty (trim (input closure))) || isTyping closure
         || negb (truthy (userId closure)) || negb (truthy (Some sid))
      then
        (Normal tt,
         if negb (truthy (Some sid))
         then setError (Some (lit "Please start a new chat session first or wait for the auto-start.")) w
         else w)
      else
        let userInput := input closure in
        let w0 := setError None (setIsTyping true (setInput [] w)) in
        (* 1. the chat history for context *)
        let hist := chatHistoryForAPI (messages closure) userInput in
        (* 2. the user message *)
        match saveMessage closure SenderUser userInput (Some sid) w0 with
        | (Throw e, w1) =>
            (Normal tt, setError (Some (message e)) (setIsTyping false w1))
        | (Normal _, w1) =>
            (* 3. the local placeholder *)
            let botMessageId := freshId env (nIds w1) in
            let w2 :=
              setMessages
                (fun prev => prev ++ [mkMessage botMessageId SenderBot [] (clock env)])
                (tickIds w1) in
            match catchBlock closure sid
                    (tryBlock closure sid userInput hist botMessageId w2) with
            | (Throw e, w5) => (Throw e, w5)
            | (Normal _, w5) =>
                (* 6. cleanup *)
                (Normal tt,
                 setIsTyping false
                   (setMessages
                      (filter (fun msg => negb (eqId (msgId msg) botMessageId)))
                      w5))
            end
        end
  | None =>
      (Normal tt,
       setError (Some (lit "Please start a new chat session first or wait for the auto-start.")) w)
  end.
End App.

End IndexJs.

(* ===================================================================== *)
(** * src/src/App.jsx, first part : the Firestore client without backoff *)
(* ===================================================================== *)

Module AppJsx.

Definition SYSTEM_INSTRUCTION : JSString :=
  lit "You are Mene, a helpful and friendly AI assistant. Keep your responses concise.".

(** An element of the history handed to [askAIStream]. *)
Record HistoryItem := mkHistoryItem { hSender : Sender; hText : JSString }.

(** ** [askAIStream] *)
Section Stream.
Variable env : NetEnv.
Variable inputText : JSString.
Variable chatHistory : list HistoryItem.

Definition historyForAPI : list Turn :=
  map (fun msg => mkTurn (roleOf (hSender msg)) (hText msg)) chatHistory.

Definition payload : Request :=
  mkRequest (historyForAPI ++ [mkTurn RoleUser inputText]) SYSTEM_INSTRUCTION false.

(** The first call of [next()], given what [fetch] answered: the text
    assigned to [fullResponse], or the error thrown. *)
Definition fetchReply (r : FetchResult) : Completion JSString :=
  match r with
  | Throw e => Throw e
  | Normal response =>
      if negb (ok response) then
        match json response with
        | Throw e => Throw e
        | Normal errorDetails =>
            Throw (mkError
              (numToString (status response) ++ lit " " ++ statusText response
               ++ lit ": "
               ++ orElse (match bodyError errorDetails with
                          | Some m => m
                          | None => None
                          end) (lit "Unknown API Error")))
        end
      else
        match json response with
        | Throw e => Throw e
        | Normal data =>
            Normal (orElse (bodyText data) (lit "No response received from AI."))
        end
  end.

Definition next (s : Stream) (w : Net) : Completion IterResult * Stream * Net :=
  let '(fetched, s1, w1) :=
    match fullResponse s with
    | Some _ => (Normal tt, s, w)
    | None =>
        let w' := mkNet (S (nFetch w)) (nRandom w) (requests w ++ [payload])
                        (sleeps w) in
        match fetchReply (fetchResult env (nFetch w)) with
        | Normal full =>
            (Normal tt, mkStream (Some full) (chunksOf full) (chunkIndex s), w')
        | Throw error => (Throw error, s, w')
        end
    end in
  match fetched with
  | Throw error =>
      (Normal (mkIter (Some (lit "ERROR: Failed to connect to AI. Details: "
                             ++ message error)) true), s1, w1)
  | Normal _ =>
      if (length (chunks s1) <=? chunkIndex s1)%nat
      then (Normal (mkIter (fullResponse s1) true), s1, w1)
      else
        (Normal (mkIter (nth_error (chunks s1) (chunkIndex s1)) false),
         mkStream (fullResponse s1) (chunks s1) (S (chunkIndex s1)),
         mkNet (nFetch w1) (nRandom w1) (requests w1) (sleeps w1 ++ [0]))
  end.

Definition askAIStream : Stream := mkStream None [] 0.
End Stream.

(** ** The Firestore collections of one user *)

Record SessionDoc := mkSessionDoc {
  sdId : Id;
  sdName : option JSString;
  sdCreatedAt : option Z }.

(** A document of [sessions/{sessionId}/messages]. *)
Record MessageDoc := mkMessageDoc {
  mdId : Id;
  mdSessionId : Id;
  mdSender : Sender;
  mdText : JSString;
  mdCreatedAt : option Z }.

Record Firestore := mkFirestore {
  sessionsColl : list SessionDoc;
  messagesColl : list MessageDoc }.

Fixpoint mergeName (id : Id) (n : JSString) (l : list SessionDoc) : list SessionDoc :=
  match l with
  | [] => [mkSessionDoc id (Some n) None]
  | d :: l' =>
      if eqId (sdId d) id then mkSessionDoc id (Some n) (sdCreatedAt d) :: l'
      else d :: mergeName id n l'
  end.

(** ** React state *)

(** A loaded session: [{ id, ...doc.data() }]. *)
Record Session := mkSession {
  sessId : Id;
  name : option JSString;
  createdAt : option Z }.

Record Message := mkMessage {
  msgId : Id;
  sender : Sender;
  text : JSString }.

Record UI := mkUI {
  sessions : list Session;
  currentSessionId : option Id;
  messages : list Message;
  input : JSString;
  isTyping : bool;
  isAuthReady : bool;
  userId : option Id;
  db : bool;
  errorMessage : option JSString }.

Inductive Timer := CreateSession (delayMs : nat) (closure : UI).

Record World := mkWorld {
  net : Net;
  fs : Firestore;
  nStore : nat;
  nIds : nat;
  ui : UI;
  timers : list Timer }.

(** The oracles; [refError] is the message of the error that [doc()]
    raises when the database or a path segment is missing. *)
Record Env := mkEnv {
  netEnv : NetEnv;
  storeError : nat -> option JSString;
  freshId : nat -> Id;
  serverTime : nat -> Z;
  refError : JSString }.

Definition setNet (n : Net) (w : World) : World :=
  mkWorld n (fs w) (nStore w) (nIds w) (ui w) (timers w).
Definition setFs (f : Firestore) (w : World) : World :=
  mkWorld (net w) f (nStore w) (nIds w) (ui w) (timers w).
Definition tickStore (w : World) : World :=
  mkWorld (net w) (fs w) (S (nStore w)) (nIds w) (ui w) (timers w).
Definition tickIds (w : World) : World :=
  mkWorld (net w) (fs w) (nStore w) (S (nIds w)) (ui w) (timers w).
Definition setUI (f : UI -> UI) (w : World) : World :=
  mkWorld (net w) (fs w) (nStore w) (nIds w) (f (ui w)) (timers w).
Definition addTimer (t : Timer) (w : World) : World :=
  mkWorld (net w) (fs w) (nStore w) (nIds w) (ui w) (timers w ++ [t]).

Definition setSessions (v : list Session) : World -> World :=
  setUI (fun u => mkUI v (currentSessionId u) (messages u) (input u)
                       (isTyping u) (isAuthReady u) (userId u) (db u) (errorMessage u)).
Definition setCurrentSessionId (v : option Id) : World -> World :=
  setUI (fun u => mkUI (sessions u) v (messages u) (input u)
                       (isTyping u) (isAuthReady u) (userId u) (db u) (errorMessage u)).
Definition setMessages (f : list Message -> list Message) : World -> World :=
  setUI (fun u => mkUI (sessions u) (currentSessionId u) (f (messages u)) (input u)
                       (isTyping u) (isAuthReady u) (userId u) (db u) (errorMessage u)).
Definition setInput (v : JSString) : World -> World :=
  setUI (fun u => mkUI (sessions u) (currentSessionId u) (messages u) v
                       (isTyping u) (isAuthReady u) (userId u) (db u) (errorMessage u)).
Definition setIsTyping (v : bool) : World -> World :=
  setUI (fun u => mkUI (sessions u) (currentSessionId u) (messages u) (input u)
                       v (isAuthReady u) (userId u) (db u) (errorMessage u)).
Definition setErrorMessage (v : option JSString) : World -> World :=
  setUI (fun u => mkUI (sessions u) (currentSessionId u) (messages u) (input u)
                       (isTyping u) (isAuthReady u) (userId u) (db u) v).

Section App.
Variable env : Env.

(** *** [createSession] *)
Definition createSession (closure : UI) (w : World) : World :=
  if negb (db closure) || negb (truthy (userId closure)) then w
  else
    let id := freshId env (nIds w) in
    let placeholderName :=
      lit "Chat " ++ numToString (length (sessions closure) + 1) in
    match storeError env (nStore w) with
    | None =>
        setCurrentSessionId (Some id)
          (tickStore
             (setFs (mkFirestore
                       (sessionsColl (fs w)
                        ++ [mkSessionDoc id (Some placeholderName)
                                         (Some (serverTime env (nStore w)))])
                       (messagesColl (fs w)))
                    (tickIds w)))
    | Some _ =>
        setErrorMessage (Some (lit "Failed to create a new session."))
                        (tickStore (tickIds w))
    end.

(** *** The sessions listener *)
Definition onSessionsSnapshot (closure : UI) (snapshot : list SessionDoc)
           (w : World) : World :=
  let loadedSessions :=
    map (fun d => mkSession (sdId d) (sdName d) (sdCreatedAt d)) snapshot in
  let w1 := setSessions loadedSessions w in
  match loadedSessions with
  | [] => addTimer (CreateSession 0 closure) w1
  | s :: _ =>
      if negb (truthy (currentSessionId closure))
         || match find (fun x => eqOptId (Some (sessId x)) (currentSessionId closure))
                       loadedSessions with
            | Some _ => false
            | None => true
            end
      then setCurrentSessionId (Some (sessId s)) w1
      else w1
  end.

Definition sessionsEffect (closure : UI) (snapshot : list SessionDoc)
           (w : World) : World :=
  if negb (isAuthReady closure) || negb (db closure)
     || negb (truthy (userId closure))
  then w
  else onSessionsSnapshot closure snapshot w.

Definition runTimer (t : Timer) (w : World) : World :=
  match t with
  | CreateSession _ closure => createSession closure w
  end.

Definition runTimers (w : World) : World :=
  fold_left (fun w' t => runTimer t w') (timers w)
            (mkWorld (net w) (fs w) (nStore w) (nIds w) (ui w) []).

(** *** [saveMessage] *)
Definition saveMessage (closure : UI) (who : Sender) (txt : JSString)
           (w : World) : World :=
  match currentSessionId closure with
  | Some sid =>
      if negb (db closure) || negb (truthy (userId closure))
         || negb (truthy (Some sid)) || negb (nonEmpty txt)
      then w
      else
        match storeError env (nStore w) with
        | None =>
            tickIds (tickStore
              (setFs (mkFirestore (sessionsColl (fs w))
                        (messagesColl (fs w)
                         ++ [mkMessageDoc (freshId env (nIds w)) sid who txt
                                          (Some (serverTime env (nStore w)))]))
                     w))
        | Some _ =>
            setErrorMessage (Some (lit "Failed to save message to database."))
                            (tickStore w)
        end
  | None => w
  end.

(** *** [handleSend] *)

(** [for await (const chunk of stream) { ... }]: pull, stop on [done],
    otherwise run the body and pull again. *)
Fixpoint forAwait (fuel : nat) (textToSend : JSString)
         (historyForAI : list HistoryItem) (tempBotId : Id)
         (accumulatedBotText : JSString) (s : Stream) (w : World)
  : Completion JSString * Stream * World :=
  match fuel with
  | O => (Normal accumulatedBotText, s, w)
  | S fuel' =>
      match next (netEnv env) textToSend historyForAI s (net w) with
      | (Throw e, s', n') => (Throw e, s', setNet n' w)
      | (Normal r, s', n') =>
          if done r then (Normal accumulatedBotText, s', setNet n' w)
          else
            let acc := accumulatedBotText ++ textOf (value r) in
            forAwait fuel' textToSend historyForAI tempBotId acc s'
              (setMessages
                 (map (fun msg => if eqId (msgId msg) tempBotId
                                  then mkMessage (msgId msg) (sender msg) acc
                                  else msg))
                 (setNet n' w))
      end
  end.

(** [transcript] is the optional argument; [closure] the render state. *)
Definition handleSend (closure : UI) (transcript : option JSString)
           (w : World) : Completion unit * World :=
  let textToSend := trim (orElse transcript (input closure)) in
  if negb (nonEmpty textToSend) then (Normal tt, w)
  else
    let w0 := setIsTyping true (setErrorMessage None (setInput [] w)) in
    let w1 := saveMessage closure SenderUser textToSend w0 in
    let historyForAI :=
      map (fun msg => mkHistoryItem (sender msg) (text msg)) (messages closure) in
    let tempBotId := freshId env (nIds w1) in
    let w2 := setMessages (fun prev => prev ++ [mkMessage tempBotId SenderBot []])
                          (tickIds w1) in
    (* the first pull fixes the number of fragments, hence of iterations *)
    let '(streamed, w3) :=
      match next (netEnv env) textToSend historyForAI askAIStream (net w2) with
      | (Throw e, _, n) => (Throw e, setNet n w2)
      | (Normal r, s, n) =>
          if done r then (Normal [], setNet n w2)
          else
            let acc := textOf (value r) in
            let '(res, _, w') :=
              forAwait (S (length (chunks s))) textToSend historyForAI tempBotId
                acc s
                (setMessages
                   (map (fun msg => if eqId (msgId msg) tempBotId
                                    then mkMessage (msgId msg) (sender msg) acc
                                    else msg))
                   (setNet n w2)) in
            (res, w')
      end in
    let accumulatedBotText :=
      match streamed with
      | Normal acc => acc
      | Throw _ => lit "Sorry, an error occurred."
      end in
    let w4 := setIsTyping false w3 in
    (* doc(db, SESSIONS_COLLECTION_PATH, userId, 'sessions', currentSessionId) *)
    match currentSessionId closure with
    | Some sid =>
        if db closure && truthy (userId closure) && truthy (Some sid) then
          let named : Completion unit * World :=
            if (length (messages closure) =? 0)%nat then
              let sessionName :=
                firstn 30 textToSend
                ++ (if (30 <? length textToSend)%nat then lit "..." else []) in
              match storeError env (nStore w4) with
              | Some m => (Throw (mkError m), tickStore w4)
              | None =>
                  (Normal tt,
                   tickStore
                     (setFs (mkFirestore
                               (mergeName sid sessionName (sessionsColl (fs w4)))
                               (messagesColl (fs w4))) w4))
              end
            else (Normal tt, w4) in
          match named with
          | (Throw e, w5) => (Throw e, w5)
          | (Normal _, w5) =>
              (Normal tt, saveMessage closure SenderBot accumulatedBotText w5)
          end
        else (Throw (mkError (refError env)), w4)
    | None => (Throw (mkError (refError env)), w4)
    end.
End App.

End AppJsx.

(* ===================================================================== *)
(** * src/unnamed/part_000 : [askAIStream] of the three-part rewrite *)
(* ===================================================================== *)

Module Part000.

Definition SYSTEM_INSTRUCTION : JSString :=
  lit "You are Mene. Keep responses short and friendly.".

(** The default reply: the single character U+2026. *)
Definition ELLIPSIS : JSString := [8230%N].

Section Stream.
Variable env : NetEnv.
Variable userText : JSString.
Variable history : list AppJsx.HistoryItem.

Definition formattedHistory : list Turn :=
  map (fun msg => mkTurn (roleOf (AppJsx.hSender msg)) (AppJsx.hText msg)) history.

Definition payload : Request :=
  mkRequest (formattedHistory ++ [mkTurn RoleUser userText]) SYSTEM_INSTRUCTION false.

(** The status of the response is not looked at. *)
Definition fetchReply (r : FetchResult) : Completion JSString :=
  match r with
  | Throw e => Throw e
  | Normal response =>
      match json response with
      | Throw e => Throw e
      | Normal data => Normal (orElse (bodyText data) ELLIPSIS)
      end
  end.

(** No [try]: a rejection inside [next()] rejects the pull. *)
Definition next (s : Stream) (w : Net) : Completion IterResult * Stream * Net :=
  let '(fetched, s1, w1) :=
    match fullResponse s with
    | Some _ => (Normal tt, s, w)
    | None =>
        let w' := mkNet (S (nFetch w)) (nRandom w) (requests w ++ [payload])
                        (sleeps w) in
        match fetchReply (fetchResult env (nFetch w)) with
        | Normal full =>
            (Normal tt, mkStream (Some full) (chunksOf full) (chunkIndex s), w')
        | Throw error => (Throw error, s, w')
        end
    end in
  match fetched with
  | Throw error => (Throw error, s1, w1)
  | Normal _ =>
      if (length (chunks s1) <=? chunkIndex s1)%nat
      then (Normal (mkIter (fullResponse s1) true), s1, w1)
      else
        (Normal (mkIter (nth_error (chunks s1) (chunkIndex s1)) false),
         mkStream (fullResponse s1) (chunks s1) (S (chunkIndex s1)), w1)
  end.

Definition askAIStream : Stream := mkStream None [] 0.
End Stream.

End Part000.

(* ===================================================================== *)
(** * src/src/App.jsx, second part : the Express server over SQLite *)
(* ===================================================================== *)

Module ServerJs.

(** A row of [chats] and a row of [messages]; [DATETIME] values are
    seconds, whose order is the order of their text form. *)
Record ChatRow := mkChatRow {
  chat_id : Z;
  title : JSString;
  created_at : Z }.

Record MessageRow := mkMessageRow {
  message_id : Z;
  msg_chat_id : Z;
  sender : JSString;
  content : JSString;
  timestamp : Z }.

(** The tables, in rowid order. *)
Record Db := mkDb {
  chats : list ChatRow;
  messages : list MessageRow }.

(** One element of [data] in the answer to [GET .../messages]. *)
Record MessageJson := mkMessageJson {
  id : Z;
  jsonSender : JSString;
  text : JSString }.

Inductive Payload :=
  | ErrorJson (error : JSString)
  | MessageOnly (msg : JSString)
  | DataJson (data : list MessageJson).

Record Reply := mkReply { code : nat; body : Payload }.

(** [DELETE FROM chats WHERE chat_id = ?].  Whether the rows of
    [messages] that reference the chat go with it depends on the foreign-key
    enforcement of the connection, which the server never sets:
    [foreignKeys] stands for what the SQLite build does by default; with
    enforcement the cascade follows the deleted chat rows.  The result
    carries [this.changes]. *)
Definition sqlDeleteChat (foreignKeys : bool) (chatId : Z) (d : Db) : nat * Db :=
  let changes := length (filter (fun c => (chat_id c =? chatId)%Z) (chats d)) in
  (changes,
   mkDb (filter (fun c => negb (chat_id c =? chatId)%Z) (chats d))
        (if foreignKeys && (0 <? changes)%nat
         then filter (fun m => negb (msg_chat_id m =? chatId)%Z) (messages d)
         else messages d)).

(** [app.delete('/api/chats/:id')]; [sqlError] tells whether the statement
    fails. *)
Definition deleteChatHandler (foreignKeys : bool) (sqlError : option JSString)
           (chatId : Z) (d : Db) : Reply * Db :=
  match sqlError with
  | Some m => (mkReply 500 (ErrorJson m), d)
  | None =>
      let '(changes, d') := sqlDeleteChat foreignKeys chatId d in
      if (changes =? 0)%nat
      then (mkReply 404 (MessageOnly (lit "Chat not found")), d')
      else (mkReply 200 (MessageOnly (lit "Chat deleted successfully")), d')
  end.

(** [SELECT ... FROM messages WHERE chat_id = ? ORDER BY timestamp ASC].
    The statement leaves the order among rows with equal timestamps to the
    engine; here they come in rowid order, which is one of the orders it may
    give.  What is proved about a listing holds for every ascending
    arrangement of the rows, or is stated for timestamps that differ. *)
Definition sqlSelectMessages (chatId : Z) (d : Db) : list MessageRow :=
  sortBy (fun a b => timestamp a - timestamp b)%Z
         (filter (fun m => (msg_chat_id m =? chatId)%Z) (messages d)).

(** [app.get('/api/chats/:id/messages')] *)
Definition getMessagesHandler (sqlError : option JSString) (chatId : Z) (d : Db)
  : Reply :=
  match sqlError with
  | Some m => mkReply 500 (ErrorJson m)
  | None =>
      mkReply 200
        (DataJson (map (fun r => mkMessageJson (message_id r) (sender r) (content r))
                       (sqlSelectMessages chatId d)))
  end.

End ServerJs.

(* ===================================================================== *)
(** * Speech audio: [ArrayBuffer], [DataView] and [Int16Array] *)
(* ===================================================================== *)

(** What the sources use of the typed-array interface.  An [ArrayBuffer] is
    a sequence of bytes, each a number in [0, 256); an [Int16Array] that is
    handed around is the sequence of its elements, each in
    [-32768, 32768). *)
Module TypedArrays.

Definition ArrayBuffer := list Z.
Definition Int16Array := list Z.

(** [c.then(f)] for the calls that may throw. *)
Definition andThen {A B} (c : Completion A) (f : A -> Completion B) : Completion B :=
  match c with
  | Normal v => f v
  | Throw e => Throw e
  end.

Section Host.
(** The [RangeError] of the engine, and whether the host stores the low
    byte of a number first (typed arrays use the order of the host,
    [DataView] takes the order as an argument). *)
Variable rangeError : Error.
Variable littleEndianHost : bool.

(** [new ArrayBuffer(n)]: [n] zero bytes. *)
Definition newArrayBuffer (n : nat) : ArrayBuffer := repeat 0%Z n.

(** Byte [i] of the two's complement form of [v], counted from the low
    end. *)
Definition byteAt (v : Z) (i : nat) : Z :=
  Z.land (Z.shiftr v (8 * Z.of_nat i)) 255.

(** The [k] low bytes of [v] in the order asked for. *)
Definition bytesOf (k : nat) (v : Z) (littleEndian : bool) : list Z :=
  let low_first := map (byteAt v) (seq 0 k) in
  if littleEndian then low_first else rev low_first.

(** [DataView.prototype.set*]: the value is reduced modulo [2^(8k)] and
    its [k] bytes are stored at [byteOffset]; outside the view it is a
    [RangeError]. *)
Definition setViewValue (k : nat) (byteOffset : nat) (v : Z) (littleEndian : bool)
           (view : ArrayBuffer) : Completion ArrayBuffer :=
  if (byteOffset + k <=? length view)%nat
  then Normal (firstn byteOffset view ++ bytesOf k v littleEndian
               ++ skipn (byteOffset + k) view)
  else Throw rangeError.

Definition setUint8 (byteOffset : nat) (v : Z) : ArrayBuffer -> Completion ArrayBuffer :=
  setViewValue 1 byteOffset v true.
Definition setUint16 : nat -> Z -> bool -> ArrayBuffer -> Completion ArrayBuffer :=
  setViewValue 2.
Definition setInt16 : nat -> Z -> bool -> ArrayBuffer -> Completion ArrayBuffer :=
  setViewValue 2.
Definition setUint32 : nat -> Z -> bool -> ArrayBuffer -> Completion ArrayBuffer :=
  setViewValue 4.

(** The signed 16-bit number with low byte [lo] and high byte [hi]. *)
Definition int16 (lo hi : Z) : Z :=
  let u := (lo + 256 * hi)%Z in
  if (u <? 32768)%Z then u else (u - 65536)%Z.

(** [DataView.prototype.getInt16(byteOffset, littleEndian)] *)
Definition getInt16 (byteOffset : nat) (littleEndian : bool) (view : ArrayBuffer)
  : Completion Z :=
  match skipn byteOffset view with
  | a :: b :: _ => Normal (if littleEndian then int16 a b else int16 b a)
  | _ => Throw rangeError
  end.

(** The elements that an [Int16Array] over [bytes] shows. *)
Fixpoint elementsOf (bytes : list Z) : Int16Array :=
  match bytes with
  | a :: b :: rest =>
      (if littleEndianHost then int16 a b else int16 b a) :: elementsOf rest
  | _ => []
  end.

(** [new Int16Array(buffer)]: a byte length that is not a multiple of 2 is
    a [RangeError]. *)
Definition newInt16Array (buffer : ArrayBuffer) : Completion Int16Array :=
  if Nat.even (length buffer) then Normal (elementsOf buffer) else Throw rangeError.

(** [new Int16Array(buffer, byteOffset)] followed by [.set(source)]: the
    view starts at [byteOffset], which has to be a multiple of 2 within the
    buffer with an even number of bytes after it, and the elements of
    [source] are stored from its start in the order of the host; a source
    longer than the view is a [RangeError]. *)
Definition int16ViewSet (byteOffset : nat) (source : Int16Array) (buffer : ArrayBuffer)
  : Completion ArrayBuffer :=
  if Nat.even byteOffset && (byteOffset <=? length buffer)%nat
     && Nat.even (length buffer - byteOffset)
     && (length source <=? (length buffer - byteOffset) / 2)%nat
  then Normal (firstn byteOffset buffer
               ++ flat_map (fun x => bytesOf 2 x littleEndianHost) source
               ++ skipn (byteOffset + 2 * length source) buffer)
  else Throw rangeError.

(** [base64ToArrayBuffer] (the same in src/index.js and src/src/App.jsx);
    [atob] is the decoder of the browser, which rejects a malformed
    argument; storing a code unit into a [Uint8Array] keeps its low byte. *)
Definition base64ToArrayBuffer (atob : JSString -> Completion JSString)
           (base64 : JSString) : Completion ArrayBuffer :=
  match atob base64 with
  | Throw e => Throw e
  | Normal binaryString => Normal (map (fun c => (Z.of_N c mod 256)%Z) binaryString)
  end.
End Host.

End TypedArrays.

(** ** [pcmToWav] of src/index.js *)
Module IndexJsAudio.
Import TypedArrays.

Section Host.
Variable rangeError : Error.

(** The loop [for (let i = 0; i < numSamples; i++)
    view.setInt16(44 + i * 2, pcm16[i], true)], from index [i] on. *)
Fixpoint writeSamples (pcm16 : Int16Array) (i : nat) (view : ArrayBuffer)
  : Completion ArrayBuffer :=
  match pcm16 with
  | [] => Normal view
  | x :: rest =>
      andThen (setInt16 rangeError (44 + i * 2) x true view)
              (writeSamples rest (S i))
  end.

(** The result is the content of the [Blob].  [sampleRate] is an integral
    number. *)
Definition pcmToWav (pcm16 : Int16Array) (sampleRate : Z) : Completion ArrayBuffer :=
  let numChannels := 1%Z in
  let numSamples := length pcm16 in
  let view := newArrayBuffer (44 + numSamples * 2) in
  andThen (setUint32 rangeError 0 0x52494646%Z false view) (fun view =>
  andThen (setUint32 rangeError 4 (36 + Z.of_nat numSamples * 2)%Z true view) (fun view =>
  andThen (setUint32 rangeError 8 0x57415645%Z false view) (fun view =>
  andThen (setUint32 rangeError 12 0x666d7420%Z false view) (fun view =>
  andThen (setUint32 rangeError 16 16%Z true view) (fun view =>
  andThen (setUint16 rangeError 20 1%Z true view) (fun view =>
  andThen (setUint16 rangeError 22 numChannels true view) (fun view =>
  andThen (setUint32 rangeError 24 sampleRate true view) (fun view =>
  andThen (setUint32 rangeError 28 (sampleRate * 2)%Z true view) (fun view =>
  andThen (setUint16 rangeError 32 (numChannels * 2)%Z true view) (fun view =>
  andThen (setUint16 rangeError 34 16%Z true view) (fun view =>
  andThen (setUint32 rangeError 36 0x64617461%Z false view) (fun view =>
  andThen (setUint32 rangeError 40 (Z.of_nat numSamples * 2)%Z true view) (fun view =>
  writeSamples pcm16 0 view))))))))))))).
End Host.

End IndexJsAudio.

(** ** [writeString] and [pcmToWav] of src/src/App.jsx *)
Module AppJsxAudio.
Import TypedArrays.

Section Host.
Variable rangeError : Error.
Variable littleEndianHost : bool.

(** [for (let i = 0; i < string.length; i++)
    view.setUint8(offset + i, string.charCodeAt(i))] *)
Fixpoint writeString (view : ArrayBuffer) (offset : nat) (string : JSString)
  : Completion ArrayBuffer :=
  match string with
  | [] => Normal view
  | c :: rest =>
      andThen (setUint8 rangeError offset (Z.of_N c) view)
              (fun view => writeString view (S offset) rest)
  end.

(** [pcm16.byteLength] is twice the number of elements. *)
Definition byteLength (pcm16 : Int16Array) : nat := 2 * length pcm16.

Definition pcmToWav (pcm16 : Int16Array) (sampleRate : Z) : Completion ArrayBuffer :=
  let numChannels := 1%Z in
  let byteRate := (sampleRate * numChannels * 2)%Z in
  let blockAlign := (numChannels * 2)%Z in
  let buffer := newArrayBuffer (44 + byteLength pcm16) in
  (* RIFF header *)
  andThen (writeString buffer 0 (lit "RIFF")) (fun view =>
  andThen (setUint32 rangeError 4 (36 + Z.of_nat (byteLength pcm16))%Z true view) (fun view =>
  andThen (writeString view 8 (lit "WAVE")) (fun view =>
  (* fmt sub-chunk *)
  andThen (writeString view 12 (lit "fmt ")) (fun view =>
  andThen (setUint32 rangeError 16 16%Z true view) (fun view =>
  andThen (setUint16 rangeError 20 1%Z true view) (fun view =>
  andThen (setUint16 rangeError 22 numChannels true view) (fun view =>
  andThen (setUint32 rangeError 24 sampleRate true view) (fun view =>
  andThen (setUint32 rangeError 28 byteRate true view) (fun view =>
  andThen (setUint16 rangeError 32 blockAlign true view) (fun view =>
  andThen (setUint16 rangeError 34 16%Z true view) (fun view =>
  (* data sub-chunk *)
  andThen (writeString view 36 (lit "data")) (fun view =>
  andThen (setUint32 rangeError 40 (Z.of_nat (byteLength pcm16)) true view) (fun view =>
  (* PCM data *)
  int16ViewSet rangeError littleEndianHost 44 pcm16 view))))))))))))).
End Host.

End AppJsxAudio.

(* ===================================================================== *)
(** * src/src/App.jsx : [deleteSession] *)
(* ===================================================================== *)

Module AppJsxSessions.
Import AppJsx.

(** A reference put into the write batch: a message of a session (the
    messages live below their session), or a session. *)
Inductive Ref := MessageRef (sessionId : Id) (id : Id) | SessionRef (id : Id).

Definition batchDelete (f : Firestore) (r : Ref) : Firestore :=
  match r with
  | MessageRef sid i =>
      mkFirestore (sessionsColl f)
                  (filter (fun d => negb (eqId (mdSessionId d) sid && eqId (mdId d) i))
                          (messagesColl f))
  | SessionRef i =>
      mkFirestore (filter (fun d => negb (eqId (sdId d) i)) (sessionsColl f))
                  (messagesColl f)
  end.

Definition applyBatch (batch : list Ref) (f : Firestore) : Firestore :=
  fold_left batchDelete batch f.

Section App.
Variable env : Env.

(** [closure] is the render whose [deleteSession] is called; [confirmed]
    is the answer to [window.confirm].  A document reference cannot be built
    from an empty identifier; that and every failure of the store end in the
    [catch] block. *)
Definition deleteSession (closure : UI) (confirmed : bool) (sessionId : Id)
           (w : World) : World :=
  if negb (db closure) || negb (truthy (userId closure)) then w
  else if negb confirmed then w
  else
    let failed := setErrorMessage (Some (lit "Failed to delete the chat session.")) in
    if negb (truthy (Some sessionId)) then failed w
    else
      (* getDocs(messagesRef) *)
      match storeError env (nStore w) with
      | Some _ => failed (tickStore w)
      | None =>
          let w1 := tickStore w in
          let messageDocs :=
            filter (fun d => eqId (mdSessionId d) sessionId) (messagesColl (fs w1)) in
          let batch := map (fun d => MessageRef sessionId (mdId d)) messageDocs
                       ++ [SessionRef sessionId] in
          (* batch.commit() *)
          match storeError env (nStore w1) with
          | Some _ => failed (tickStore w1)
          | None =>
              let w2 := tickStore (setFs (applyBatch batch (fs w1)) w1) in
              if eqOptId (currentSessionId closure) (Some sessionId) then
                let remainingSessions :=
                  filter (fun s => negb (eqId (sessId s) sessionId)) (sessions closure) in
                match remainingSessions with
                | s :: _ => setCurrentSessionId (Some (sessId s)) w2
                | [] => addTimer (CreateSession 100 closure) (setCurrentSessionId None w2)
                end
              else w2
          end
      end.
End App.

End AppJsxSessions.

(* ===================================================================== *)
(** * src/unnamed/part_000 : [saveMessage] and [handleSend] *)
(* ===================================================================== *)

(** The store and the React state of the rewrite have the shape of those of
    src/src/App.jsx, whose records are used again; [setErrorMessage("")]
    stores the empty text. *)
Module Part000App.
Import AppJsx.

Section App.
Variable env : Env.

(** No [try]: a rejected write rejects [saveMessage]. *)
Definition saveMessage (closure : UI) (who : Sender) (txt : JSString) (w : World)
  : Completion unit * World :=
  match currentSessionId closure with
  | Some sid =>
      if negb (db closure) || negb (truthy (userId closure)) || negb (truthy (Some sid))
      then (Normal tt, w)
      else
        match storeError env (nStore w) with
        | None =>
            (Normal tt,
             tickIds (tickStore
               (setFs (mkFirestore (sessionsColl (fs w))
                         (messagesColl (fs w)
                          ++ [mkMessageDoc (freshId env (nIds w)) sid who txt
                                           (Some (serverTime env (nStore w)))]))
                      w)))
        | Some m => (Throw (mkError m), tickStore w)
        end
  | None => (Normal tt, w)
  end.

(** [for await (const chunk of stream) { ... }] *)
Fixpoint forAwait (fuel : nat) (userText : JSString)
         (history : list HistoryItem) (tempId : Id)
         (botText : JSString) (s : Stream) (w : World)
  : Completion JSString * Stream * World :=
  match fuel with
  | O => (Normal botText, s, w)
  | S fuel' =>
      match Part000.next (netEnv env) userText history s (net w) with
      | (Throw e, s', n') => (Throw e, s', setNet n' w)
      | (Normal r, s', n') =>
          if done r then (Normal botText, s', setNet n' w)
          else
            let acc := botText ++ textOf (value r) in
            forAwait fuel' userText history tempId acc s'
              (setMessages
                 (map (fun m => if eqId (msgId m) tempId
                                then mkMessage (msgId m) (sender m) acc
                                else m))
                 (setNet n' w))
      end
  end.

(** [manualText] is the optional argument; [closure] the render state. *)
Definition handleSend (closure : UI) (manualText : option JSString) (w : World)
  : Completion unit * World :=
  let text := orElse manualText (trim (input closure)) in
  if negb (nonEmpty text) then (Normal tt, w)
  else
    let w0 := setErrorMessage (Some []) (setIsTyping true (setInput [] w)) in
    match saveMessage closure SenderUser text w0 with
    | (Throw e, w1) => (Throw e, w1)
    | (Normal _, w1) =>
        let tempId := freshId env (nIds w1) in
        let w2 := setMessages (fun prev => prev ++ [mkMessage tempId SenderBot []])
                              (tickIds w1) in
        let history :=
          map (fun m => mkHistoryItem (sender m) (AppJsx.text m)) (messages closure) in
        (* the first pull fixes the number of fragments, hence of iterations *)
        let '(streamed, w3) :=
          match Part000.next (netEnv env) text history Part000.askAIStream (net w2) with
          | (Throw e, _, n) => (Throw e, setNet n w2)
          | (Normal r, s, n) =>
              if done r then (Normal [], setNet n w2)
              else
                let acc := textOf (value r) in
                let '(res, _, w') :=
                  forAwait (S (length (chunks s))) text history tempId acc s
                    (setMessages
                       (map (fun m => if eqId (msgId m) tempId
                                      then mkMessage (msgId m) (sender m) acc
                                      else m))
                       (setNet n w2)) in
                (res, w')
          end in
        let botText :=
          match streamed with
          | Normal acc => acc
          | Throw _ => lit "Error generating response."
          end in
        saveMessage closure SenderBot botText (setIsTyping false w3)
    end.
End App.

End Part000App.

(* ===================================================================== *)
(** * src/src/App.jsx, second part : [askAI] and the exchange of messages *)
(* ===================================================================== *)

Module ServerChat.
Import ServerJs.

Definition SYSTEM_INSTRUCTION : JSString :=
  lit "You are Mene. Keep responses short and friendly.".

(** A row of the history query: [{ sender, content }]. *)
Record HistoryRow := mkHistoryRow { hSender : JSString; hContent : JSString }.

(** ** [askAI] *)
Section AskAI.
(** [process.env.GEMINI_API_KEY], and what [fetch] answers. *)
Variable GEMINI_API_KEY : option JSString.
Variable fetched : FetchResult.

Definition formattedHistory (history : list HistoryRow) : list Turn :=
  map (fun msg => mkTurn (if eqId (hSender msg) (lit "user") then RoleUser else RoleModel)
                         (hContent msg))
      history.

Definition payload (userText : JSString) (history : list HistoryRow) : Request :=
  mkRequest (formattedHistory history ++ [mkTurn RoleUser userText])
            SYSTEM_INSTRUCTION false.

(** The completion of [askAI] and the requests it has sent.  Without a key
    it throws before anything is sent; every failure after that ends in the
    [catch] block. *)
Definition askAI (userText : JSString) (history : list HistoryRow)
  : Completion JSString * list Request :=
  if negb (truthy GEMINI_API_KEY)
  then (Throw (mkError (lit "Gemini API Key is missing. Ensure the GEMINI_API_KEY environment variable is set.")),
        [])
  else
    (match fetched with
     | Throw _ => Normal (lit "Sorry, I ran into a technical error.")
     | Normal response =>
         if negb (ok response)
         then Normal (lit "Sorry, I ran into a technical error.")
         else
           match json response with
           | Throw _ => Normal (lit "Sorry, I ran into a technical error.")
           | Normal data =>
               Normal (orElse (bodyText data)
                              (lit "I'm sorry, I couldn't generate a response."))
           end
     end,
     [payload userText history]).
End AskAI.

(** ** [POST /api/chats/:id/messages] *)

(** What the database does with the three statements of one request:
    whether each fails, and the row identifiers and the timestamps it gives
    to the two inserted rows. *)
Record Sql := mkSql {
  historyError : option JSString;
  userError : option JSString;
  botError : option JSString;
  userRowid : Z;
  botRowid : Z;
  userTimestamp : Z;
  botTimestamp : Z }.

(** What the handler does about the response: a status with [{ error }];
    the answer [{ message: 'Message exchange complete', botResponse: { id,
    sender: 'bot', text } }], where [id] is missing when the row was not
    inserted; or nothing at all, when [askAI] throws: the callback in which it
    is awaited has no handler for the rejection, no response is sent, and the
    unhandled rejection ends the server process. *)
Inductive Answer :=
| Failure (code : nat) (error : JSString)
| ExchangeComplete (id : option Z) (text : JSString)
| Unanswered.

(** The body carries a text under [content], or nothing. *)
Definition postMessageHandler (GEMINI_API_KEY : option JSString) (fetched : FetchResult)
           (sql : Sql) (chatId : Z) (content : option JSString) (d : Db)
  : Answer * Db * list Request :=
  match content with
  | Some ((_ :: _) as text) =>
      (* 1. the history *)
      match historyError sql with
      | Some m => (Failure 500 m, d, [])
      | None =>
          let history :=
            map (fun r => mkHistoryRow (sender r) (ServerJs.content r))
                (sqlSelectMessages chatId d) in
          (* 2. the message of the user *)
          match userError sql with
          | Some m => (Failure 400 m, d, [])
          | None =>
              let d1 :=
                mkDb (chats d)
                     (messages d
                      ++ [mkMessageRow (userRowid sql) chatId (lit "user") text
                                       (userTimestamp sql)]) in
              (* 3. the completion service *)
              let fullHistory := history ++ [mkHistoryRow (lit "user") text] in
              match askAI GEMINI_API_KEY fetched text fullHistory with
              | (Throw _, sent) => (Unanswered, d1, sent)
              | (Normal botResponseText, sent) =>
                  (* 4. the answer of the bot; 5. the response *)
                  match botError sql with
                  | Some _ => (ExchangeComplete None botResponseText, d1, sent)
                  | None =>
                      (ExchangeComplete (Some (botRowid sql)) botResponseText,
                       mkDb (chats d1)
                            (messages d1
                             ++ [mkMessageRow (botRowid sql) chatId (lit "bot")
                                              botResponseText (botTimestamp sql)]),
                       sent)
                  end
              end
          end
      end
  | _ => (Failure 400 (lit "Missing message content"), d, [])
  end.

End ServerChat.

(* ===================================================================== *)
(** * src/unnamed/part_001 : the client of the REST back end *)
(* ===================================================================== *)

Module RestClient.

(** An identifier as the client holds it: a number, as the answers of the
    server carry them, or a string, as [localStorage] and [uuidv4] give
    them. *)
Inductive Ident := NumId (n : Z) | StrId (s : JSString).

(** [a === b] *)
Definition strictEq (a b : Ident) : bool :=
  match a, b with
  | NumId x, NumId y => (x =? y)%Z
  | StrId x, StrId y => eqId x y
  | _, _ => false
  end.

(** [!!id] for an identifier that may be [null]. *)
Definition truthyId (a : option Ident) : bool :=
  match a with
  | Some (NumId n) => negb (n =? 0)%Z
  | Some (StrId s) => nonEmpty s
  | None => false
  end.

(** [String(id)], as [localStorage.setItem] and a template literal take
    it. *)
Definition idToString (a : Ident) : JSString :=
  match a with
  | NumId n =>
      if (n <? 0)%Z then lit "-" ++ numToString (Z.to_nat (- n))
      else numToString (Z.to_nat n)
  | StrId s => s
  end.

Record Session := mkSession { sessId : Ident; name : JSString }.

Record Message := mkMessage { msgId : Ident; sender : JSString; text : JSString }.

(** [response.data.botResponse]; [id] is missing when the server did not
    store the reply. *)
Record BotResponse := mkBotResponse {
  brId : option Z;
  brSender : JSString;
  brText : JSString }.

Record UI := mkUI {
  sessions : list Session;
  currentSessionId : option Ident;
  messages : list Message;
  input : JSString;
  isTyping : bool;
  errorMessage : JSString;
  isSidebarOpen : bool }.

(** The state of the page: the React state, the entry of [localStorage],
    the messages posted so far (path and [content]) and the number of
    identifiers drawn. *)
Record World := mkWorld {
  ui : UI;
  lastSession : option JSString;
  posted : list (JSString * JSString);
  nIds : nat }.

(** How a call of the [axios] instance ends: with the data of a 2xx
    answer; rejected, with [err.response?.data?.error] and [err.message];
    or not at all. *)
Inductive Api (A : Type) :=
| Answered (data : A)
| Rejected (error : option JSString) (message : JSString)
| Pending.
Arguments Answered {A} data.
Arguments Rejected {A} error message.
Arguments Pending {A}.

Definition setUI (f : UI -> UI) (w : World) : World :=
  mkWorld (f (ui w)) (lastSession w) (posted w) (nIds w).
Definition setSessions (f : list Session -> list Session) : World -> World :=
  setUI (fun u => mkUI (f (sessions u)) (currentSessionId u) (messages u) (input u)
                       (isTyping u) (errorMessage u) (isSidebarOpen u)).
Definition setCurrentSessionId (v : option Ident) : World -> World :=
  setUI (fun u => mkUI (sessions u) v (messages u) (input u)
                       (isTyping u) (errorMessage u) (isSidebarOpen u)).
Definition setMessages (f : list Message -> list Message) : World -> World :=
  setUI (fun u => mkUI (sessions u) (currentSessionId u) (f (messages u)) (input u)
                       (isTyping u) (errorMessage u) (isSidebarOpen u)).
Definition setInput (v : JSString) : World -> World :=
  setUI (fun u => mkUI (sessions u) (currentSessionId u) (messages u) v
                       (isTyping u) (errorMessage u) (isSidebarOpen u)).
Definition setIsTyping (v : bool) : World -> World :=
  setUI (fun u => mkUI (sessions u) (currentSessionId u) (messages u) (input u)
                       v (errorMessage u) (isSidebarOpen u)).
Definition setErrorMessage (v : JSString) : World -> World :=
  setUI (fun u => mkUI (sessions u) (currentSessionId u) (messages u) (input u)
                       (isTyping u) v (isSidebarOpen u)).
Definition setIsSidebarOpen (v : bool) : World -> World :=
  setUI (fun u => mkUI (sessions u) (currentSessionId u) (messages u) (input u)
                       (isTyping u) (errorMessage u) v).
(** [localStorage.setItem(LOCAL_KEY_LAST_SESSION, id)] *)
Definition storeLastSession (a : Ident) (w : World) : World :=
  mkWorld (ui w) (Some (idToString a)) (posted w) (nIds w).

(** *** [createSession]; [creation] is how [api.post("/chats", ...)]
    ends. *)
Definition createSession (creation : Api Session) (w : World) : World :=
  match creation with
  | Answered newSession =>
      setIsSidebarOpen false
        (storeLastSession (sessId newSession)
           (setCurrentSessionId (Some (sessId newSession))
              (setSessions (fun prev => newSession :: prev) w)))
  | Rejected _ _ => setErrorMessage (lit "Failed to create new chat session.") w
  | Pending => w
  end.

(** *** [fetchSessions]; [listing] is how [api.get("/chats")] ends, with
    [response.data.data] when there is one. *)
Definition fetchSessions (closure : UI) (listing : Api (option (list Session)))
           (creation : Api Session) (w : World) : World :=
  match listing with
  | Answered data =>
      let arr := match data with Some a => a | None => [] end in
      let w1 := setSessions (fun _ => arr) w in
      let selectFirst :=
        match arr with
        | s :: _ => storeLastSession (sessId s) (setCurrentSessionId (Some (sessId s)) w1)
        | [] => w1
        end in
      if negb (truthyId (currentSessionId closure)) && (0 <? length arr)%nat
      then selectFirst
      else if truthyId (currentSessionId closure)
              && negb (existsb (fun s => match currentSessionId closure with
                                         | Some c => strictEq (sessId s) c
                                         | None => false
                                         end) arr)
      then if (0 <? length arr)%nat then selectFirst else createSession creation w1
      else if (length arr =? 0)%nat then createSession creation w1
      else w1
  | Rejected _ _ =>
      setErrorMessage (lit "Failed to load chat sessions from the server.") w
  | Pending => w
  end.

(** *** [handleSend]; [freshId] is [uuidv4], [answer] is how the [POST]
    of the message ends. *)
Definition handleSend (freshId : nat -> JSString) (closure : UI)
           (manualText : option JSString) (answer : Api BotResponse) (w : World)
  : World :=
  let userText := orElse manualText (trim (input closure)) in
  match currentSessionId closure with
  | Some sid =>
      if negb (nonEmpty userText) || negb (truthyId (Some sid)) then w
      else
        let tempUserMsgId := StrId (freshId (nIds w)) in
        let tempBotMsgId := StrId (freshId (S (nIds w))) in
        let w1 :=
          setMessages (fun prev => prev ++ [mkMessage tempUserMsgId (lit "user") userText;
                                            mkMessage tempBotMsgId (lit "bot") []])
            (setErrorMessage [] (setIsTyping true (setInput []
               (mkWorld (ui w) (lastSession w)
                        (posted w ++ [(lit "/chats/" ++ idToString sid ++ lit "/messages",
                                       userText)])
                        (S (S (nIds w))))))) in
        match answer with
        | Answered botMessage =>
            setIsTyping false
              (setMessages
                 (map (fun m =>
                         if strictEq (msgId m) tempBotMsgId
                         then mkMessage
                                (if truthyId (option_map NumId (brId botMessage))
                                 then match brId botMessage with
                                      | Some n => NumId n
                                      | None => tempBotMsgId
                                      end
                                 else tempBotMsgId)
                                (brSender botMessage) (brText botMessage)
                         else m))
                 w1)
        | Rejected error message =>
            setIsTyping false
              (setMessages
                 (filter (fun m => negb (strictEq (msgId m) tempBotMsgId)))
                 (setErrorMessage (lit "Message failed: " ++ orElse error message) w1))
        | Pending => w1
        end
  | None => w
  end.

End RestClient.

(* ===================================================================== *)
(** * Vocabulary of the statements *)
(* ===================================================================== *)

(** A fragment is a non-empty piece of text that is either a run of white
    space or free of white space. *)
Definition wordFragment (c : JSString) : bool :=
  nonEmpty c && forallb (fun x => negb (isWhiteSpace x)) c.
Definition spaceFragment (c : JSString) : bool :=
  nonEmpty c && forallb isWhiteSpace c.
Definition isFragment (c : JSString) : bool := wordFragment c || spaceFragment c.

(** The initial state of the network. *)
Definition net0 : Net := mkNet 0 0 [] [].

(** A response of the completion service with status 200 and reply [t]. *)
Definition okResponse (t : JSString) : Response :=
  mkResponse 200 (lit "OK") (Normal (mkBody None (Some t))).

(** An error response with a JSON body [{ error: { message } }]. *)
Definition errorResponse (st : nat) (stText msg : JSString) : Response :=
  mkResponse st stText (Normal (mkBody (Some (Some msg)) None)).

(** An operation that fails [n] times with message [msg], then succeeds
    with [v]. *)
Definition failThenSucceed {A} (n : nat) (msg : JSString) (v : A)
  : nat -> Completion A :=
  fun k => if (k <? n)%nat then Throw (mkError msg) else Normal v.

(** A service that always gives the same answer, with no jitter. *)
Definition constantService (r : FetchResult) : NetEnv :=
  mkNetEnv (fun _ => r) (fun _ => 0%Q) (lit "Cannot read properties of undefined").

(** A Firestore that accepts every operation, with the identifiers
    "doc0", "doc1", ... and the server times 0, 1, ... *)
Definition reliableStore : IndexJs.Env :=
  IndexJs.mkEnv (constantService (Normal (okResponse (lit "Hi there!"))))
                (fun _ => None) (fun k => lit "doc" ++ numToString k)
                (fun k => Z.of_nat k) 0%Z (lit "10:00:00").

(** A Firestore whose operations all fail. *)
Definition brokenStore : IndexJs.Env :=
  IndexJs.mkEnv (constantService (Normal (okResponse (lit "Hi there!"))))
                (fun _ => Some (lit "unavailable")) (fun k => lit "doc" ++ numToString k)
                (fun k => Z.of_nat k) 0%Z (lit "10:00:00").

(** The render state of a signed-in user with nothing loaded. *)
Definition signedIn : IndexJs.UI :=
  IndexJs.mkUI [] None [] [] false true (Some (lit "u1")) true None.

Definition emptyWorld : IndexJs.World :=
  IndexJs.mkWorld net0 (IndexJs.mkFirestore [] []) 0 0 signedIn [].

(** Two sessions; "s1" has two messages and "s2" has one. *)
Definition sampleStore : IndexJs.Firestore :=
  IndexJs.mkFirestore
    [IndexJs.mkSessionDoc (lit "s1") (Some (lit "First")) (Some 10%Z);
     IndexJs.mkSessionDoc (lit "s2") (Some (lit "Second")) (Some 20%Z)]
    [IndexJs.mkMessageDoc (lit "m1") (lit "s1") SenderUser (lit "Hello") (Some 11%Z);
     IndexJs.mkMessageDoc (lit "m2") (lit "s2") SenderUser (lit "Hey") (Some 21%Z);
     IndexJs.mkMessageDoc (lit "m3") (lit "s1") SenderBot (lit "Hi there!") (Some 12%Z)].

Definition sampleWorld : IndexJs.World :=
  IndexJs.mkWorld net0 sampleStore 0 0 signedIn [].

(** A database with one chat that has 101 messages. *)
Definition db101 : ServerJs.Db :=
  ServerJs.mkDb
    [ServerJs.mkChatRow 1 (lit "New Chat") 0]
    (map (fun k => ServerJs.mkMessageRow (Z.of_nat k) 1 (lit "user") (lit "m") (Z.of_nat k))
         (seq 1 101)).

(** The rows listed in a reply. *)
Definition dataOf (r : ServerJs.Reply) : list ServerJs.MessageJson :=
  match ServerJs.body r with
  | ServerJs.DataJson l => l
  | _ => []
  end.

(** The same for the client of src/src/App.jsx. *)
Definition reliableStoreApp : AppJsx.Env :=
  AppJsx.mkEnv (constantService (Normal (okResponse (lit "Hi there!"))))
               (fun _ => None) (fun k => lit "doc" ++ numToString k)
               (fun k => Z.of_nat k) (lit "invalid document reference").

(** A Firestore that rejects the first operation only. *)
Definition firstWriteFailsApp : AppJsx.Env :=
  AppJsx.mkEnv (constantService (Normal (okResponse (lit "Hi there!"))))
               (fun k => if (k =? 0)%nat then Some (lit "unavailable") else None)
               (fun k => lit "doc" ++ numToString k)
               (fun k => Z.of_nat k) (lit "invalid document reference").

Definition signedInApp : AppJsx.UI :=
  AppJsx.mkUI [] None [] [] false true (Some (lit "u1")) true None.

Definition emptyWorldApp : AppJsx.World :=
  AppJsx.mkWorld net0 (AppJsx.mkFirestore [] []) 0 0 signedInApp [].

(** The user has typed "Hello" into session "s1", which has no messages
    yet. *)
Definition typedHelloApp : AppJsx.UI :=
  AppJsx.mkUI [AppJsx.mkSession (lit "s1") (Some (lit "Chat 1")) (Some 10%Z)]
              (Some (lit "s1")) [] (lit "Hello") false true (Some (lit "u1")) true None.

Definition typedHelloWorldApp : AppJsx.World :=
  AppJsx.mkWorld net0
    (AppJsx.mkFirestore [AppJsx.mkSessionDoc (lit "s1") (Some (lit "Chat 1")) (Some 10%Z)] [])
    0 0 typedHelloApp [].

Definition typedHello : IndexJs.UI :=
  IndexJs.mkUI [IndexJs.mkSession (lit "s1") (lit "First") 10%Z]
               (Some (lit "s1")) [] (lit "Hello") false true (Some (lit "u1")) true None.

Definition typedHelloWorld : IndexJs.World :=
  IndexJs.mkWorld net0
    (IndexJs.mkFirestore [IndexJs.mkSessionDoc (lit "s1") (Some (lit "First")) (Some 10%Z)] [])
    0 0 typedHello [].

(** The conversation history as the statement of the request context
    describes it: the messages in order, those whose text starts with "ERROR"
    left out, each turned into a user or model turn. *)
Fixpoint historyWithoutErrors (msgs : list IndexJs.Message) : list Turn :=
  match msgs with
  | [] => []
  | m :: rest =>
      if startsWith (IndexJs.text m) (lit "ERROR")
      then historyWithoutErrors rest
      else mkTurn (match IndexJs.sender m with
                   | SenderUser => RoleUser
                   | SenderBot => RoleModel
                   end) (IndexJs.text m)
           :: historyWithoutErrors rest
  end.

(** [l'] extends [l] by copies of [r] only. *)
Definition extendedBy (r : Request) (l l' : list Request) : Prop :=
  exists k, l' = l ++ repeat r k.

(** A conversation of session "s1" with a stored error marker in it. *)
Definition typedAgain : IndexJs.UI :=
  IndexJs.mkUI [IndexJs.mkSession (lit "s1") (lit "First") 10%Z]
               (Some (lit "s1"))
               [IndexJs.mkMessage (lit "m1") SenderUser (lit "Hello") 11%Z;
                IndexJs.mkMessage (lit "m2") SenderBot
                  (lit "ERROR: Failed to get response from AI. Details: down") 12%Z;
                IndexJs.mkMessage (lit "m3") SenderUser (lit "Hello?") 13%Z;
                IndexJs.mkMessage (lit "m4") SenderBot (lit "Hi there!") 14%Z]
               (lit "How are you?") false true (Some (lit "u1")) true None.

Definition typedAgainWorld : IndexJs.World :=
  IndexJs.mkWorld net0
    (IndexJs.mkFirestore [IndexJs.mkSessionDoc (lit "s1") (Some (lit "First")) (Some 10%Z)] [])
    0 0 typedAgain [].

(** The sum of a list of delays. *)
Definition totalDelay (l : list Q) : Q := fold_right Qplus 0%Q l.

(** The world [w] after some streaming: the visible messages are [msgs],
    [pauses] have been awaited in addition, and nothing else has changed. *)
Definition withStreamed (w : IndexJs.World) (msgs : list IndexJs.Message)
           (pauses : list Q) : IndexJs.World :=
  IndexJs.mkWorld
    (mkNet (nFetch (IndexJs.net w)) (nRandom (IndexJs.net w))
           (requests (IndexJs.net w)) (sleeps (IndexJs.net w) ++ pauses))
    (IndexJs.fs w) (IndexJs.nStore w) (IndexJs.nIds w)
    (IndexJs.mkUI (IndexJs.sessions (IndexJs.ui w)) (IndexJs.currentSessionId (IndexJs.ui w))
                  msgs (IndexJs.input (IndexJs.ui w)) (IndexJs.isTyping (IndexJs.ui w))
                  (IndexJs.isAuthReady (IndexJs.ui w)) (IndexJs.userId (IndexJs.ui w))
                  (IndexJs.db (IndexJs.ui w)) (IndexJs.error (IndexJs.ui w)))
    (IndexJs.timers w).

(** The number of white-space code units of a string. *)
Definition countWhiteSpace (s : JSString) : nat := length (filter isWhiteSpace s).

(** The title of the session document [sid], if the document exists. *)
Definition titleOf (f : IndexJs.Firestore) (sid : Id) : option (option JSString) :=
  option_map IndexJs.sdTitle
             (find (fun d => eqId (IndexJs.sdId d) sid) (IndexJs.sessionsColl f)).

(** The world [w] with the network state [n] and the visible messages
    [msgs], and nothing else changed. *)
Definition withNetMessages (w : IndexJs.World) (n : Net) (msgs : list IndexJs.Message)
  : IndexJs.World :=
  IndexJs.mkWorld n (IndexJs.fs w) (IndexJs.nStore w) (IndexJs.nIds w)
    (IndexJs.mkUI (IndexJs.sessions (IndexJs.ui w)) (IndexJs.currentSessionId (IndexJs.ui w))
                  msgs (IndexJs.input (IndexJs.ui w)) (IndexJs.isTyping (IndexJs.ui w))
                  (IndexJs.isAuthReady (IndexJs.ui w)) (IndexJs.userId (IndexJs.ui w))
                  (IndexJs.db (IndexJs.ui w)) (IndexJs.error (IndexJs.ui w)))
    (IndexJs.timers w).

(** The text that the streaming loop of src/index.js has accumulated when
    the fetch of the first pull ended with [o]. *)
Definition streamedText (o : Completion (option JSString)) : JSString :=
  match o with
  | Normal (Some full) => full
  | _ => []
  end.

(** A completion service that cannot be reached: every [fetch] rejects. *)
Definition unreachableService : IndexJs.Env :=
  IndexJs.mkEnv (constantService (Throw (mkError (lit "Failed to fetch"))))
                (fun _ => None) (fun k => lit "doc" ++ numToString k)
                (fun k => Z.of_nat k) 0%Z (lit "10:00:00").


(** The guard of [handleSend] of src/index.js lets the call through. *)
Definition canSend (closure : IndexJs.UI) (sid : Id) : Prop :=
  IndexJs.currentSessionId closure = Some sid
  /\ nonEmpty (trim (IndexJs.input closure)) = true
  /\ IndexJs.isTyping closure = false
  /\ truthy (IndexJs.userId closure) = true
  /\ truthy (Some sid) = true.

(** The user has typed a long question into the session "s1" that the
    automatic start has created. *)
Definition typedQuestion : IndexJs.UI :=
  IndexJs.mkUI [IndexJs.mkSession (lit "s1") (lit "Auto-Start Chat") 10%Z]
               (Some (lit "s1")) [] (lit "what is  the weather in Paris today")
               false true (Some (lit "u1")) true None.

Definition typedQuestionWorld : IndexJs.World :=
  IndexJs.mkWorld net0
    (IndexJs.mkFirestore
       [IndexJs.mkSessionDoc (lit "s1") (Some (lit "Auto-Start Chat")) (Some 10%Z)] [])
    0 0 typedQuestion [].

(** The [k] low bytes of a number, low byte first, and the bytes of an
    ASCII tag. *)
Definition lowFirst (k : nat) (v : Z) : list Z := TypedArrays.bytesOf k v true.

Definition ascii4 (s : string) : list Z := map Z.of_N (lit s).

(** The 44 bytes of a canonical WAV header for [numSamples] 16-bit mono
    samples at [sampleRate]: the chunk "RIFF" with the size of what follows
    it, the form "WAVE", the chunk "fmt " of 16 bytes (PCM, one channel,
    the sample rate, the byte rate, the block size 2, 16 bits per sample)
    and the head of the chunk "data" with its size; every number low byte
    first and reduced to the width of its field. *)
Definition wavHeader (numSamples : nat) (sampleRate : Z) : list Z :=
  ascii4 "RIFF" ++ lowFirst 4 (36 + 2 * Z.of_nat numSamples) ++ ascii4 "WAVE"
  ++ ascii4 "fmt " ++ lowFirst 4 16 ++ lowFirst 2 1 ++ lowFirst 2 1
  ++ lowFirst 4 sampleRate ++ lowFirst 4 (2 * sampleRate) ++ lowFirst 2 2 ++ lowFirst 2 16
  ++ ascii4 "data" ++ lowFirst 4 (2 * Z.of_nat numSamples).

(** A sequence of bytes, and a sequence of 16-bit samples. *)
Definition isBytes (l : list Z) : Prop := Forall (fun b => (0 <= b < 256)%Z) l.
Definition isInt16s (l : list Z) : Prop := Forall (fun x => (-32768 <= x < 32768)%Z) l.

(** Each pair of bytes with its two bytes exchanged. *)
Fixpoint swapPairs (bytes : list Z) : list Z :=
  match bytes with
  | a :: b :: rest => b :: a :: swapPairs rest
  | _ => bytes
  end.

Definition engineRangeError : Error := mkError (lit "Invalid typed array length").

(** The same for the worlds of src/src/App.jsx. *)
Definition withNetMessagesApp (w : AppJsx.World) (n : Net) (msgs : list AppJsx.Message)
  : AppJsx.World :=
  AppJsx.mkWorld n (AppJsx.fs w) (AppJsx.nStore w) (AppJsx.nIds w)
    (AppJsx.mkUI (AppJsx.sessions (AppJsx.ui w)) (AppJsx.currentSessionId (AppJsx.ui w))
                 msgs (AppJsx.input (AppJsx.ui w)) (AppJsx.isTyping (AppJsx.ui w))
                 (AppJsx.isAuthReady (AppJsx.ui w)) (AppJsx.userId (AppJsx.ui w))
                 (AppJsx.db (AppJsx.ui w)) (AppJsx.errorMessage (AppJsx.ui w)))
    (AppJsx.timers w).

(** The text that the loop of [handleSend] of src/src/App.jsx has
    accumulated when the fetch of the first pull ended with [r]. *)
Definition accumulatedText (r : Completion JSString) : JSString :=
  match r with
  | Normal full => full
  | Throw _ => []
  end.

(** [handleSend] of src/src/App.jsx has a text to send, and the render has a
    database, a user and the session [sid]. *)
Definition canSendApp (closure : AppJsx.UI) (transcript : option JSString) (sid : Id)
  : Prop :=
  nonEmpty (trim (orElse transcript (AppJsx.input closure))) = true
  /\ AppJsx.currentSessionId closure = Some sid
  /\ truthy (Some sid) = true
  /\ truthy (AppJsx.userId closure) = true
  /\ AppJsx.db closure = true.

(** The name that [handleSend] of src/src/App.jsx gives to a session. *)
Definition sessionNameOf (textToSend : JSString) : JSString :=
  firstn 30 textToSend ++ (if (30 <? length textToSend)%nat then lit "..." else []).

(** The name of the session document [sid], if the document exists. *)
Definition nameOf (f : AppJsx.Firestore) (sid : Id) : option (option JSString) :=
  option_map AppJsx.sdName
             (find (fun d => eqId (AppJsx.sdId d) sid) (AppJsx.sessionsColl f)).

(** A completion service that cannot be reached, for src/src/App.jsx. *)
Definition unreachableServiceApp : AppJsx.Env :=
  AppJsx.mkEnv (constantService (Throw (mkError (lit "Failed to fetch"))))
               (fun _ => None) (fun k => lit "doc" ++ numToString k)
               (fun k => Z.of_nat k) (lit "invalid document reference").

(** The streaming loop of [handleSend] of src/src/App.jsx, from the first
    pull to the end of [for await], as a function of the world [w2] it
    starts in. *)
Definition streamingApp (env : AppJsx.Env) (textToSend : JSString)
           (historyForAI : list AppJsx.HistoryItem) (tempBotId : Id) (w2 : AppJsx.World)
  : Completion JSString * AppJsx.World :=
  match AppJsx.next (AppJsx.netEnv env) textToSend historyForAI AppJsx.askAIStream
                    (AppJsx.net w2) with
  | (Throw e, _, n) => (Throw e, AppJsx.setNet n w2)
  | (Normal r, s, n) =>
      if done r then (Normal [], AppJsx.setNet n w2)
      else
        let acc := textOf (value r) in
        let '(res, _, w') :=
          AppJsx.forAwait env (S (length (chunks s))) textToSend historyForAI tempBotId
            acc s
            (AppJsx.setMessages
               (map (fun msg => if eqId (AppJsx.msgId msg) tempBotId
                                then AppJsx.mkMessage (AppJsx.msgId msg) (AppJsx.sender msg) acc
                                else msg))
               (AppJsx.setNet n w2)) in
        (res, w')
  end.

(** The streaming loop of [handleSend] of src/unnamed/part_000, from the
    first pull to the end of [for await], as a function of the world it
    starts in. *)
Definition streamingPart000 (env : AppJsx.Env) (text : JSString)
           (history : list AppJsx.HistoryItem) (tempId : Id) (w2 : AppJsx.World)
  : Completion JSString * AppJsx.World :=
  match Part000.next (AppJsx.netEnv env) text history Part000.askAIStream
                     (AppJsx.net w2) with
  | (Throw e, _, n) => (Throw e, AppJsx.setNet n w2)
  | (Normal r, s, n) =>
      if done r then (Normal [], AppJsx.setNet n w2)
      else
        let acc := textOf (value r) in
        let '(res, _, w') :=
          Part000App.forAwait env (S (length (chunks s))) text history tempId acc s
            (AppJsx.setMessages
               (map (fun m => if eqId (AppJsx.msgId m) tempId
                              then AppJsx.mkMessage (AppJsx.msgId m) (AppJsx.sender m) acc
                              else m))
               (AppJsx.setNet n w2)) in
        (res, w')
  end.

(** The text that [handleSend] of src/unnamed/part_000 stores as the reply
    when the fetch of the first pull ended with [r]. *)
Definition replyOrApology (r : Completion JSString) : JSString :=
  match r with
  | Normal full => full
  | Throw _ => lit "Error generating response."
  end.

(** [handleSend] of src/unnamed/part_000 has a text to send, and the render
    has a database, a user and the session [sid]. *)
Definition canSendPart000 (closure : AppJsx.UI) (manualText : option JSString) (sid : Id)
  : Prop :=
  nonEmpty (orElse manualText (trim (AppJsx.input closure))) = true
  /\ AppJsx.currentSessionId closure = Some sid
  /\ truthy (Some sid) = true
  /\ truthy (AppJsx.userId closure) = true
  /\ AppJsx.db closure = true.

(** A database connection on which every statement succeeds, with the row
    identifiers 100 and 101 and the timestamps 50 and 51. *)
Definition sqlOk : ServerChat.Sql :=
  ServerChat.mkSql None None None 100 101 50 51.

(** One chat with a question and its answer. *)
Definition dbOneChat : ServerJs.Db :=
  ServerJs.mkDb
    [ServerJs.mkChatRow 1 (lit "New Chat") 0]
    [ServerJs.mkMessageRow 1 1 (lit "user") (lit "Hello") 10;
     ServerJs.mkMessageRow 2 1 (lit "bot") (lit "Hi there!") 11].

(** The answer, the database and the requests of a handled request. *)
Definition answerOf (r : ServerChat.Answer * ServerJs.Db * list Request)
  : ServerChat.Answer := fst (fst r).
Definition dbOf (r : ServerChat.Answer * ServerJs.Db * list Request)
  : ServerJs.Db := snd (fst r).
Definition sentBy (r : ServerChat.Answer * ServerJs.Db * list Request)
  : list Request := snd r.

(** The reply that [askAI] gives once it has a key. *)
Definition serverReply (fetched : FetchResult) : JSString :=
  match fetched with
  | Normal response =>
      if ok response then
        match json response with
        | Normal data =>
            orElse (bodyText data) (lit "I'm sorry, I couldn't generate a response.")
        | Throw _ => lit "Sorry, I ran into a technical error."
        end
      else lit "Sorry, I ran into a technical error."
  | Throw _ => lit "Sorry, I ran into a technical error."
  end.

(** The transport between the handler of the server and the [axios] call of
    the client: a status outside 2xx rejects the call with the body of the
    answer; when the handler sends nothing because the server process has
    ended, the connection is dropped and the call is rejected without a
    response, with the message that [axios] gives to a failed request. *)
Definition axiosPost (a : ServerChat.Answer) : RestClient.Api RestClient.BotResponse :=
  match a with
  | ServerChat.ExchangeComplete id text =>
      RestClient.Answered (RestClient.mkBotResponse id (lit "bot") text)
  | ServerChat.Failure code m =>
      RestClient.Rejected (Some m) (lit "Request failed with status code " ++ numToString code)
  | ServerChat.Unanswered => RestClient.Rejected None (lit "Network Error")
  end.

(** [handleSend] of src/unnamed/part_001 has the text [userText] to send in
    the chat number [n], and the identifiers it draws for its two temporary
    messages are new. *)
Definition canSendRest (freshId : nat -> JSString) (closure : RestClient.UI)
           (manualText : option JSString) (w : RestClient.World) (n : Z) : Prop :=
  RestClient.currentSessionId closure = Some (RestClient.NumId n)
  /\ n <> 0%Z
  /\ nonEmpty (orElse manualText (trim (RestClient.input closure))) = true
  /\ freshId (RestClient.nIds w) <> freshId (S (RestClient.nIds w))
  /\ forall m, In m (RestClient.messages (RestClient.ui w)) ->
               RestClient.msgId m <> RestClient.StrId (freshId (S (RestClient.nIds w))).

(** The page shows chat 1 with its two messages, and "How are you?" has
    been typed. *)
Definition restTyped : RestClient.UI :=
  RestClient.mkUI [RestClient.mkSession (RestClient.NumId 1) (lit "New Chat")]
    (Some (RestClient.NumId 1))
    [RestClient.mkMessage (RestClient.NumId 1) (lit "user") (lit "Hello");
     RestClient.mkMessage (RestClient.NumId 2) (lit "bot") (lit "Hi there!")]
    (lit "How are you?") false [] false.

Definition restTypedWorld : RestClient.World :=
  RestClient.mkWorld restTyped (Some (lit "1")) [] 0.

(** [uuidv4], here "tmp0", "tmp1", ... *)
Definition tmpId (k : nat) : JSString := lit "tmp" ++ numToString k.

(** The page after a reload: the identifier of the last session comes out
    of [localStorage], as a string. *)
Definition restReloaded : RestClient.UI :=
  RestClient.mkUI [] (Some (RestClient.StrId (lit "1"))) [] [] false [] false.

Definition restReloadedWorld : RestClient.World :=
  RestClient.mkWorld restReloaded (Some (lit "1")) [] 0.

(** The world [w] with the pending timers [ts]. *)
Definition withTimersApp (w : AppJsx.World) (ts : list AppJsx.Timer) : AppJsx.World :=
  AppJsx.mkWorld (AppJsx.net w) (AppJsx.fs w) (AppJsx.nStore w) (AppJsx.nIds w)
                 (AppJsx.ui w) ts.

(** The page of src/src/App.jsx after the render [closure] has deleted the
    session [id], the user having confirmed, and the sessions listener, which
    the render [listener] attached, has been handed the collection of
    sessions as it is then. *)
Definition deletedAndObserved (env : AppJsx.Env) (closure listener : AppJsx.UI) (id : Id)
           (w : AppJsx.World) : AppJsx.World :=
  AppJsx.sessionsEffect listener
    (AppJsx.sessionsColl
       (AppJsx.fs (AppJsxSessions.deleteSession env closure true id w)))
    (AppJsxSessions.deleteSession env closure true id w).

(* ===================================================================== *)
(** * Properties *)
(* ===================================================================== *)

Unset Implicit Arguments.
Local Open Scope nat_scope.

(** ** Splitting on white space *)

Lemma takeWhile_dropWhile {A} (p : A -> bool) (l : list A) :
  takeWhile p l ++ dropWhile p l = l.
Proof.
  induction l as [|x l IH]; simpl; [reflexivity|].
  destruct (p x); simpl; [now rewrite IH | reflexivity].
Qed.

(** With the capturing group nothing of the scanned text is lost. *)
Lemma splitWs_capture_concat (cur s : JSString) :
  concat (splitWs true cur s) = cur ++ s.
Proof.
  funelim (splitWs true cur s); simp splitWs.
  - simpl. now rewrite app_nil_r.
  - simpl.
    match goal with IH : concat _ = _ |- _ => rewrite IH end.
    simpl. now rewrite takeWhile_dropWhile.
  - match goal with IH : concat _ = _ |- _ => rewrite IH end.
    now rewrite <- app_assoc.
Qed.

Lemma concat_filter_nonEmpty (l : list JSString) :
  concat (filter nonEmpty l) = concat l.
Proof.
  induction l as [|x l IH]; simpl; [reflexivity|].
  destruct x; simpl; [exact IH | now rewrite IH].
Qed.

Lemma chunksOf_concat (full : JSString) : concat (chunksOf full) = full.
Proof.
  unfold chunksOf, split_ws_capture.
  now rewrite concat_filter_nonEmpty, splitWs_capture_concat.
Qed.

Lemma chunksOf_nonEmpty (full : JSString) :
  Forall (fun c => c <> []) (chunksOf full).
Proof.
  unfold chunksOf. apply Forall_forall. intros c Hc.
  apply filter_In in Hc. destruct Hc as [_ Hc]. now destruct c.
Qed.

(** ** Draining a stream whose reply has been fetched *)

Section DrainStream.
Variable Wd : Type.
Variable next : Stream -> Wd -> Completion IterResult * Stream * Wd.
Variable fin : option JSString -> option JSString.

Hypothesis next_yield : forall s w,
  fullResponse s <> None -> (chunkIndex s < length (chunks s))%nat ->
  exists w',
    next s w = (Normal (mkIter (nth_error (chunks s) (chunkIndex s)) false),
                mkStream (fullResponse s) (chunks s) (S (chunkIndex s)), w').

Hypothesis next_done : forall s w,
  fullResponse s <> None -> (length (chunks s) <= chunkIndex s)%nat ->
  next s w = (Normal (mkIter (fin (fullResponse s)) true), s, w).

Lemma skipn_nth_error {A} (l : list A) (i : nat) (x : A) :
  nth_error l i = Some x -> skipn i l = x :: skipn (S i) l.
Proof.
  revert i; induction l as [|y l IH]; intros [|i] H; simpl in *; try discriminate.
  - now inversion H.
  - now apply IH.
Qed.

Lemma drain_streaming :
  forall n s w frags fuel,
    fullResponse s <> None ->
    (length (chunks s) - chunkIndex s = n)%nat -> (n < fuel)%nat ->
    exists s' w',
      drain next fuel frags s w =
      Some (Normal (frags ++ skipn (chunkIndex s) (chunks s),
                    mkIter (fin (fullResponse s)) true), s', w').
Proof.
  induction n as [|n IH]; intros s w frags fuel Hfull Hn Hfuel;
    (destruct fuel as [|fuel]; [lia|]); simpl.
  - rewrite next_done by (assumption || lia). simpl.
    rewrite skipn_all2 by lia. rewrite app_nil_r. eauto.
  - destruct (next_yield s w Hfull ltac:(lia)) as [w' Hy]. rewrite Hy. simpl.
    destruct (nth_error (chunks s) (chunkIndex s)) as [c|] eqn:Hc.
    2:{ apply nth_error_None in Hc. lia. }
    edestruct (IH (mkStream (fullResponse s) (chunks s) (S (chunkIndex s))) w'
                  (frags ++ [c]) fuel) as (s' & w'' & Hd);
      simpl; try assumption; try lia.
    simpl in Hd. rewrite Hd. simpl. rewrite (skipn_nth_error _ _ _ Hc).
    rewrite <- app_assoc. simpl. eauto.
Qed.
End DrainStream.

(** ** The three iterators once the reply is there *)

Lemma IndexJs_next_yield env hist sys s w :
  fullResponse s <> None -> (chunkIndex s < length (chunks s))%nat ->
  exists w',
    IndexJs.next env hist sys s w =
    (Normal (mkIter (nth_error (chunks s) (chunkIndex s)) false),
     mkStream (fullResponse s) (chunks s) (S (chunkIndex s)), w').
Proof.
  intros Hf Hi. unfold IndexJs.next.
  destruct (fullResponse s) eqn:E; [|congruence].
  destruct (Nat.leb_spec (length (chunks s)) (chunkIndex s)); [lia|].
  rewrite E. eauto.
Qed.

Lemma IndexJs_next_done env hist sys s w :
  fullResponse s <> None -> (length (chunks s) <= chunkIndex s)%nat ->
  IndexJs.next env hist sys s w =
  (Normal (mkIter ((fun _ => None) (fullResponse s)) true), s, w).
Proof.
  intros Hf Hi. unfold IndexJs.next.
  destruct (fullResponse s) eqn:E; [|congruence].
  destruct (Nat.leb_spec (length (chunks s)) (chunkIndex s)); [reflexivity|lia].
Qed.

Lemma AppJsx_next_yield env txt hist s w :
  fullResponse s <> None -> (chunkIndex s < length (chunks s))%nat ->
  exists w',
    AppJsx.next env txt hist s w =
    (Normal (mkIter (nth_error (chunks s) (chunkIndex s)) false),
     mkStream (fullResponse s) (chunks s) (S (chunkIndex s)), w').
Proof.
  intros Hf Hi. unfold AppJsx.next.
  destruct (fullResponse s) eqn:E; [|congruence].
  destruct (Nat.leb_spec (length (chunks s)) (chunkIndex s)); [lia|].
  rewrite E. eauto.
Qed.

Lemma AppJsx_next_done env txt hist s w :
  fullResponse s <> None -> (length (chunks s) <= chunkIndex s)%nat ->
  AppJsx.next env txt hist s w =
  (Normal (mkIter ((fun f => f) (fullResponse s)) true), s, w).
Proof.
  intros Hf Hi. unfold AppJsx.next.
  destruct (fullResponse s) eqn:E; [|congruence].
  destruct (Nat.leb_spec (length (chunks s)) (chunkIndex s)); [|lia].
  now rewrite E.
Qed.

Lemma Part000_next_yield env txt hist s w :
  fullResponse s <> None -> (chunkIndex s < length (chunks s))%nat ->
  exists w',
    Part000.next env txt hist s w =
    (Normal (mkIter (nth_error (chunks s) (chunkIndex s)) false),
     mkStream (fullResponse s) (chunks s) (S (chunkIndex s)), w').
Proof.
  intros Hf Hi. unfold Part000.next.
  destruct (fullResponse s) eqn:E; [|congruence].
  destruct (Nat.leb_spec (length (chunks s)) (chunkIndex s)); [lia|].
  rewrite E. eauto.
Qed.

Lemma Part000_next_done env txt hist s w :
  fullResponse s <> None -> (length (chunks s) <= chunkIndex s)%nat ->
  Part000.next env txt hist s w =
  (Normal (mkIter ((fun f => f) (fullResponse s)) true), s, w).
Proof.
  intros Hf Hi. unfold Part000.next.
  destruct (fullResponse s) eqn:E; [|congruence].
  destruct (Nat.leb_spec (length (chunks s)) (chunkIndex s)); [|lia].
  now rewrite E.
Qed.

(** The first pull, when the fetch succeeds, continues exactly like a pull
    on the stream that already holds the reply. *)
Lemma IndexJs_next_first env hist sys w full :
  outcome (IndexJs.fetchRun env w) = Normal (Some full) ->
  IndexJs.next env hist sys IndexJs.askAIStream w =
  IndexJs.next env hist sys (mkStream (Some full) (chunksOf full) 0)
               (IndexJs.afterRun hist sys w (IndexJs.fetchRun env w)).
Proof.
  intros H. unfold IndexJs.next, IndexJs.askAIStream. simpl. now rewrite H.
Qed.

Lemma AppJsx_next_first env txt hist w full :
  AppJsx.fetchReply (fetchResult env (nFetch w)) = Normal full ->
  AppJsx.next env txt hist AppJsx.askAIStream w =
  AppJsx.next env txt hist (mkStream (Some full) (chunksOf full) 0)
              (mkNet (S (nFetch w)) (nRandom w)
                     (requests w ++ [AppJsx.payload txt hist]) (sleeps w)).
Proof.
  intros H. unfold AppJsx.next, AppJsx.askAIStream. simpl. now rewrite H.
Qed.

Lemma Part000_next_first env txt hist w full :
  Part000.fetchReply (fetchResult env (nFetch w)) = Normal full ->
  Part000.next env txt hist Part000.askAIStream w =
  Part000.next env txt hist (mkStream (Some full) (chunksOf full) 0)
               (mkNet (S (nFetch w)) (nRandom w)
                      (requests w ++ [Part000.payload txt hist]) (sleeps w)).
Proof.
  intros H. unfold Part000.next, Part000.askAIStream. simpl. now rewrite H.
Qed.

Lemma drain_first {St Wd} (next : St -> Wd -> Completion IterResult * St * Wd)
      fuel frags s w s1 w1 :
  next s w = next s1 w1 ->
  drain next fuel frags s w = drain next fuel frags s1 w1.
Proof. intros H. destruct fuel; simpl; [reflexivity | now rewrite H]. Qed.

(** ** Fragments *)

Lemma splitWs_capture_fragments (cur s : JSString) :
  forallb (fun x => negb (isWhiteSpace x)) cur = true ->
  Forall (fun c => c = [] \/ isFragment c = true) (splitWs true cur s).
Proof.
  funelim (splitWs true cur s); simp splitWs; intros Hcur.
  - constructor; [|constructor].
    destruct cur; [now left|right].
    unfold isFragment, wordFragment. simpl in *. now rewrite Hcur.
  - constructor; [|constructor].
    + destruct cur; [now left|right].
      unfold isFragment, wordFragment. simpl in *. now rewrite Hcur.
    + right. unfold isFragment, spaceFragment. simpl. rewrite Heq. simpl.
      assert (Ht : forall l, forallb isWhiteSpace (takeWhile isWhiteSpace l) = true).
      { induction l as [|x l IH]; simpl; [reflexivity|].
        destruct (isWhiteSpace x) eqn:E; simpl; [now rewrite E|reflexivity]. }
      rewrite Ht. apply orb_true_r.
    + match goal with IH : _ -> Forall _ _ |- _ => apply IH end. reflexivity.
  - match goal with IH : _ -> Forall _ _ |- _ => apply IH end.
    rewrite forallb_app, Hcur. simpl. now rewrite Heq.
Qed.

Lemma chunksOf_fragments (full : JSString) :
  Forall (fun c => isFragment c = true) (chunksOf full).
Proof.
  unfold chunksOf, split_ws_capture.
  pose proof (splitWs_capture_fragments [] full eq_refl) as H.
  rewrite Forall_forall in *. intros c Hc.
  apply filter_In in Hc. destruct Hc as [Hin Hne].
  destruct (H c Hin) as [->|Hf]; [discriminate|exact Hf].
Qed.

(** C1.  Whatever reply text [full] the first pull has fetched, pulling the
    stream until it reports completion terminates, and the fragments yielded,
    concatenated in pull order, are [full] exactly.  Each fragment is a
    non-empty run of white space or a non-empty text without white space.
    This holds for the iterator of src/index.js (the fetch goes through the
    backoff policy) and for the one of src/src/App.jsx.  The reply text of a
    200 response is the text the service put into it, unless that is empty. *)
Theorem C1_fragments_concat_to_reply :
  forall (env : NetEnv) (w : Net) (full : JSString) (fuel : nat),
    (length (chunksOf full) < fuel)%nat ->
    (forall hist sys,
        outcome (IndexJs.fetchRun env w) = Normal (Some full) ->
        exists frags last s' w',
          drain (IndexJs.next env hist sys) fuel [] IndexJs.askAIStream w
          = Some (Normal (frags, last), s', w')
          /\ done last = true /\ concat frags = full
          /\ Forall (fun c => isFragment c = true) frags)
    /\ (forall txt hist,
        AppJsx.fetchReply (fetchResult env (nFetch w)) = Normal full ->
        exists frags last s' w',
          drain (AppJsx.next env txt hist) fuel [] AppJsx.askAIStream w
          = Some (Normal (frags, last), s', w')
          /\ done last = true /\ concat frags = full
          /\ Forall (fun c => isFragment c = true) frags)
    /\ (forall t, t <> [] ->
        IndexJs.fetchContent env (Normal (okResponse t)) = Normal t
        /\ AppJsx.fetchReply (Normal (okResponse t)) = Normal t).
Proof.
  intros env w full fuel Hfuel. split; [|split].
  - intros hist sys Hrun.
    rewrite (drain_first _ fuel [] _ _ _ _ (IndexJs_next_first env hist sys w full Hrun)).
    edestruct (drain_streaming _ (IndexJs.next env hist sys) (fun _ => None)
                 (IndexJs_next_yield env hist sys) (IndexJs_next_done env hist sys)
                 (length (chunksOf full))
                 (mkStream (Some full) (chunksOf full) 0)
                 (IndexJs.afterRun hist sys w (IndexJs.fetchRun env w)) [] fuel)
      as (s' & w' & Hd); simpl; try discriminate; try lia.
    simpl in Hd. rewrite Hd. do 4 eexists. split; [reflexivity|].
    split; [reflexivity|]. split; [apply chunksOf_concat | apply chunksOf_fragments].
  - intros txt hist Hrun.
    rewrite (drain_first _ fuel [] _ _ _ _ (AppJsx_next_first env txt hist w full Hrun)).
    edestruct (drain_streaming _ (AppJsx.next env txt hist) (fun f => f)
                 (AppJsx_next_yield env txt hist) (AppJsx_next_done env txt hist)
                 (length (chunksOf full))
                 (mkStream (Some full) (chunksOf full) 0)
                 (mkNet (S (nFetch w)) (nRandom w)
                        (requests w ++ [AppJsx.payload txt hist]) (sleeps w))
                 [] fuel)
      as (s' & w' & Hd); simpl; try discriminate; try lia.
    simpl in Hd. rewrite Hd. do 4 eexists. split; [reflexivity|].
    split; [reflexivity|]. split; [apply chunksOf_concat | apply chunksOf_fragments].
  - intros t Ht. destruct t; [congruence|].
    unfold IndexJs.fetchContent, AppJsx.fetchReply, okResponse, ok. simpl.
    split; reflexivity.
Qed.

Lemma C1_witness :
  (length (chunksOf (lit "Hi there!")) < 4)%nat
  /\ outcome (IndexJs.fetchRun (constantService (Normal (okResponse (lit "Hi there!")))) net0)
     = Normal (Some (lit "Hi there!"))
  /\ exists frags last s' w',
       drain (IndexJs.next (constantService (Normal (okResponse (lit "Hi there!"))))
                           [] IndexJs.SYSTEM_INSTRUCTION) 4 [] IndexJs.askAIStream net0
       = Some (Normal (frags, last), s', w')
       /\ done last = true /\ concat frags = lit "Hi there!"
       /\ Forall (fun c => isFragment c = true) frags.
Proof.
  assert (H1 : (length (chunksOf (lit "Hi there!")) < 4)%nat) by (vm_compute; lia).
  assert (H2 : outcome (IndexJs.fetchRun
                          (constantService (Normal (okResponse (lit "Hi there!")))) net0)
               = Normal (Some (lit "Hi there!"))) by reflexivity.
  split; [exact H1|]. split; [exact H2|].
  exact (proj1 (C1_fragments_concat_to_reply
                  (constantService (Normal (okResponse (lit "Hi there!"))))
                  net0 (lit "Hi there!") 4 H1)
               [] IndexJs.SYSTEM_INSTRUCTION H2).
Defined.

(** ** The backoff policy *)

(** A prefix of retryable failures, none of them at the last attempt, costs
    one invocation and one delay each, and the loop goes on behind it. *)
Lemma backoffLoop_prefix {A} (fn : nat -> Completion A) rnd maxRetries :
  forall i fuel a,
    (forall j, j < i ->
       exists e, fn (a + j) = Throw e /\ retryable e = true
                 /\ Z.of_nat (a + j) <> (maxRetries - 1)%Z) ->
    backoffLoop fn rnd maxRetries (i + fuel) a =
    mkRun (outcome (backoffLoop fn rnd maxRetries fuel (a + i)))
          (i + invocations (backoffLoop fn rnd maxRetries fuel (a + i)))
          (map (delayOf rnd) (seq a i)
           ++ delays (backoffLoop fn rnd maxRetries fuel (a + i))).
Proof.
  induction i as [|i IH]; intros fuel a H.
  - rewrite Nat.add_0_r. simpl. now destruct (backoffLoop fn rnd maxRetries fuel a).
  - destruct (H 0 ltac:(lia)) as (e & He & Hr & Hlast).
    rewrite Nat.add_0_r in He, Hlast. simpl. rewrite He.
    destruct (Z.eqb_spec (Z.of_nat a) (maxRetries - 1)) as [E|_]; [contradiction|].
    rewrite Hr. simpl.
    rewrite (IH fuel (S a)).
    + simpl. now rewrite Nat.add_succ_r.
    + intros j Hj. destruct (H (S j) ltac:(lia)) as (e' & He' & Hr' & Hl').
      rewrite Nat.add_succ_r in He', Hl'. eauto.
Qed.

Lemma backoffLoop_invoked {A} (fn : nat -> Completion A) rnd maxRetries fuel a :
  0 < fuel -> 0 < invocations (backoffLoop fn rnd maxRetries fuel a).
Proof.
  destruct fuel as [|fuel]; [lia|]. intros _. simpl.
  destruct (fn a); simpl; [lia|].
  destruct (_ || _); simpl; lia.
Qed.

Lemma nth_error_map_seq {B} (f : nat -> B) a i k (rest : list B) :
  k < i -> nth_error (map f (seq a i) ++ rest) k = Some (f (a + k)).
Proof.
  intros Hk. rewrite nth_error_app1 by (now rewrite length_map, length_seq).
  rewrite nth_error_map, nth_error_seq.
  destruct (Nat.ltb_spec k i); [reflexivity|lia].
Qed.




(** C3 (as amended).  A failure is retried exactly when its message contains
    ["429"], ["500"] or ["Failed to fetch"] and a further attempt remains.
    If invocation [i] is reached (all earlier ones failed retryably) and
    fails with [e], then either [e] is retryable and [i + 1 < maxRetries]: the
    policy sleeps [delayOf rnd i] and invokes the operation again; or the
    policy rejects with [e] at once, after exactly [i + 1] invocations and
    [i] delays -- which covers every other failure, and the last failure when
    the attempts are used up. *)
Theorem C3_retry_iff_signature_and_attempts_remain :
  forall (A : Type) (fn : nat -> Completion A) (rnd : nat -> Q)
         (maxRetries : Z) (i : nat) (e : Error),
    (Z.of_nat i < maxRetries)%Z ->
    (forall j, j < i -> exists ej, fn j = Throw ej /\ retryable ej = true) ->
    fn i = Throw e ->
    retryable e
    = (includes (message e) (lit "429") || includes (message e) (lit "500")
       || includes (message e) (lit "Failed to fetch"))
    /\ if retryable e && (Z.of_nat i + 1 <? maxRetries)%Z
       then i + 1 < invocations (withExponentialBackoff fn rnd maxRetries)
            /\ nth_error (delays (withExponentialBackoff fn rnd maxRetries)) i
               = Some (delayOf rnd i)
       else outcome (withExponentialBackoff fn rnd maxRetries) = Throw e
            /\ invocations (withExponentialBackoff fn rnd maxRetries) = i + 1
            /\ length (delays (withExponentialBackoff fn rnd maxRetries)) = i.
Proof.
  intros A fn rnd maxRetries i e Hi Hprefix He. split; [reflexivity|].
  unfold withExponentialBackoff.
  replace (Z.to_nat maxRetries) with (i + S (Z.to_nat maxRetries - i - 1)) by lia.
  rewrite (backoffLoop_prefix fn rnd maxRetries i _ 0).
  2:{ intros j Hj. destruct (Hprefix j Hj) as (ej & Hej & Hr).
      exists ej. simpl. repeat split; [assumption|assumption|lia]. }
  simpl. rewrite He.
  destruct (Z.eqb_spec (Z.of_nat i) (maxRetries - 1)) as [Hlast|Hmore];
    destruct (retryable e) eqn:Hr; simpl.
  - destruct (Z.ltb_spec (Z.of_nat i + 1) maxRetries); [lia|].
    rewrite length_app, length_map, length_seq. simpl. repeat split; lia.
  - rewrite length_app, length_map, length_seq. simpl. repeat split; lia.
  - destruct (Z.ltb_spec (Z.of_nat i + 1) maxRetries); [|lia].
    split.
    + pose proof (backoffLoop_invoked fn rnd maxRetries
                    (Z.to_nat maxRetries - i - 1) (S i) ltac:(lia)). lia.
    + rewrite nth_error_app2 by (rewrite length_map, length_seq; lia).
      rewrite length_map, length_seq, Nat.sub_diag. reflexivity.
  - rewrite length_app, length_map, length_seq. simpl. repeat split; lia.
Qed.

Lemma C3_witness :
  (Z.of_nat 0 < 5)%Z
  /\ failThenSucceed 1 (lit "500 Internal Server Error: try again") (lit "Hi") 0
     = Throw (mkError (lit "500 Internal Server Error: try again"))
  /\ 0 + 1 < invocations
               (withExponentialBackoff
                  (failThenSucceed 1 (lit "500 Internal Server Error: try again") (lit "Hi"))
                  (fun _ => 1 # 2) 5)
  /\ nth_error
       (delays (withExponentialBackoff
                  (failThenSucceed 1 (lit "500 Internal Server Error: try again") (lit "Hi"))
                  (fun _ => 1 # 2) 5)) 0
     = Some (delayOf (fun _ => 1 # 2) 0).
Proof.
  split; [reflexivity|]. split; [reflexivity|].
  exact (proj2 (C3_retry_iff_signature_and_attempts_remain JSString
                  (failThenSucceed 1 (lit "500 Internal Server Error: try again") (lit "Hi"))
                  (fun _ => 1 # 2) 5 0
                  (mkError (lit "500 Internal Server Error: try again"))
                  eq_refl
                  (fun j (Hj : j < 0) => match Nat.nlt_0_r j Hj with end)
                  eq_refl)).
Defined.

(** C3 as stated fails: the completion service answers 503 (an HTTP 5xx
    status) on the first of five attempts, and the policy of src/index.js
    rejects at once, with one invocation and no delay. *)
Lemma C3_counterexample_503_not_retried :
  outcome (IndexJs.fetchRun
             (constantService
                (Normal (errorResponse 503 (lit "Service Unavailable")
                                       (lit "The model is overloaded."))))
             net0)
  = Throw (mkError (lit "503 Service Unavailable: The model is overloaded."))
  /\ invocations (IndexJs.fetchRun
                    (constantService
                       (Normal (errorResponse 503 (lit "Service Unavailable")
                                              (lit "The model is overloaded."))))
                    net0) = 1
  /\ delays (IndexJs.fetchRun
               (constantService
                  (Normal (errorResponse 503 (lit "Service Unavailable")
                                         (lit "The model is overloaded."))))
               net0) = [].
Proof. repeat split; reflexivity. Qed.

(** ** The end of a stream *)

(** A stream that holds its reply [full] and has handed out all of its
    fragments answers the next pull with [done = true].  The value of that
    result is [full] in src/src/App.jsx and in src/unnamed/part_000; in
    src/index.js it is [undefined]. *)
Lemma final_pull_of_each_client :
  forall (env : NetEnv) (s : Stream) (w : Net) (full : JSString),
    fullResponse s = Some full ->
    length (chunks s) <= chunkIndex s ->
    (forall txt hist,
        AppJsx.next env txt hist s w = (Normal (mkIter (Some full) true), s, w))
    /\ (forall txt hist,
        Part000.next env txt hist s w = (Normal (mkIter (Some full) true), s, w))
    /\ (forall hist sys,
        IndexJs.next env hist sys s w = (Normal (mkIter None true), s, w)).
Proof.
  intros env s w full Hfull Hidx.
  assert (Hne : fullResponse s <> None) by congruence.
  repeat split; intros.
  - rewrite AppJsx_next_done by assumption. now rewrite Hfull.
  - rewrite Part000_next_done by assumption. now rewrite Hfull.
  - now rewrite IndexJs_next_done by assumption.
Qed.

Lemma final_pull_appjsx_example :
  fullResponse (mkStream (Some (lit "Hi")) [lit "Hi"] 1) = Some (lit "Hi")
  /\ length (chunks (mkStream (Some (lit "Hi")) [lit "Hi"] 1))
     <= chunkIndex (mkStream (Some (lit "Hi")) [lit "Hi"] 1)
  /\ AppJsx.next (constantService (Normal (okResponse (lit "Hi")))) (lit "Hello") []
                 (mkStream (Some (lit "Hi")) [lit "Hi"] 1) net0
     = (Normal (mkIter (Some (lit "Hi")) true),
        mkStream (Some (lit "Hi")) [lit "Hi"] 1, net0).
Proof.
  split; [reflexivity|]. split; [simpl; lia|].
  exact (proj1 (final_pull_of_each_client (constantService (Normal (okResponse (lit "Hi"))))
                  (mkStream (Some (lit "Hi")) [lit "Hi"] 1) net0 (lit "Hi")
                  eq_refl (le_n 1))
               (lit "Hello") []).
Defined.

(** C4.  The stream of src/index.js over the reply "Hi": the first pull
    yields the only fragment, and the pull after it reports completion
    ([done = true]) with the value [undefined], not with the full reply text
    "Hi" that the streams of src/src/App.jsx and src/unnamed/part_000 carry at
    that point. *)
Theorem C4_indexjs_final_pull_carries_no_value :
  drain (IndexJs.next (constantService (Normal (okResponse (lit "Hi"))))
                      [] IndexJs.SYSTEM_INSTRUCTION)
        2 [] IndexJs.askAIStream net0
  = Some (Normal ([lit "Hi"], mkIter None true),
          mkStream (Some (lit "Hi")) [lit "Hi"] 1,
          mkNet 1 0 [mkRequest [] IndexJs.SYSTEM_INSTRUCTION true] [20%Q]).
Proof. reflexivity. Qed.

(** ** Failures of the fetch *)

Lemma IndexJs_next_never_throws env hist sys s w :
  exists r, fst (fst (IndexJs.next env hist sys s w)) = Normal r.
Proof.
  unfold IndexJs.next.
  destruct (fullResponse s) as [f|].
  - destruct (_ <=? _); simpl; eauto.
  - destruct (outcome (IndexJs.fetchRun env w)) as [[full|]|e]; simpl;
      try destruct (_ <=? _); simpl; eauto.
Qed.

Lemma AppJsx_next_never_throws env txt hist s w :
  exists r, fst (fst (AppJsx.next env txt hist s w)) = Normal r.
Proof.
  unfold AppJsx.next.
  destruct (fullResponse s) as [f|].
  - destruct (_ <=? _); simpl; eauto.
  - destruct (AppJsx.fetchReply _) as [full|e]; simpl;
      try destruct (_ <=? _); simpl; eauto.
Qed.

(** In src/index.js and src/src/App.jsx a pull never
    rejects, and when the fetch of the first pull fails with [e] the pull
    resolves with the single value "ERROR: Failed to connect to AI. Details: "
    followed by the message of [e], together with [done = true].  In
    src/unnamed/part_000 the same failure rejects the pull with [e].  In all
    three, a stream that holds a reply keeps it, performs no further fetch,
    and every pull resolves with the next fragment or with completion. *)
Lemma fetch_failure_of_each_client :
  (forall env hist sys s w,
      exists r, fst (fst (IndexJs.next env hist sys s w)) = Normal r)
  /\ (forall env txt hist s w,
      exists r, fst (fst (AppJsx.next env txt hist s w)) = Normal r)
  /\ (forall env hist sys s w e,
      fullResponse s = None ->
      outcome (IndexJs.fetchRun env w) = Throw e ->
      fst (fst (IndexJs.next env hist sys s w))
      = Normal (mkIter (Some (lit "ERROR: Failed to connect to AI. Details: "
                              ++ message e)) true))
  /\ (forall env txt hist s w e,
      fullResponse s = None ->
      AppJsx.fetchReply (fetchResult env (nFetch w)) = Throw e ->
      fst (fst (AppJsx.next env txt hist s w))
      = Normal (mkIter (Some (lit "ERROR: Failed to connect to AI. Details: "
                              ++ message e)) true))
  /\ (forall env txt hist s w e,
      fullResponse s = None ->
      Part000.fetchReply (fetchResult env (nFetch w)) = Throw e ->
      fst (fst (Part000.next env txt hist s w)) = Throw e)
  /\ (forall env s w full,
      fullResponse s = Some full ->
      forall next,
        (exists hist sys, next = IndexJs.next env hist sys)
        \/ (exists txt hist, next = AppJsx.next env txt hist)
        \/ (exists txt hist, next = Part000.next env txt hist) ->
        exists r s' w',
          next s w = (Normal r, s', w')
          /\ fullResponse s' = Some full /\ chunks s' = chunks s
          /\ nFetch w' = nFetch w /\ requests w' = requests w
          /\ (done r = false /\ value r = nth_error (chunks s) (chunkIndex s)
              /\ chunkIndex s < length (chunks s)
              \/ done r = true /\ length (chunks s) <= chunkIndex s)).
Proof.
  split; [exact IndexJs_next_never_throws|].
  split; [exact AppJsx_next_never_throws|].
  split; [|split; [|split]].
  - intros env hist sys s w e Hs He. unfold IndexJs.next. now rewrite Hs, He.
  - intros env txt hist s w e Hs He. unfold AppJsx.next. now rewrite Hs, He.
  - intros env txt hist s w e Hs He. unfold Part000.next. now rewrite Hs, He.
  - intros env s w full Hs next Hnext.
    assert (Hne : fullResponse s <> None) by congruence.
    destruct (Nat.leb_spec (length (chunks s)) (chunkIndex s)) as [Hdone|Hmore].
    + destruct Hnext as [(hist & sys & ->)|[(txt & hist & ->)|(txt & hist & ->)]].
      * rewrite IndexJs_next_done by assumption.
        do 3 eexists. split; [reflexivity|]. simpl. intuition.
      * rewrite AppJsx_next_done by assumption.
        do 3 eexists. split; [reflexivity|]. simpl. intuition.
      * rewrite Part000_next_done by assumption.
        do 3 eexists. split; [reflexivity|]. simpl. intuition.
    + destruct Hnext as [(hist & sys & ->)|[(txt & hist & ->)|(txt & hist & ->)]].
      * unfold IndexJs.next. rewrite Hs.
        destruct (Nat.leb_spec (length (chunks s)) (chunkIndex s)); [lia|].
        do 3 eexists. split; [reflexivity|]. simpl. intuition.
      * unfold AppJsx.next. rewrite Hs.
        destruct (Nat.leb_spec (length (chunks s)) (chunkIndex s)); [lia|].
        do 3 eexists. split; [reflexivity|]. simpl. intuition.
      * unfold Part000.next. rewrite Hs.
        destruct (Nat.leb_spec (length (chunks s)) (chunkIndex s)); [lia|].
        do 3 eexists. split; [reflexivity|]. simpl. intuition.
Qed.

Lemma fetch_failure_indexjs_example :
  fullResponse IndexJs.askAIStream = None
  /\ outcome (IndexJs.fetchRun (constantService (Throw (mkError (lit "Failed to fetch")))) net0)
     = Throw (mkError (lit "Failed to fetch"))
  /\ fst (fst (IndexJs.next (constantService (Throw (mkError (lit "Failed to fetch"))))
                            [] IndexJs.SYSTEM_INSTRUCTION IndexJs.askAIStream net0))
     = Normal (mkIter (Some (lit "ERROR: Failed to connect to AI. Details: "
                             ++ message (mkError (lit "Failed to fetch")))) true).
Proof.
  split; [reflexivity|]. split; [reflexivity|].
  exact (proj1 (proj2 (proj2 fetch_failure_of_each_client))
               (constantService (Throw (mkError (lit "Failed to fetch"))))
               [] IndexJs.SYSTEM_INSTRUCTION IndexJs.askAIStream net0
               (mkError (lit "Failed to fetch")) eq_refl eq_refl).
Defined.

(** C5.  In src/unnamed/part_000 the network is down at the first pull:
    the pull is rejected with the error of [fetch]; no error marker is
    returned and no completion is signalled, unlike in src/index.js and
    src/src/App.jsx (see [fetch_failure_of_each_client]). *)
Theorem C5_part000_failed_fetch_rejects_pull :
  fst (fst (Part000.next (constantService (Throw (mkError (lit "Failed to fetch"))))
                         (lit "Hello") [] Part000.askAIStream net0))
  = Throw (mkError (lit "Failed to fetch")).
Proof. reflexivity. Qed.

(** ** Deleting a session *)

Lemma eqId_true (a b : Id) : eqId a b = true <-> a = b.
Proof. unfold eqId. destruct (list_eq_dec N.eq_dec a b); split; congruence. Qed.

Lemma eqId_false (a b : Id) : eqId a b = false <-> a <> b.
Proof. unfold eqId. destruct (list_eq_dec N.eq_dec a b); split; congruence. Qed.

Lemma filter_all {A} (f : A -> bool) (l : list A) :
  (forall x, In x l -> f x = true) -> filter f l = l.
Proof.
  induction l as [|x l IH]; intros H; simpl; [reflexivity|].
  rewrite (H x (or_introl eq_refl)), IH; [reflexivity|].
  intros y Hy. apply H. now right.
Qed.

Lemma filter_none {A} (f : A -> bool) (l : list A) :
  (forall x, In x l -> f x = false) -> filter f l = [].
Proof.
  induction l as [|x l IH]; intros H; simpl; [reflexivity|].
  rewrite (H x (or_introl eq_refl)). apply IH.
  intros y Hy. apply H. now right.
Qed.

Lemma backoff_first_success {A} (fn : nat -> Completion A) rnd (v : A) :
  fn 0 = Normal v ->
  withExponentialBackoff fn rnd 5 = mkRun (Normal (Some v)) 1 [].
Proof. intros H. unfold withExponentialBackoff. simpl. now rewrite H. Qed.

(** The batch built by [deleteSession] for session [id] over store [f]. *)
Lemma applyBatch_messages (l : list IndexJs.MessageDoc) (f : IndexJs.Firestore) :
  IndexJs.sessionsColl
    (IndexJs.applyBatch (map (fun d => IndexJs.MessageRef (IndexJs.mdId d)) l) f)
  = IndexJs.sessionsColl f
  /\ IndexJs.messagesColl
       (IndexJs.applyBatch (map (fun d => IndexJs.MessageRef (IndexJs.mdId d)) l) f)
     = filter (fun d => negb (existsb (fun x => eqId (IndexJs.mdId d) (IndexJs.mdId x)) l))
              (IndexJs.messagesColl f).
Proof.
  unfold IndexJs.applyBatch. revert f.
  induction l as [|x l IH]; intros f.
  - simpl. split; [reflexivity|]. symmetry. now apply filter_all.
  - cbn [map fold_left].
    destruct (IH (IndexJs.batchDelete f (IndexJs.MessageRef (IndexJs.mdId x))))
      as [Hs Hm].
    rewrite Hs, Hm. simpl. split; [reflexivity|].
    clear. induction (IndexJs.messagesColl f) as [|d ds IHd]; simpl; [reflexivity|].
    destruct (eqId (IndexJs.mdId d) (IndexJs.mdId x)); simpl; [exact IHd|].
    destruct (existsb _ l); simpl; [exact IHd | now rewrite IHd].
Qed.

Lemma applyBatch_deleteSession (id : Id) (f : IndexJs.Firestore) :
  let batch :=
    map (fun d => IndexJs.MessageRef (IndexJs.mdId d))
        (filter (fun d => eqId (IndexJs.mdSessionId d) id) (IndexJs.messagesColl f))
    ++ [IndexJs.SessionRef id] in
  IndexJs.sessionsColl (IndexJs.applyBatch batch f)
  = filter (fun d => negb (eqId (IndexJs.sdId d) id)) (IndexJs.sessionsColl f)
  /\ Forall (fun d => IndexJs.mdSessionId d <> id)
            (IndexJs.messagesColl (IndexJs.applyBatch batch f))
  /\ incl (IndexJs.messagesColl (IndexJs.applyBatch batch f)) (IndexJs.messagesColl f).
Proof.
  intros batch. unfold batch, IndexJs.applyBatch. rewrite fold_left_app. simpl.
  destruct (applyBatch_messages
              (filter (fun d => eqId (IndexJs.mdSessionId d) id) (IndexJs.messagesColl f)) f)
    as [Hs Hm].
  unfold IndexJs.applyBatch in Hs, Hm. rewrite Hs, Hm.
  split; [reflexivity|]. split.
  - apply Forall_forall. intros d Hd. apply filter_In in Hd. destruct Hd as [Hin Hnot].
    intros Heq. apply negb_true_iff in Hnot.
    assert (Hex : existsb (fun x => eqId (IndexJs.mdId d) (IndexJs.mdId x))
                    (filter (fun d0 => eqId (IndexJs.mdSessionId d0) id)
                            (IndexJs.messagesColl f)) = true).
    { apply existsb_exists. exists d. split.
      - apply filter_In. split; [exact Hin | now apply eqId_true].
      - now apply eqId_true. }
    congruence.
  - intros d Hd. apply filter_In in Hd. tauto.
Qed.

(** C6 (as amended).  [deleteSession] of src/index.js changes the store in
    one step or not at all: afterwards the store is the old one, or the old
    one with the whole batch applied.  When the read and the commit succeed,
    no session with the identifier and no message with that [sessionId] is
    left, and when neither existed the store is unchanged and no error is
    reported.  The REST handler [DELETE /api/chats/:id] answers an unknown
    identifier with status 404 "Chat not found" and leaves the database as it
    is; for a known one it answers 200 and the chat row is gone. *)
Theorem C6_delete_session :
  (forall env closure id w,
      IndexJs.fs (IndexJs.deleteSession env closure id w) = IndexJs.fs w
      \/ IndexJs.fs (IndexJs.deleteSession env closure id w)
         = IndexJs.applyBatch
             (map (fun d => IndexJs.MessageRef (IndexJs.mdId d))
                  (filter (fun d => eqId (IndexJs.mdSessionId d) id)
                          (IndexJs.messagesColl (IndexJs.fs w)))
              ++ [IndexJs.SessionRef id])
             (IndexJs.fs w))
  /\ (forall env closure id w,
      IndexJs.db closure = true -> truthy (IndexJs.userId closure) = true ->
      IndexJs.storeError env (IndexJs.nStore w) = None ->
      IndexJs.storeError env (IndexJs.nStore w + 1) = None ->
      Forall (fun d => IndexJs.sdId d <> id)
             (IndexJs.sessionsColl (IndexJs.fs (IndexJs.deleteSession env closure id w)))
      /\ Forall (fun d => IndexJs.mdSessionId d <> id)
                (IndexJs.messagesColl (IndexJs.fs (IndexJs.deleteSession env closure id w)))
      /\ ((forall d, In d (IndexJs.sessionsColl (IndexJs.fs w)) -> IndexJs.sdId d <> id) ->
          (forall d, In d (IndexJs.messagesColl (IndexJs.fs w)) ->
                     IndexJs.mdSessionId d <> id) ->
          IndexJs.fs (IndexJs.deleteSession env closure id w) = IndexJs.fs w
          /\ IndexJs.error (IndexJs.ui (IndexJs.deleteSession env closure id w))
             = IndexJs.error (IndexJs.ui w)))
  /\ (forall foreignKeys chatId d,
      (forall c, In c (ServerJs.chats d) -> ServerJs.chat_id c <> chatId) ->
      ServerJs.deleteChatHandler foreignKeys None chatId d
      = (ServerJs.mkReply 404 (ServerJs.MessageOnly (lit "Chat not found")), d))
  /\ (forall foreignKeys chatId d,
      (exists c, In c (ServerJs.chats d) /\ ServerJs.chat_id c = chatId) ->
      fst (ServerJs.deleteChatHandler foreignKeys None chatId d)
      = ServerJs.mkReply 200 (ServerJs.MessageOnly (lit "Chat deleted successfully"))
      /\ Forall (fun c => ServerJs.chat_id c <> chatId)
                (ServerJs.chats (snd (ServerJs.deleteChatHandler foreignKeys None chatId d)))).
Proof.
  split; [|split; [|split]].
  - intros env closure id w. unfold IndexJs.deleteSession.
    destruct (eqOptId (Some id) (IndexJs.currentSessionId closure)).
    all: destruct (_ || _); [now left|].
    all: destruct (outcome _); [|now left].
    all: simpl; destruct (IndexJs.storeError env _); [now left|].
    all: right; try reflexivity.
    destruct (filter _ (IndexJs.sessions closure)); reflexivity.
  - intros env closure id w Hdb Huid Hread Hcommit.
    assert (Hfs : IndexJs.fs (IndexJs.deleteSession env closure id w)
                  = IndexJs.applyBatch
                      (map (fun d => IndexJs.MessageRef (IndexJs.mdId d))
                           (filter (fun d => eqId (IndexJs.mdSessionId d) id)
                                   (IndexJs.messagesColl (IndexJs.fs w)))
                       ++ [IndexJs.SessionRef id])
                      (IndexJs.fs w)
                  /\ IndexJs.error (IndexJs.ui (IndexJs.deleteSession env closure id w))
                     = IndexJs.error (IndexJs.ui w)).
    { unfold IndexJs.deleteSession. rewrite Hdb, Huid.
      destruct (eqOptId (Some id) (IndexJs.currentSessionId closure)).
      all: simpl; rewrite (backoff_first_success _ _ tt)
             by (now rewrite Nat.add_0_r, Hread).
      all: simpl; rewrite Hcommit.
      all: try (split; reflexivity).
      destruct (filter _ (IndexJs.sessions closure)); split; reflexivity. }
    destruct Hfs as [Hfs Herr]. rewrite Hfs.
    destruct (applyBatch_deleteSession id (IndexJs.fs w)) as (Hs & Hm & _).
    split; [|split; [exact Hm|]].
    + rewrite Hs. apply Forall_forall. intros d Hd. apply filter_In in Hd.
      destruct Hd as [_ Hd]. apply negb_true_iff in Hd. now apply eqId_false.
    + intros Hnos Hnom. split; [|exact Herr].
      assert (Hempty : filter (fun d => eqId (IndexJs.mdSessionId d) id)
                              (IndexJs.messagesColl (IndexJs.fs w)) = []).
      { apply filter_none. intros d Hd. apply eqId_false. now apply Hnom. }
      rewrite Hempty. unfold IndexJs.applyBatch. simpl.
      rewrite filter_all.
      * now destruct (IndexJs.fs w).
      * intros d Hd. apply negb_true_iff, eqId_false. now apply Hnos.
  - intros fk chatId d Hno. unfold ServerJs.deleteChatHandler, ServerJs.sqlDeleteChat.
    assert (Hnone : filter (fun c => (ServerJs.chat_id c =? chatId)%Z) (ServerJs.chats d) = []).
    { apply filter_none. intros c Hc. apply Z.eqb_neq. now apply Hno. }
    rewrite Hnone. simpl. rewrite andb_false_r.
    rewrite filter_all.
    + now destruct d.
    + intros c Hc. apply negb_true_iff. apply Z.eqb_neq. now apply Hno.
  - intros fk chatId d (c & Hin & Hc).
    unfold ServerJs.deleteChatHandler, ServerJs.sqlDeleteChat.
    assert (Hsome : length (filter (fun c => (ServerJs.chat_id c =? chatId)%Z)
                                   (ServerJs.chats d)) <> 0).
    { assert (Hf : In c (filter (fun c => (ServerJs.chat_id c =? chatId)%Z)
                               (ServerJs.chats d))).
      { apply filter_In. split; [exact Hin | now apply Z.eqb_eq]. }
      destruct (filter _ (ServerJs.chats d)); [contradiction | simpl; lia]. }
    destruct (Nat.eqb_spec (length (filter (fun c => (ServerJs.chat_id c =? chatId)%Z)
                                           (ServerJs.chats d))) 0); [contradiction|].
    simpl. split; [reflexivity|].
    apply Forall_forall. intros x Hx. apply filter_In in Hx.
    destruct Hx as [_ Hx]. apply negb_true_iff in Hx. now apply Z.eqb_neq.
Qed.

Lemma C6_witness :
  IndexJs.db signedIn = true /\ truthy (IndexJs.userId signedIn) = true
  /\ IndexJs.storeError reliableStore (IndexJs.nStore sampleWorld) = None
  /\ IndexJs.storeError reliableStore (IndexJs.nStore sampleWorld + 1) = None
  /\ Forall (fun d => IndexJs.sdId d <> lit "s1")
            (IndexJs.sessionsColl
               (IndexJs.fs (IndexJs.deleteSession reliableStore signedIn (lit "s1") sampleWorld)))
  /\ Forall (fun d => IndexJs.mdSessionId d <> lit "s1")
            (IndexJs.messagesColl
               (IndexJs.fs (IndexJs.deleteSession reliableStore signedIn (lit "s1") sampleWorld))).
Proof.
  do 4 (split; [reflexivity|]).
  destruct (proj1 (proj2 C6_delete_session) reliableStore signedIn (lit "s1") sampleWorld
                  eq_refl eq_refl eq_refl eq_refl) as (Hs & Hm & _).
  split; [exact Hs | exact Hm].
Defined.

(** C6 as stated fails on the REST surface: deleting a chat that does not
    exist is answered with status 404, whatever the foreign-key setting. *)
Lemma C6_counterexample_rest_unknown_chat_404 :
  ServerJs.deleteChatHandler true None 7 (ServerJs.mkDb [] [])
  = (ServerJs.mkReply 404 (ServerJs.MessageOnly (lit "Chat not found")),
     ServerJs.mkDb [] [])
  /\ ServerJs.deleteChatHandler false None 7 (ServerJs.mkDb [] [])
     = (ServerJs.mkReply 404 (ServerJs.MessageOnly (lit "Chat not found")),
        ServerJs.mkDb [] []).
Proof. split; reflexivity. Qed.

(** ** Listing messages *)

Section SortByKey.
Variable A : Type.
Variable key : A -> Z.

Let cmp (a b : A) : Z := (key a - key b)%Z.

Lemma insertSorted_perm (x : A) (l : list A) :
  Permutation (insertSorted cmp x l) (x :: l).
Proof.
  induction l as [|y l IH]; simpl; [reflexivity|].
  destruct (cmp x y <=? 0)%Z; [reflexivity|].
  rewrite IH. apply perm_swap.
Qed.

Lemma sortBy_perm (l : list A) : Permutation (sortBy cmp l) l.
Proof.
  induction l as [|x l IH]; simpl; [reflexivity|].
  rewrite insertSorted_perm. now constructor.
Qed.

Lemma insertSorted_sorted (x : A) (l : list A) :
  Sorted (fun a b => (key a <= key b)%Z) l ->
  Sorted (fun a b => (key a <= key b)%Z) (insertSorted cmp x l).
Proof.
  induction l as [|y l IH]; intros Hs; simpl.
  - repeat constructor.
  - unfold cmp at 1. destruct (Z.leb_spec (key x - key y) 0).
    + constructor; [exact Hs|]. constructor. lia.
    + inversion Hs as [|? ? Hl Hhd]; subst.
      constructor; [now apply IH|].
      destruct l as [|z l]; simpl.
      * constructor. lia.
      * unfold cmp at 1. destruct (Z.leb_spec (key x - key z) 0).
        -- constructor. lia.
        -- constructor. now inversion Hhd.
Qed.

Lemma sortBy_sorted (l : list A) :
  Sorted (fun a b => (key a <= key b)%Z) (sortBy cmp l).
Proof.
  induction l as [|x l IH]; simpl; [constructor|].
  now apply insertSorted_sorted.
Qed.
End SortByKey.

Lemma In_firstn {A} (n : nat) (x : A) (l : list A) :
  In x (firstn n l) -> In x l.
Proof.
  revert l; induction n as [|n IH]; intros [|y l] H; simpl in *; try contradiction.
  destruct H as [->|H]; [now left | right; now apply IH].
Qed.

(** C7 (as amended).  Whatever the [messages] collection holds and in
    whatever order, the listener of src/index.js shows the messages of the
    selected session, in non-decreasing order of their timestamps: all of
    them when the session has at most 100, and otherwise the first 100 that
    the query delivers, so min(100, n) of the n messages of the session, each
    with its identifier, sender and text.  The REST handler
    [GET /api/chats/:id/messages] selects the rows of the chat in
    non-decreasing order of their timestamps, and it returns every one of
    them: there is no cap. *)
Theorem C7_list_messages_ascending :
  (forall env (w : IndexJs.World) (sid : Id),
      Sorted (fun a b => (IndexJs.timestamp a <= IndexJs.timestamp b)%Z)
             (IndexJs.messages
                (IndexJs.ui (IndexJs.onMessagesSnapshot env
                               (IndexJs.messagesQuery (IndexJs.fs w) sid) w)))
      /\ length (IndexJs.messages
                   (IndexJs.ui (IndexJs.onMessagesSnapshot env
                                  (IndexJs.messagesQuery (IndexJs.fs w) sid) w)))
         <= 100
      /\ Forall (fun d => IndexJs.mdSessionId d = sid /\ In d (IndexJs.messagesColl (IndexJs.fs w)))
                (IndexJs.messagesQuery (IndexJs.fs w) sid)
      /\ Permutation
           (map IndexJs.msgId
                (IndexJs.messages
                   (IndexJs.ui (IndexJs.onMessagesSnapshot env
                                  (IndexJs.messagesQuery (IndexJs.fs w) sid) w))))
           (map IndexJs.mdId (IndexJs.messagesQuery (IndexJs.fs w) sid))
      /\ length (IndexJs.messages
                   (IndexJs.ui (IndexJs.onMessagesSnapshot env
                                  (IndexJs.messagesQuery (IndexJs.fs w) sid) w)))
         = Nat.min 100
             (length (filter (fun d => eqId (IndexJs.mdSessionId d) sid)
                             (IndexJs.messagesColl (IndexJs.fs w))))
      /\ Permutation
           (IndexJs.messages
              (IndexJs.ui (IndexJs.onMessagesSnapshot env
                             (IndexJs.messagesQuery (IndexJs.fs w) sid) w)))
           (map (fun d => IndexJs.mkMessage (IndexJs.mdId d) (IndexJs.mdSender d)
                            (IndexJs.mdText d)
                            (match IndexJs.mdTimestamp d with
                             | Some t => t
                             | None => IndexJs.clock env
                             end))
                (firstn 100 (filter (fun d => eqId (IndexJs.mdSessionId d) sid)
                                    (IndexJs.messagesColl (IndexJs.fs w))))))
  /\ (forall (chatId : Z) (d : ServerJs.Db),
      Sorted (fun a b => (ServerJs.timestamp a <= ServerJs.timestamp b)%Z)
             (ServerJs.sqlSelectMessages chatId d)
      /\ Permutation (ServerJs.sqlSelectMessages chatId d)
                     (filter (fun m => (ServerJs.msg_chat_id m =? chatId)%Z)
                             (ServerJs.messages d))
      /\ dataOf (ServerJs.getMessagesHandler None chatId d)
         = map (fun r => ServerJs.mkMessageJson (ServerJs.message_id r)
                                                (ServerJs.sender r) (ServerJs.content r))
               (ServerJs.sqlSelectMessages chatId d)
      /\ length (dataOf (ServerJs.getMessagesHandler None chatId d))
         = length (filter (fun m => (ServerJs.msg_chat_id m =? chatId)%Z)
                          (ServerJs.messages d))).
Proof.
  split.
  - intros env w sid. unfold IndexJs.onMessagesSnapshot. simpl.
    split; [apply sortBy_sorted|]. split; [|split; [|split; [|split]]].
    + rewrite (Permutation_length (sortBy_perm _ IndexJs.timestamp _)).
      rewrite length_map. unfold IndexJs.messagesQuery.
      rewrite length_firstn. lia.
    + apply Forall_forall. intros d Hd. unfold IndexJs.messagesQuery in Hd.
      apply In_firstn in Hd. apply filter_In in Hd.
      destruct Hd as [Hin Hd]. apply eqId_true in Hd. tauto.
    + rewrite (Permutation_map IndexJs.msgId (sortBy_perm _ IndexJs.timestamp _)).
      rewrite map_map. simpl. reflexivity.
    + rewrite (Permutation_length (sortBy_perm _ IndexJs.timestamp _)).
      rewrite length_map. unfold IndexJs.messagesQuery.
      apply length_firstn.
    + apply (sortBy_perm _ IndexJs.timestamp).
  - intros chatId d. unfold ServerJs.sqlSelectMessages.
    split; [apply sortBy_sorted|]. split; [apply sortBy_perm|].
    split; [reflexivity|].
    unfold ServerJs.getMessagesHandler, dataOf. simpl.
    rewrite length_map. unfold ServerJs.sqlSelectMessages.
    apply Permutation_length, (sortBy_perm _ ServerJs.timestamp).
Qed.

(** C7 as stated fails on the REST surface: a chat with 101 messages is
    listed with all 101 of them, one more than the largest cap. *)
Lemma C7_counterexample_rest_list_is_not_capped :
  length (dataOf (ServerJs.getMessagesHandler None 1 db101)) = 101
  /\ ~ length (dataOf (ServerJs.getMessagesHandler None 1 db101)) <= 100.
Proof.
  assert (H : length (dataOf (ServerJs.getMessagesHandler None 1 db101)) = 101)
    by (vm_compute; reflexivity).
  split; [exact H | rewrite H; lia].
Qed.

(** ** Automatic creation of the first session *)

(** C9.  The session collection is empty, no timer is pending, and the
    listener of a signed-in client receives one snapshot without sessions.
    Then exactly one creation is scheduled, and once the timers have run --
    the store accepting the write -- the collection holds exactly one session,
    which is the selected one.  This holds for src/index.js and for
    src/src/App.jsx. *)
Theorem C9_one_empty_observation_creates_one_session :
  (forall env closure w,
      IndexJs.isAuthReady closure = true -> IndexJs.db closure = true ->
      truthy (IndexJs.userId closure) = true ->
      IndexJs.sessionsColl (IndexJs.fs w) = [] -> IndexJs.timers w = [] ->
      IndexJs.storeError env (IndexJs.nStore w) = None ->
      length (IndexJs.timers (IndexJs.sessionsEffect env closure [] w)) = 1
      /\ IndexJs.fs (IndexJs.sessionsEffect env closure [] w) = IndexJs.fs w
      /\ length (IndexJs.sessionsColl
                   (IndexJs.fs (IndexJs.runTimers env
                                  (IndexJs.sessionsEffect env closure [] w)))) = 1
      /\ IndexJs.timers (IndexJs.runTimers env (IndexJs.sessionsEffect env closure [] w)) = []
      /\ IndexJs.currentSessionId
           (IndexJs.ui (IndexJs.runTimers env (IndexJs.sessionsEffect env closure [] w)))
         = Some (IndexJs.freshId env (IndexJs.nIds w)))
  /\ (forall env closure w,
      AppJsx.isAuthReady closure = true -> AppJsx.db closure = true ->
      truthy (AppJsx.userId closure) = true ->
      AppJsx.sessionsColl (AppJsx.fs w) = [] -> AppJsx.timers w = [] ->
      AppJsx.storeError env (AppJsx.nStore w) = None ->
      length (AppJsx.timers (AppJsx.sessionsEffect closure [] w)) = 1
      /\ AppJsx.fs (AppJsx.sessionsEffect closure [] w) = AppJsx.fs w
      /\ length (AppJsx.sessionsColl
                   (AppJsx.fs (AppJsx.runTimers env
                                 (AppJsx.sessionsEffect closure [] w)))) = 1
      /\ AppJsx.timers (AppJsx.runTimers env (AppJsx.sessionsEffect closure [] w)) = []
      /\ AppJsx.currentSessionId
           (AppJsx.ui (AppJsx.runTimers env (AppJsx.sessionsEffect closure [] w)))
         = Some (AppJsx.freshId env (AppJsx.nIds w))).
Proof.
  split.
  - intros env closure w Hauth Hdb Huid Hempty Htimers Hwrite.
    unfold IndexJs.sessionsEffect, IndexJs.onSessionsSnapshot.
    rewrite Hauth, Hdb, Huid. simpl.
    unfold IndexJs.runTimers. simpl. rewrite Htimers. simpl.
    rewrite Huid, Hdb. simpl.
    unfold IndexJs.createSession. rewrite Hdb, Huid. simpl. rewrite Hwrite. simpl.
    rewrite Hempty. repeat split.
  - intros env closure w Hauth Hdb Huid Hempty Htimers Hwrite.
    unfold AppJsx.sessionsEffect, AppJsx.onSessionsSnapshot.
    rewrite Hauth, Hdb, Huid. simpl.
    unfold AppJsx.runTimers. simpl. rewrite Htimers. simpl.
    unfold AppJsx.createSession. rewrite Hdb, Huid. simpl. rewrite Hwrite. simpl.
    rewrite Hempty. repeat split.
Qed.

Lemma C9_witness :
  IndexJs.isAuthReady signedIn = true /\ IndexJs.db signedIn = true
  /\ truthy (IndexJs.userId signedIn) = true
  /\ IndexJs.sessionsColl (IndexJs.fs emptyWorld) = [] /\ IndexJs.timers emptyWorld = []
  /\ IndexJs.storeError reliableStore (IndexJs.nStore emptyWorld) = None
  /\ length (IndexJs.sessionsColl
               (IndexJs.fs (IndexJs.runTimers reliableStore
                              (IndexJs.sessionsEffect reliableStore signedIn [] emptyWorld))))
     = 1.
Proof.
  do 6 (split; [reflexivity|]).
  exact (proj1 (proj2 (proj2
           (proj1 C9_one_empty_observation_creates_one_session
                  reliableStore signedIn emptyWorld
                  eq_refl eq_refl eq_refl eq_refl eq_refl eq_refl)))).
Defined.

(** ** A failed write of the user message *)

(** In src/index.js the exchange stops there: when the guard of
    [handleSend] lets the input through and the write of the user message
    fails with [m], the busy flag is cleared, the failure is shown, the
    message list and the store are as before, and nothing was sent to the
    completion service. *)
Lemma IndexJs_handleSend_failed_user_save_stops :
  forall env closure w sid m,
    IndexJs.currentSessionId closure = Some sid ->
    nonEmpty (trim (IndexJs.input closure)) = true ->
    IndexJs.isTyping closure = false ->
    truthy (IndexJs.userId closure) = true -> truthy (Some sid) = true ->
    IndexJs.db closure = true ->
    IndexJs.storeError env (IndexJs.nStore w) = Some m ->
    fst (IndexJs.handleSend env closure w) = Normal tt
    /\ IndexJs.isTyping (IndexJs.ui (snd (IndexJs.handleSend env closure w))) = false
    /\ IndexJs.error (IndexJs.ui (snd (IndexJs.handleSend env closure w)))
       = Some (lit "Could not save message to database: " ++ m)
    /\ IndexJs.messages (IndexJs.ui (snd (IndexJs.handleSend env closure w)))
       = IndexJs.messages (IndexJs.ui w)
    /\ IndexJs.fs (snd (IndexJs.handleSend env closure w)) = IndexJs.fs w
    /\ IndexJs.net (snd (IndexJs.handleSend env closure w)) = IndexJs.net w.
Proof.
  intros env closure w sid m Hsid Hin Hty Huid Hs Hdb Hfail.
  unfold IndexJs.handleSend. rewrite Hsid. cbv beta iota.
  rewrite Hin, Hty, Huid, Hs. cbn [negb orb].
  unfold IndexJs.saveMessage. rewrite Hdb, Huid, Hs. cbn [negb orb].
  cbn [IndexJs.nStore IndexJs.setError IndexJs.setIsTyping IndexJs.setInput
       IndexJs.setUI].
  rewrite Hfail. simpl. repeat split.
Qed.

(** C8.  In src/src/App.jsx the exchange goes on: the store rejects the
    write of the user message "Hello" (and accepts what follows).  The failure
    is shown, but the placeholder is created and filled, one request goes to
    the completion service, and the reply is stored as a bot message of a
    session that has no user message. *)
Theorem C8_appjsx_failed_user_save_still_streams :
  fst (AppJsx.handleSend firstWriteFailsApp typedHelloApp None typedHelloWorldApp)
  = Normal tt
  /\ AppJsx.errorMessage
       (AppJsx.ui (snd (AppJsx.handleSend firstWriteFailsApp typedHelloApp None
                                          typedHelloWorldApp)))
     = Some (lit "Failed to save message to database.")
  /\ requests
       (AppJsx.net (snd (AppJsx.handleSend firstWriteFailsApp typedHelloApp None
                                           typedHelloWorldApp)))
     = [mkRequest [mkTurn RoleUser (lit "Hello")] AppJsx.SYSTEM_INSTRUCTION false]
  /\ AppJsx.messages
       (AppJsx.ui (snd (AppJsx.handleSend firstWriteFailsApp typedHelloApp None
                                          typedHelloWorldApp)))
     = [AppJsx.mkMessage (lit "doc0") SenderBot (lit "Hi there!")]
  /\ AppJsx.messagesColl
       (AppJsx.fs (snd (AppJsx.handleSend firstWriteFailsApp typedHelloApp None
                                          typedHelloWorldApp)))
     = [AppJsx.mkMessageDoc (lit "doc1") (lit "s1") SenderBot (lit "Hi there!") (Some 2%Z)].
Proof. vm_compute. repeat split. Qed.

(** The same input in src/index.js: no request, no placeholder. *)
Lemma IndexJs_failed_user_save_example :
  requests (IndexJs.net (snd (IndexJs.handleSend brokenStore typedHello typedHelloWorld))) = []
  /\ IndexJs.messages (IndexJs.ui (snd (IndexJs.handleSend brokenStore typedHello typedHelloWorld)))
     = []
  /\ IndexJs.isTyping (IndexJs.ui (snd (IndexJs.handleSend brokenStore typedHello typedHelloWorld)))
     = false
  /\ IndexJs.error (IndexJs.ui (snd (IndexJs.handleSend brokenStore typedHello typedHelloWorld)))
     = Some (lit "Could not save message to database: unavailable").
Proof. vm_compute. repeat split. Qed.

(** ** The context of a completion request *)

Lemma extendedBy_refl r l : extendedBy r l l.
Proof. exists 0. simpl. now rewrite app_nil_r. Qed.

Lemma extendedBy_trans r l1 l2 l3 :
  extendedBy r l1 l2 -> extendedBy r l2 l3 -> extendedBy r l1 l3.
Proof.
  intros [k1 ->] [k2 ->]. exists (k1 + k2).
  now rewrite <- app_assoc, repeat_app.
Qed.

Lemma IndexJs_next_requests env hist sys s w :
  extendedBy (mkRequest hist sys true) (requests w)
             (requests (snd (IndexJs.next env hist sys s w))).
Proof.
  unfold IndexJs.next.
  destruct (fullResponse s) as [f|].
  - destruct (_ <=? _); simpl; apply extendedBy_refl.
  - destruct (outcome (IndexJs.fetchRun env w)) as [[full|]|e]; simpl;
      try destruct (_ <=? _); simpl; eexists; reflexivity.
Qed.

Lemma IndexJs_next_first_requests env hist sys w :
  exists k, requests (snd (IndexJs.next env hist sys IndexJs.askAIStream w))
            = requests w ++ repeat (mkRequest hist sys true) (S k).
Proof.
  assert (Hinv : 0 < invocations (IndexJs.fetchRun env w)).
  { unfold IndexJs.fetchRun, withExponentialBackoff.
    apply backoffLoop_invoked. simpl. lia. }
  unfold IndexJs.next, IndexJs.askAIStream, IndexJs.afterRun. cbn [fullResponse].
  destruct (IndexJs.fetchRun env w) as [o inv d]. cbn [outcome invocations delays] in *.
  destruct inv as [|k]; [lia|]. exists k.
  destruct o as [[full|]|e]; simpl; try destruct (_ <=? _); reflexivity.
Qed.

Lemma IndexJs_streamLoop_requests env fuel hist botMessageId :
  forall nxt botText s w,
    extendedBy (mkRequest hist IndexJs.SYSTEM_INSTRUCTION true)
               (requests (IndexJs.net w))
               (requests (IndexJs.net
                            (snd (IndexJs.streamLoop env fuel hist botMessageId
                                                     nxt botText s w)))).
Proof.
  induction fuel as [|fuel IH]; intros nxt botText s w; simpl.
  - apply extendedBy_refl.
  - destruct (done nxt); [apply extendedBy_refl|].
    pose proof (IndexJs_next_requests (IndexJs.netEnv env) hist
                  IndexJs.SYSTEM_INSTRUCTION s (IndexJs.net w)) as Hn.
    destruct (IndexJs.next _ _ _ _ _) as [[[nxt'|e] s'] n'] eqn:En; simpl in *.
    + eapply extendedBy_trans; [exact Hn|]. apply IH.
    + exact Hn.
Qed.

Lemma IndexJs_saveMessage_net env closure who txt sid w :
  IndexJs.net (snd (IndexJs.saveMessage env closure who txt sid w)) = IndexJs.net w.
Proof.
  unfold IndexJs.saveMessage. destruct sid; [|reflexivity].
  destruct (_ || _); [reflexivity|].
  destruct (IndexJs.storeError env _); reflexivity.
Qed.

Lemma IndexJs_updateTitle_requests env closure sid userInput w :
  requests (IndexJs.net (snd (IndexJs.updateTitle env closure sid userInput w)))
  = requests (IndexJs.net w).
Proof.
  unfold IndexJs.updateTitle.
  destruct (_ && _); [|reflexivity].
  destruct (outcome _); reflexivity.
Qed.

Ltac save_step :=
  match goal with
  | |- context [IndexJs.saveMessage ?e ?c ?a ?t ?s ?w] =>
      let H := fresh "Hsv" in
      pose proof (IndexJs_saveMessage_net e c a t s w) as H;
      destruct (IndexJs.saveMessage e c a t s w) as [[[]|?] ?];
      cbn [snd fst] in H
  end.

Lemma IndexJs_tryBlock_requests env closure sid userInput hist bid w2 :
  exists k,
    requests (IndexJs.net (snd (IndexJs.tryBlock env closure sid userInput hist bid w2)))
    = requests (IndexJs.net w2)
      ++ repeat (mkRequest hist IndexJs.SYSTEM_INSTRUCTION true) (S k).
Proof.
  unfold IndexJs.tryBlock.
  destruct (IndexJs_next_first_requests (IndexJs.netEnv env) hist
              IndexJs.SYSTEM_INSTRUCTION (IndexJs.net w2)) as [k1 Hfirst].
  destruct (IndexJs.next _ _ _ _ _) as [[c s] n]. cbn [snd] in Hfirst.
  enough (Htail : extendedBy (mkRequest hist IndexJs.SYSTEM_INSTRUCTION true) (requests n)
            (requests (IndexJs.net (snd
               match c with
               | Normal nxt =>
                   match IndexJs.streamLoop env (S (length (chunks s))) hist bid
                                            nxt [] s (IndexJs.setNet n w2) with
                   | (Throw e, _, w3) => (Throw e, w3)
                   | (Normal botText, _, w3) =>
                       match IndexJs.saveMessage env closure SenderBot botText (Some sid) w3 with
                       | (Throw e, w4) => (Throw e, w4)
                       | (Normal _, w4) => IndexJs.updateTitle env closure sid userInput w4
                       end
                   end
               | Throw e => (Throw e, IndexJs.setNet n w2)
               end)))).
  { destruct Htail as [k2 Hk2]. exists (k1 + k2).
    rewrite Hk2, Hfirst, <- app_assoc. f_equal.
    change (S (k1 + k2)) with (S k1 + k2). now rewrite repeat_app. }
  destruct c as [nxt|e]; [|apply extendedBy_refl].
  pose proof (IndexJs_streamLoop_requests env (S (length (chunks s))) hist bid
                nxt [] s (IndexJs.setNet n w2)) as Hloop.
  destruct (IndexJs.streamLoop _ _ _ _ _ _ _ _) as [[c0 s0] w3].
  cbn [snd IndexJs.net IndexJs.setNet] in Hloop.
  destruct c0 as [botText|e]; [|exact Hloop].
  save_step.
  - rewrite IndexJs_updateTitle_requests, Hsv. exact Hloop.
  - cbn [snd]. rewrite Hsv. exact Hloop.
Qed.

Lemma IndexJs_catchBlock_requests env closure sid tried :
  requests (IndexJs.net (snd (IndexJs.catchBlock env closure sid tried)))
  = requests (IndexJs.net (snd tried)).
Proof.
  unfold IndexJs.catchBlock. destruct tried as [[[]|e] w']; [reflexivity|].
  now rewrite IndexJs_saveMessage_net.
Qed.

Lemma after_user_save env closure sid w w1 :
  IndexJs.net w1 = IndexJs.net w ->
  exists k,
    requests
      (IndexJs.net
         (snd (match IndexJs.catchBlock env closure sid
                       (IndexJs.tryBlock env closure sid (IndexJs.input closure)
                          (IndexJs.chatHistoryForAPI (IndexJs.messages closure)
                                                     (IndexJs.input closure))
                          (IndexJs.freshId env (IndexJs.nIds w1))
                          (IndexJs.setMessages
                             (fun prev =>
                                prev ++ [IndexJs.mkMessage
                                           (IndexJs.freshId env (IndexJs.nIds w1))
                                           SenderBot [] (IndexJs.clock env)])
                             (IndexJs.tickIds w1))) with
               | (Throw e, w5) => (Throw e, w5)
               | (Normal _, w5) =>
                   (Normal tt,
                    IndexJs.setIsTyping false
                      (IndexJs.setMessages
                         (filter (fun msg =>
                                    negb (eqId (IndexJs.msgId msg)
                                               (IndexJs.freshId env (IndexJs.nIds w1)))))
                         w5))
               end)))
    = requests (IndexJs.net w)
      ++ repeat (mkRequest (IndexJs.chatHistoryForAPI (IndexJs.messages closure)
                                                      (IndexJs.input closure))
                           IndexJs.SYSTEM_INSTRUCTION true) (S k).
Proof.
  intros Hw1.
  destruct (IndexJs_tryBlock_requests env closure sid (IndexJs.input closure)
              (IndexJs.chatHistoryForAPI (IndexJs.messages closure)
                                         (IndexJs.input closure))
              (IndexJs.freshId env (IndexJs.nIds w1))
              (IndexJs.setMessages
                 (fun prev => prev ++ [IndexJs.mkMessage
                                         (IndexJs.freshId env (IndexJs.nIds w1))
                                         SenderBot [] (IndexJs.clock env)])
                 (IndexJs.tickIds w1))) as [k Hk].
  pose proof (IndexJs_catchBlock_requests env closure sid
                (IndexJs.tryBlock env closure sid (IndexJs.input closure)
                   (IndexJs.chatHistoryForAPI (IndexJs.messages closure)
                                              (IndexJs.input closure))
                   (IndexJs.freshId env (IndexJs.nIds w1))
                   (IndexJs.setMessages
                      (fun prev => prev ++ [IndexJs.mkMessage
                                              (IndexJs.freshId env (IndexJs.nIds w1))
                                              SenderBot [] (IndexJs.clock env)])
                      (IndexJs.tickIds w1)))) as Hc.
  destruct (IndexJs.catchBlock _ _ _ _) as [[[]|e] w5]; cbn [snd] in Hc |- *;
    exists k.
  - simpl. rewrite Hc, Hk. simpl. now rewrite Hw1.
  - rewrite Hc, Hk. simpl. now rewrite Hw1.
Qed.

(** C10.  The context that [handleSend] of src/index.js builds is the
    history without error markers followed by the new user turn: the stored
    messages in order, every message whose text starts with "ERROR" left out,
    each mapped to a user or model turn.  No turn of that history starts with
    "ERROR".  Every request a call of [handleSend] sends to the completion
    service carries exactly this context, and when the input passes the guard
    and the user message is stored at least one request is sent. *)
Theorem C10_request_context_excludes_error_markers :
  (forall msgs userInput,
      IndexJs.chatHistoryForAPI msgs userInput
      = historyWithoutErrors msgs ++ [mkTurn RoleUser userInput])
  /\ (forall msgs,
      Forall (fun t => startsWith (turnText t) (lit "ERROR") = false)
             (historyWithoutErrors msgs))
  /\ (forall env closure w,
      extendedBy (mkRequest (historyWithoutErrors (IndexJs.messages closure)
                             ++ [mkTurn RoleUser (IndexJs.input closure)])
                            IndexJs.SYSTEM_INSTRUCTION true)
                 (requests (IndexJs.net w))
                 (requests (IndexJs.net (snd (IndexJs.handleSend env closure w)))))
  /\ (forall env closure w sid,
      IndexJs.currentSessionId closure = Some sid ->
      nonEmpty (trim (IndexJs.input closure)) = true ->
      IndexJs.isTyping closure = false ->
      truthy (IndexJs.userId closure) = true -> truthy (Some sid) = true ->
      IndexJs.db closure = true ->
      IndexJs.storeError env (IndexJs.nStore w) = None ->
      exists k,
        requests (IndexJs.net (snd (IndexJs.handleSend env closure w)))
        = requests (IndexJs.net w)
          ++ repeat (mkRequest (historyWithoutErrors (IndexJs.messages closure)
                                ++ [mkTurn RoleUser (IndexJs.input closure)])
                               IndexJs.SYSTEM_INSTRUCTION true) (S k)).
Proof.
  assert (Hctx : forall msgs userInput,
             IndexJs.chatHistoryForAPI msgs userInput
             = historyWithoutErrors msgs ++ [mkTurn RoleUser userInput]).
  { intros msgs userInput. unfold IndexJs.chatHistoryForAPI. f_equal.
    induction msgs as [|m msgs IH]; simpl; [reflexivity|].
    destruct (startsWith (IndexJs.text m) (lit "ERROR")); simpl; [exact IH|].
    rewrite IH. now destruct (IndexJs.sender m). }
  split; [exact Hctx|]. split; [|split].
  - induction msgs as [|m msgs IH]; simpl; [constructor|].
    destruct (startsWith (IndexJs.text m) (lit "ERROR")) eqn:E; [exact IH|].
    constructor; [exact E | exact IH].
  - intros env closure w. rewrite <- Hctx. unfold IndexJs.handleSend.
    destruct (IndexJs.currentSessionId closure) as [sid|]; [|apply extendedBy_refl].
    destruct (_ || _).
    { cbn [snd]. destruct (negb _); apply extendedBy_refl. }
    save_step.
    + destruct (after_user_save env closure sid w w0 Hsv) as [k Hk].
      exists (S k). exact Hk.
    + simpl. rewrite Hsv. apply extendedBy_refl.
  - intros env closure w sid Hsid Hin Hty Huid Hs Hdb Hok. rewrite <- Hctx.
    unfold IndexJs.handleSend. rewrite Hsid. cbv beta iota.
    rewrite Hin, Hty, Huid, Hs. cbn [negb orb]. cbv zeta.
    assert (Hfst : fst (IndexJs.saveMessage env closure SenderUser (IndexJs.input closure)
                          (Some sid)
                          (IndexJs.setError None
                             (IndexJs.setIsTyping true (IndexJs.setInput [] w))))
                   = Normal tt).
    { unfold IndexJs.saveMessage. rewrite Hdb, Huid, Hs. cbn [negb orb].
      cbn [IndexJs.nStore IndexJs.setError IndexJs.setIsTyping IndexJs.setInput
           IndexJs.setUI].
      now rewrite Hok. }
    save_step; cbn [fst] in Hfst; [|discriminate].
    exact (after_user_save env closure sid w w0 Hsv).
Qed.


Lemma C10_witness :
  IndexJs.currentSessionId typedAgain = Some (lit "s1")
  /\ nonEmpty (trim (IndexJs.input typedAgain)) = true
  /\ IndexJs.isTyping typedAgain = false
  /\ truthy (IndexJs.userId typedAgain) = true /\ truthy (Some (lit "s1")) = true
  /\ IndexJs.db typedAgain = true
  /\ IndexJs.storeError reliableStore (IndexJs.nStore typedAgainWorld) = None
  /\ exists k,
       requests (IndexJs.net (snd (IndexJs.handleSend reliableStore typedAgain
                                                      typedAgainWorld)))
       = requests (IndexJs.net typedAgainWorld)
         ++ repeat (mkRequest (historyWithoutErrors (IndexJs.messages typedAgain)
                               ++ [mkTurn RoleUser (IndexJs.input typedAgain)])
                              IndexJs.SYSTEM_INSTRUCTION true) (S k).
Proof.
  do 7 (split; [reflexivity|]).
  exact (proj2 (proj2 (proj2 C10_request_context_excludes_error_markers))
               reliableStore typedAgain typedAgainWorld (lit "s1")
               eq_refl eq_refl eq_refl eq_refl eq_refl eq_refl eq_refl).
Defined.

(** The request of that exchange, spelled out: the stored error marker is
    not part of it. *)
Lemma C10_example_request :
  requests (IndexJs.net (snd (IndexJs.handleSend reliableStore typedAgain typedAgainWorld)))
  = [mkRequest [mkTurn RoleUser (lit "Hello");
                mkTurn RoleUser (lit "Hello?");
                mkTurn RoleModel (lit "Hi there!");
                mkTurn RoleUser (lit "How are you?")]
               IndexJs.SYSTEM_INSTRUCTION true].
Proof. vm_compute. reflexivity. Qed.

(** ** A complete exchange, for reference *)

(** src/index.js, "Hello" sent into session "s1" with everything working:
    the user message and the reply "Hi there!" are stored, one request is
    sent, the placeholder is gone and the busy flag is cleared. *)
Example IndexJs_exchange_Hello :
  fst (IndexJs.handleSend reliableStore typedHello typedHelloWorld) = Normal tt
  /\ IndexJs.messagesColl
       (IndexJs.fs (snd (IndexJs.handleSend reliableStore typedHello typedHelloWorld)))
     = [IndexJs.mkMessageDoc (lit "doc0") (lit "s1") SenderUser (lit "Hello") (Some 0%Z);
        IndexJs.mkMessageDoc (lit "doc2") (lit "s1") SenderBot (lit "Hi there!") (Some 1%Z)]
  /\ requests (IndexJs.net (snd (IndexJs.handleSend reliableStore typedHello typedHelloWorld)))
     = [mkRequest [mkTurn RoleUser (lit "Hello")] IndexJs.SYSTEM_INSTRUCTION true]
  /\ IndexJs.messages
       (IndexJs.ui (snd (IndexJs.handleSend reliableStore typedHello typedHelloWorld))) = []
  /\ IndexJs.isTyping
       (IndexJs.ui (snd (IndexJs.handleSend reliableStore typedHello typedHelloWorld))) = false.
Proof. vm_compute. repeat split. Qed.

(** The bound on the iterations of the streaming loop in [handleSend] of
    src/index.js never cuts the loop short: on a stream that holds its reply,
    any bound greater than the number of fragments still to come lets the
    loop run to the completing pull, and the text accumulated is the text so
    far followed by the pending value and by all fragments still to come. *)
Lemma IndexJs_streamLoop_runs_to_completion env hist botMessageId :
  forall n fuel nxt botText s w,
    fullResponse s <> None ->
    length (chunks s) - chunkIndex s = n -> n < fuel ->
    exists s' w',
      IndexJs.streamLoop env fuel hist botMessageId nxt botText s w
      = (Normal (botText ++ if done nxt then []
                            else textOf (value nxt)
                                 ++ concat (skipn (chunkIndex s) (chunks s))),
         s', w').
Proof.
  induction n as [|n IH]; intros fuel nxt botText s w Hfull Hn Hfuel;
    (destruct fuel as [|fuel]; [lia|]); simpl;
    (destruct (done nxt) eqn:Hdone; [rewrite app_nil_r; eauto|]).
  - rewrite IndexJs_next_done by (assumption || lia).
    rewrite skipn_all2 by lia. simpl. rewrite app_nil_r.
    destruct fuel; simpl; eauto.
  - destruct (IndexJs_next_yield (IndexJs.netEnv env) hist IndexJs.SYSTEM_INSTRUCTION
                s (IndexJs.net w) Hfull ltac:(lia)) as [n' Hy].
    rewrite Hy.
    destruct (nth_error (chunks s) (chunkIndex s)) as [c|] eqn:Hc.
    2:{ apply nth_error_None in Hc. lia. }
    edestruct (IH fuel (mkIter (Some c) false) (botText ++ textOf (value nxt))
                  (mkStream (fullResponse s) (chunks s) (S (chunkIndex s))))
      as (s' & w' & Hloop); simpl; try eassumption; try lia.
    rewrite Hloop. simpl.
    rewrite (skipn_nth_error _ _ _ Hc). simpl.
    rewrite <- !app_assoc. eauto.
Qed.

(* ===================================================================== *)
(** * Further properties of the code *)
(* ===================================================================== *)

(** ** The backoff policy, for every operation and attempt count *)

Lemma backoffLoop_shape {A} (fn : nat -> Completion A) rnd maxRetries :
  forall fuel a,
    (fuel = 0 \/ Z.of_nat (a + fuel) = maxRetries) ->
    invocations (backoffLoop fn rnd maxRetries fuel a) <= fuel
    /\ delays (backoffLoop fn rnd maxRetries fuel a)
       = map (delayOf rnd)
             (seq a (invocations (backoffLoop fn rnd maxRetries fuel a) - 1))
    /\ (0 < fuel ->
        0 < invocations (backoffLoop fn rnd maxRetries fuel a)
        /\ outcome (backoffLoop fn rnd maxRetries fuel a)
           = match fn (a + (invocations (backoffLoop fn rnd maxRetries fuel a) - 1)) with
             | Normal v => Normal (Some v)
             | Throw e => Throw e
             end
        /\ forall j, j < invocations (backoffLoop fn rnd maxRetries fuel a) - 1 ->
             exists e, fn (a + j) = Throw e /\ retryable e = true).
Proof.
  assert (Hleaf : forall a (o : Completion (option A)) fuel,
             o = match fn a with Normal v => Normal (Some v) | Throw e => Throw e end ->
             invocations (mkRun o 1 []) <= S fuel
             /\ delays (mkRun o 1 [])
                = map (delayOf rnd) (seq a (invocations (mkRun o 1 []) - 1))
             /\ (0 < S fuel ->
                 0 < invocations (mkRun o 1 [])
                 /\ outcome (mkRun o 1 [])
                    = match fn (a + (invocations (mkRun o 1 []) - 1)) with
                      | Normal v => Normal (Some v)
                      | Throw e => Throw e
                      end
                 /\ forall j, j < invocations (mkRun o 1 []) - 1 ->
                      exists e, fn (a + j) = Throw e /\ retryable e = true)).
  { intros a o fuel Ho. cbn [invocations delays outcome]. split; [lia|].
    split; [reflexivity|]. intros _. split; [lia|]. split.
    - now rewrite Nat.sub_diag, Nat.add_0_r.
    - intros j Hj. lia. }
  induction fuel as [|fuel IH]; intros a Hfuel.
  - simpl. split; [lia|]. split; [reflexivity|]. intros H. lia.
  - cbn [backoffLoop]. destruct (fn a) as [v|e] eqn:Ea.
    + apply Hleaf. now rewrite Ea.
    + destruct ((Z.of_nat a =? maxRetries - 1)%Z || negb (retryable e)) eqn:Hc.
      * apply Hleaf. now rewrite Ea.
      * apply orb_false_iff in Hc. destruct Hc as [Hlast Hr].
        apply negb_false_iff in Hr. apply Z.eqb_neq in Hlast.
        destruct fuel as [|fuel]; [lia|].
        destruct (IH (S a) ltac:(lia)) as (Hle & Hd & Hpos).
        remember (backoffLoop fn rnd maxRetries (S fuel) (S a)) as r.
        cbn [invocations delays outcome].
        destruct (Hpos ltac:(lia)) as (Hinv & Hout & Hpre).
        split; [lia|]. split.
        { rewrite Hd.
          replace (S (invocations r) - 1) with (S (invocations r - 1)) by lia.
          reflexivity. }
        intros _. split; [lia|]. split.
        { rewrite Hout.
          replace (a + (S (invocations r) - 1)) with (S a + (invocations r - 1)) by lia.
          reflexivity. }
        intros j Hj. destruct j as [|j].
        { rewrite Nat.add_0_r. eauto. }
        destruct (Hpre j ltac:(lia)) as (e' & He' & Hr').
        exists e'. rewrite Nat.add_succ_r. simpl in He'. auto.
Qed.

(** X1.  Whatever the operation does, the policy invokes it at most
    [maxRetries] times, sleeps exactly once between two invocations, and the
    delay after attempt [k] is [2^k * 1000 + random * 1000] milliseconds. *)
Theorem X1_backoff_invocations_and_delays :
  forall (A : Type) (fn : nat -> Completion A) (rnd : nat -> Q) (maxRetries : Z),
    (Z.of_nat (invocations (withExponentialBackoff fn rnd maxRetries)) <= Z.max 0 maxRetries)%Z
    /\ length (delays (withExponentialBackoff fn rnd maxRetries))
       = invocations (withExponentialBackoff fn rnd maxRetries) - 1
    /\ delays (withExponentialBackoff fn rnd maxRetries)
       = map (delayOf rnd)
             (seq 0 (invocations (withExponentialBackoff fn rnd maxRetries) - 1)).
Proof.
  intros A fn rnd maxRetries. unfold withExponentialBackoff.
  destruct (backoffLoop_shape fn rnd maxRetries (Z.to_nat maxRetries) 0 ltac:(lia))
    as (Hle & Hd & _).
  split; [lia|]. split; [|exact Hd].
  rewrite Hd at 1. now rewrite length_map, length_seq.
Qed.

(** X2.  With a positive attempt count the operation is invoked at least
    once, the policy settles with the completion of the last invocation, and
    every earlier invocation failed with a retryable message; with an attempt
    count of zero or less the operation is never invoked and the promise
    resolves with [undefined]. *)
Theorem X2_backoff_settles_with_last_invocation :
  forall (A : Type) (fn : nat -> Completion A) (rnd : nat -> Q) (maxRetries : Z),
    ((maxRetries <= 0)%Z ->
     withExponentialBackoff fn rnd maxRetries = mkRun (Normal None) 0 [])
    /\ ((0 < maxRetries)%Z ->
        0 < invocations (withExponentialBackoff fn rnd maxRetries)
        /\ outcome (withExponentialBackoff fn rnd maxRetries)
           = match fn (invocations (withExponentialBackoff fn rnd maxRetries) - 1) with
             | Normal v => Normal (Some v)
             | Throw e => Throw e
             end
        /\ forall j, j < invocations (withExponentialBackoff fn rnd maxRetries) - 1 ->
             exists e, fn j = Throw e /\ retryable e = true).
Proof.
  intros A fn rnd maxRetries. unfold withExponentialBackoff. split.
  - intros H. replace (Z.to_nat maxRetries) with 0 by lia. reflexivity.
  - intros H.
    destruct (backoffLoop_shape fn rnd maxRetries (Z.to_nat maxRetries) 0 ltac:(lia))
      as (_ & _ & Hpos).
    exact (Hpos ltac:(lia)).
Qed.

Lemma X2_witness :
  (0 < 5)%Z
  /\ outcome (withExponentialBackoff
                (failThenSucceed 2 (lit "Failed to fetch") (lit "Hi")) (fun _ => 1 # 2) 5)
     = match failThenSucceed 2 (lit "Failed to fetch") (lit "Hi")
               (invocations (withExponentialBackoff
                               (failThenSucceed 2 (lit "Failed to fetch") (lit "Hi"))
                               (fun _ => 1 # 2) 5) - 1) with
       | Normal v => Normal (Some v)
       | Throw e => Throw e
       end.
Proof.
  split; [reflexivity|].
  exact (proj1 (proj2 (proj2 (X2_backoff_settles_with_last_invocation JSString
                  (failThenSucceed 2 (lit "Failed to fetch") (lit "Hi"))
                  (fun _ => 1 # 2) 5) eq_refl))).
Defined.

Lemma totalDelay_bound rnd :
  (forall k, (0 <= rnd k)%Q /\ (rnd k < 1)%Q) ->
  forall m, m <= 4 ->
    (totalDelay (map (delayOf rnd) (seq 0 m))
     <= inject_Z (Z.of_nat m * 1000 + (2 ^ Z.of_nat m - 1) * 1000))%Q
    /\ (inject_Z ((2 ^ Z.of_nat m - 1) * 1000)
        <= totalDelay (map (delayOf rnd) (seq 0 m)))%Q.
Proof.
  intros Hrnd m Hm.
  pose proof (Hrnd 0) as [? ?]. pose proof (Hrnd 1) as [? ?].
  pose proof (Hrnd 2) as [? ?]. pose proof (Hrnd 3) as [? ?].
  do 5 (destruct m as [|m];
        [unfold totalDelay, delayOf; simpl; unfold inject_Z; split; lra|]).
  lia.
Qed.

(** X3.  With the default of five attempts and a jitter in [0, 1), the time
    slept by one run of the policy is at most 19 seconds
    (1 + 2 + 4 + 8 seconds plus four jitters), whatever the operation does. *)
Theorem X3_backoff_total_delay_below_19s :
  forall (A : Type) (fn : nat -> Completion A) (rnd : nat -> Q),
    (forall k, (0 <= rnd k)%Q /\ (rnd k < 1)%Q) ->
    (totalDelay (delays (withExponentialBackoff fn rnd 5)) <= 19000)%Q.
Proof.
  intros A fn rnd Hrnd.
  unfold withExponentialBackoff.
  destruct (backoffLoop_shape fn rnd 5%Z (Z.to_nat 5) 0 ltac:(right; reflexivity))
    as (Hle & Hd & _).
  change (Z.to_nat 5) with 5 in *.
  rewrite Hd.
  set (m := invocations (backoffLoop fn rnd 5%Z 5 0) - 1) in *.
  assert (Hm : m <= 4) by (unfold m; lia).
  destruct (totalDelay_bound rnd Hrnd m Hm) as [Hup _].
  eapply Qle_trans; [exact Hup|].
  do 5 (destruct m as [|m]; [vm_compute; discriminate|]). lia.
Qed.

Lemma X3_witness :
  (forall k : nat, (0 <= (fun _ : nat => 1 # 2) k)%Q /\ ((fun _ : nat => 1 # 2) k < 1)%Q)
  /\ (totalDelay (delays (withExponentialBackoff
                            (failThenSucceed 9 (lit "429 Too Many Requests") (lit "Hi"))
                            (fun _ => 1 # 2) 5)) <= 19000)%Q.
Proof.
  assert (H : forall k : nat, (0 <= (fun _ : nat => 1 # 2) k)%Q
                              /\ ((fun _ : nat => 1 # 2) k < 1)%Q).
  { intros k. split; [vm_compute; discriminate | reflexivity]. }
  split; [exact H|].
  exact (X3_backoff_total_delay_below_19s JSString
           (failThenSucceed 9 (lit "429 Too Many Requests") (lit "Hi"))
           (fun _ => 1 # 2) H).
Defined.

(** ** A whole stream, pull by pull *)

Section DrainTick.
Variable next : Stream -> Net -> Completion IterResult * Stream * Net.
Variable fin : option JSString -> option JSString.
Variable pause : list Q.

Let tick (w : Net) : Net :=
  mkNet (nFetch w) (nRandom w) (requests w) (sleeps w ++ pause).

Hypothesis next_yield_tick : forall s w,
  fullResponse s <> None -> chunkIndex s < length (chunks s) ->
  next s w = (Normal (mkIter (nth_error (chunks s) (chunkIndex s)) false),
              mkStream (fullResponse s) (chunks s) (S (chunkIndex s)), tick w).

Hypothesis next_done_tick : forall s w,
  fullResponse s <> None -> length (chunks s) <= chunkIndex s ->
  next s w = (Normal (mkIter (fin (fullResponse s)) true), s, w).

Lemma drain_streaming_exact :
  forall n s w frags fuel,
    fullResponse s <> None ->
    chunkIndex s + n = length (chunks s) -> n < fuel ->
    drain next fuel frags s w =
    Some (Normal (frags ++ skipn (chunkIndex s) (chunks s),
                  mkIter (fin (fullResponse s)) true),
          mkStream (fullResponse s) (chunks s) (length (chunks s)),
          mkNet (nFetch w) (nRandom w) (requests w)
                (sleeps w ++ concat (repeat pause n))).
Proof.
  induction n as [|n IH]; intros s w frags fuel Hfull Hn Hfuel;
    (destruct fuel as [|fuel]; [lia|]); cbn [drain].
  - rewrite next_done_tick by (assumption || lia). simpl.
    rewrite skipn_all2 by lia. rewrite !app_nil_r.
    destruct s as [f c i]; destruct w; simpl in *. now replace i with (length c) by lia.
  - rewrite next_yield_tick by (assumption || lia). cbn [done value].
    destruct (nth_error (chunks s) (chunkIndex s)) as [c|] eqn:Hc.
    2:{ apply nth_error_None in Hc. lia. }
    cbn [textOf].
    rewrite (IH (mkStream (fullResponse s) (chunks s) (S (chunkIndex s))) (tick w)
                (frags ++ [c]) fuel) by (simpl; (assumption || lia)).
    simpl. rewrite (skipn_nth_error _ _ _ Hc).
    now rewrite <- !app_assoc.
Qed.
End DrainTick.

Lemma AppJsx_next_yield_net env txt hist s w :
  fullResponse s <> None -> chunkIndex s < length (chunks s) ->
  AppJsx.next env txt hist s w =
  (Normal (mkIter (nth_error (chunks s) (chunkIndex s)) false),
   mkStream (fullResponse s) (chunks s) (S (chunkIndex s)),
   mkNet (nFetch w) (nRandom w) (requests w) (sleeps w ++ [0%Q])).
Proof.
  intros Hf Hi. unfold AppJsx.next.
  destruct (fullResponse s) eqn:E; [|congruence].
  destruct (Nat.leb_spec (length (chunks s)) (chunkIndex s)); [lia|].
  now rewrite E.
Qed.

Lemma IndexJs_next_yield_net env hist sys s w :
  fullResponse s <> None -> chunkIndex s < length (chunks s) ->
  IndexJs.next env hist sys s w =
  (Normal (mkIter (nth_error (chunks s) (chunkIndex s)) false),
   mkStream (fullResponse s) (chunks s) (S (chunkIndex s)),
   mkNet (nFetch w) (nRandom w) (requests w) (sleeps w ++ [20%Q])).
Proof.
  intros Hf Hi. unfold IndexJs.next.
  destruct (fullResponse s) eqn:E; [|congruence].
  destruct (Nat.leb_spec (length (chunks s)) (chunkIndex s)); [lia|].
  now rewrite E.
Qed.

Lemma concat_repeat_singleton {A} (x : A) n : concat (repeat [x] n) = repeat x n.
Proof. induction n as [|n IH]; simpl; [reflexivity | now rewrite IH]. Qed.

(** X4.  The stream of src/src/App.jsx, when its fetch succeeds with the
    reply [full] and it is pulled to the end: the fragments come out in order
    and the completing result carries [full]; the one request sent has the
    history as user/model turns followed by the new user turn, with the fixed
    system instruction and no search tool; one zero-delay timer is awaited
    per fragment; the stream ends with all its fragments consumed. *)
Theorem X4_appjsx_stream_pulled_to_the_end :
  forall env txt hist w full fuel,
    AppJsx.fetchReply (fetchResult env (nFetch w)) = Normal full ->
    length (chunksOf full) < fuel ->
    drain (AppJsx.next env txt hist) fuel [] AppJsx.askAIStream w
    = Some (Normal (chunksOf full, mkIter (Some full) true),
            mkStream (Some full) (chunksOf full) (length (chunksOf full)),
            mkNet (S (nFetch w)) (nRandom w)
                  (requests w
                   ++ [mkRequest
                         (map (fun msg => mkTurn (roleOf (AppJsx.hSender msg))
                                                 (AppJsx.hText msg)) hist
                          ++ [mkTurn RoleUser txt])
                         AppJsx.SYSTEM_INSTRUCTION false])
                  (sleeps w ++ repeat 0%Q (length (chunksOf full)))).
Proof.
  intros env txt hist w full fuel Hfetch Hfuel.
  rewrite (drain_first _ fuel [] _ _ _ _ (AppJsx_next_first env txt hist w full Hfetch)).
  rewrite (drain_streaming_exact (AppJsx.next env txt hist) (fun f => f) [0%Q]
             (AppJsx_next_yield_net env txt hist) (AppJsx_next_done env txt hist)
             (length (chunksOf full)))
    by (simpl; (discriminate || lia)).
  simpl. now rewrite concat_repeat_singleton.
Qed.

Lemma X4_witness :
  AppJsx.fetchReply
    (fetchResult (constantService (Normal (okResponse (lit "Hi there!")))) (nFetch net0))
  = Normal (lit "Hi there!")
  /\ length (chunksOf (lit "Hi there!")) < 4
  /\ drain (AppJsx.next (constantService (Normal (okResponse (lit "Hi there!"))))
                        (lit "Hello") [])
           4 [] AppJsx.askAIStream net0
     = Some (Normal (chunksOf (lit "Hi there!"), mkIter (Some (lit "Hi there!")) true),
             mkStream (Some (lit "Hi there!")) (chunksOf (lit "Hi there!"))
                      (length (chunksOf (lit "Hi there!"))),
             mkNet (S (nFetch net0)) (nRandom net0)
                   (requests net0
                    ++ [mkRequest
                          (map (fun msg => mkTurn (roleOf (AppJsx.hSender msg))
                                                  (AppJsx.hText msg)) []
                           ++ [mkTurn RoleUser (lit "Hello")])
                          AppJsx.SYSTEM_INSTRUCTION false])
                   (sleeps net0 ++ repeat 0%Q (length (chunksOf (lit "Hi there!"))))).
Proof.
  assert (H1 : AppJsx.fetchReply
                 (fetchResult (constantService (Normal (okResponse (lit "Hi there!"))))
                              (nFetch net0))
               = Normal (lit "Hi there!")) by reflexivity.
  assert (H2 : length (chunksOf (lit "Hi there!")) < 4) by (vm_compute; lia).
  split; [exact H1|]. split; [exact H2|].
  exact (X4_appjsx_stream_pulled_to_the_end
           (constantService (Normal (okResponse (lit "Hi there!"))))
           (lit "Hello") [] net0 (lit "Hi there!") 4 H1 H2).
Defined.

(** X5.  The stream of src/index.js, when its fetch through the backoff
    policy succeeds with [full] and it is pulled to the end: the fragments
    come out in order, the completing result has no value, one request was
    sent per invocation of the policy, and the time awaited is the delays of
    the policy followed by 20 milliseconds per fragment. *)
Theorem X5_indexjs_stream_pulled_to_the_end :
  forall env hist sys w full fuel,
    outcome (IndexJs.fetchRun env w) = Normal (Some full) ->
    length (chunksOf full) < fuel ->
    drain (IndexJs.next env hist sys) fuel [] IndexJs.askAIStream w
    = Some (Normal (chunksOf full, mkIter None true),
            mkStream (Some full) (chunksOf full) (length (chunksOf full)),
            mkNet (nFetch w + invocations (IndexJs.fetchRun env w))
                  (nRandom w + length (delays (IndexJs.fetchRun env w)))
                  (requests w
                   ++ repeat (mkRequest hist sys true)
                             (invocations (IndexJs.fetchRun env w)))
                  ((sleeps w ++ delays (IndexJs.fetchRun env w))
                   ++ repeat 20%Q (length (chunksOf full)))).
Proof.
  intros env hist sys w full fuel Hfetch Hfuel.
  rewrite (drain_first _ fuel [] _ _ _ _ (IndexJs_next_first env hist sys w full Hfetch)).
  rewrite (drain_streaming_exact (IndexJs.next env hist sys) (fun _ => None) [20%Q]
             (IndexJs_next_yield_net env hist sys) (IndexJs_next_done env hist sys)
             (length (chunksOf full)))
    by (simpl; (discriminate || lia)).
  simpl. now rewrite concat_repeat_singleton.
Qed.

Lemma X5_witness :
  outcome (IndexJs.fetchRun (constantService (Normal (okResponse (lit "Hi there!")))) net0)
  = Normal (Some (lit "Hi there!"))
  /\ length (chunksOf (lit "Hi there!")) < 4
  /\ drain (IndexJs.next (constantService (Normal (okResponse (lit "Hi there!"))))
                         [] IndexJs.SYSTEM_INSTRUCTION)
           4 [] IndexJs.askAIStream net0
     = Some (Normal (chunksOf (lit "Hi there!"), mkIter None true),
             mkStream (Some (lit "Hi there!")) (chunksOf (lit "Hi there!"))
                      (length (chunksOf (lit "Hi there!"))),
             mkNet (nFetch net0
                    + invocations (IndexJs.fetchRun
                                     (constantService (Normal (okResponse (lit "Hi there!"))))
                                     net0))
                   (nRandom net0
                    + length (delays (IndexJs.fetchRun
                                        (constantService (Normal (okResponse (lit "Hi there!"))))
                                        net0)))
                   (requests net0
                    ++ repeat (mkRequest [] IndexJs.SYSTEM_INSTRUCTION true)
                              (invocations (IndexJs.fetchRun
                                              (constantService
                                                 (Normal (okResponse (lit "Hi there!"))))
                                              net0)))
                   ((sleeps net0
                     ++ delays (IndexJs.fetchRun
                                  (constantService (Normal (okResponse (lit "Hi there!"))))
                                  net0))
                    ++ repeat 20%Q (length (chunksOf (lit "Hi there!"))))).
Proof.
  assert (H1 : outcome (IndexJs.fetchRun
                          (constantService (Normal (okResponse (lit "Hi there!")))) net0)
               = Normal (Some (lit "Hi there!"))) by reflexivity.
  assert (H2 : length (chunksOf (lit "Hi there!")) < 4) by (vm_compute; lia).
  split; [exact H1|]. split; [exact H2|].
  exact (X5_indexjs_stream_pulled_to_the_end
           (constantService (Normal (okResponse (lit "Hi there!"))))
           [] IndexJs.SYSTEM_INSTRUCTION net0 (lit "Hi there!") 4 H1 H2).
Defined.

(** ** [handleSend] of src/index.js *)

Lemma eqId_refl (a : Id) : eqId a a = true.
Proof. now apply eqId_true. Qed.

Lemma IndexJs_updateLast_placeholder bid t t' ts who l :
  IndexJs.updateLast bid t' (l ++ [IndexJs.mkMessage bid who t ts])
  = l ++ [IndexJs.mkMessage bid who t' ts].
Proof.
  unfold IndexJs.updateLast. rewrite rev_app_distr. simpl.
  now rewrite eqId_refl, rev_involutive.
Qed.

Lemma IndexJs_stream_step_world bid t t' ts l n' w :
  IndexJs.messages (IndexJs.ui w) = l ++ [IndexJs.mkMessage bid SenderBot t ts] ->
  IndexJs.setNet n' (IndexJs.setMessages (IndexJs.updateLast bid t') w)
  = IndexJs.mkWorld n' (IndexJs.fs w) (IndexJs.nStore w) (IndexJs.nIds w)
      (IndexJs.mkUI (IndexJs.sessions (IndexJs.ui w))
                    (IndexJs.currentSessionId (IndexJs.ui w))
                    (l ++ [IndexJs.mkMessage bid SenderBot t' ts])
                    (IndexJs.input (IndexJs.ui w)) (IndexJs.isTyping (IndexJs.ui w))
                    (IndexJs.isAuthReady (IndexJs.ui w)) (IndexJs.userId (IndexJs.ui w))
                    (IndexJs.db (IndexJs.ui w)) (IndexJs.error (IndexJs.ui w)))
      (IndexJs.timers w).
Proof.
  intros H. unfold IndexJs.setNet, IndexJs.setMessages, IndexJs.setUI.
  cbn [IndexJs.net IndexJs.fs IndexJs.nStore IndexJs.nIds IndexJs.ui IndexJs.timers
       IndexJs.sessions IndexJs.currentSessionId IndexJs.messages IndexJs.input
       IndexJs.isTyping IndexJs.isAuthReady IndexJs.userId IndexJs.db IndexJs.error].
  now rewrite H, IndexJs_updateLast_placeholder.
Qed.

(** The streaming loop on a stream that holds its reply, exactly. *)
Lemma IndexJs_streamLoop_exact env hist bid :
  forall n fuel nxt botText s w l t ts,
    fullResponse s <> None ->
    chunkIndex s + n = length (chunks s) -> n < fuel ->
    done nxt = false ->
    IndexJs.messages (IndexJs.ui w) = l ++ [IndexJs.mkMessage bid SenderBot t ts] ->
    IndexJs.streamLoop env fuel hist bid nxt botText s w
    = (Normal (botText ++ textOf (value nxt)
               ++ concat (skipn (chunkIndex s) (chunks s))),
       mkStream (fullResponse s) (chunks s) (length (chunks s)),
       withStreamed w
         (l ++ [IndexJs.mkMessage bid SenderBot
                  (botText ++ textOf (value nxt)
                   ++ concat (skipn (chunkIndex s) (chunks s))) ts])
         (repeat 20%Q n)).
Proof.
  induction n as [|n IH]; intros fuel nxt botText s w l t ts Hfull Hn Hfuel Hdone Hmsgs;
    (destruct fuel as [|fuel]; [lia|]); cbn [IndexJs.streamLoop]; rewrite Hdone.
  - rewrite IndexJs_next_done by (assumption || lia).
    rewrite (IndexJs_stream_step_world bid t _ ts l _ w Hmsgs).
    rewrite skipn_all2 by lia. cbn [concat]. rewrite !app_nil_r.
    assert (Hend : forall wd,
               IndexJs.streamLoop env fuel hist bid (mkIter None true)
                                  (botText ++ textOf (value nxt)) s wd
               = (Normal (botText ++ textOf (value nxt)), s, wd))
      by (intros wd; destruct fuel; reflexivity).
    rewrite Hend. f_equal; [f_equal|].
    + destruct s as [f c i]. simpl in *. now replace i with (length c) by lia.
    + unfold withStreamed, IndexJs.setMessages, IndexJs.setUI.
      cbn [IndexJs.net IndexJs.ui repeat]. rewrite app_nil_r.
      now destruct (IndexJs.net w).
  - rewrite IndexJs_next_yield_net by (assumption || lia).
    rewrite (IndexJs_stream_step_world bid t _ ts l _ w Hmsgs).
    destruct (nth_error (chunks s) (chunkIndex s)) as [c|] eqn:Hc.
    2:{ apply nth_error_None in Hc. lia. }
    rewrite (IH fuel (mkIter (Some c) false) (botText ++ textOf (value nxt))
                (mkStream (fullResponse s) (chunks s) (S (chunkIndex s))) _ l
                (botText ++ textOf (value nxt)) ts);
      try (cbn [fullResponse chunks chunkIndex]; (assumption || lia)); try reflexivity.
    cbn [fullResponse chunks chunkIndex value textOf].
    rewrite (skipn_nth_error _ _ _ Hc). cbn [concat].
    rewrite <- !app_assoc. f_equal.
    unfold withStreamed, IndexJs.setMessages, IndexJs.setUI.
    cbn [IndexJs.net IndexJs.fs IndexJs.nStore IndexJs.nIds IndexJs.ui IndexJs.timers
         IndexJs.sessions IndexJs.currentSessionId IndexJs.messages IndexJs.input
         IndexJs.isTyping IndexJs.isAuthReady IndexJs.userId IndexJs.db IndexJs.error
         nFetch nRandom requests sleeps repeat].
    now rewrite <- app_assoc.
Qed.

(** The streaming loop never rejects, whatever the stream does, and it
    touches nothing but the network log and the text of the placeholder. *)
Lemma IndexJs_streamLoop_frame env hist bid :
  forall fuel nxt botText s w l t ts,
    IndexJs.messages (IndexJs.ui w) = l ++ [IndexJs.mkMessage bid SenderBot t ts] ->
    exists text s' n' t',
      IndexJs.streamLoop env fuel hist bid nxt botText s w
      = (Normal text, s',
         IndexJs.mkWorld n' (IndexJs.fs w) (IndexJs.nStore w) (IndexJs.nIds w)
           (IndexJs.mkUI (IndexJs.sessions (IndexJs.ui w))
                         (IndexJs.currentSessionId (IndexJs.ui w))
                         (l ++ [IndexJs.mkMessage bid SenderBot t' ts])
                         (IndexJs.input (IndexJs.ui w)) (IndexJs.isTyping (IndexJs.ui w))
                         (IndexJs.isAuthReady (IndexJs.ui w)) (IndexJs.userId (IndexJs.ui w))
                         (IndexJs.db (IndexJs.ui w)) (IndexJs.error (IndexJs.ui w)))
           (IndexJs.timers w)).
Proof.
  assert (Hid : forall w l t ts,
             IndexJs.messages (IndexJs.ui w) = l ++ [IndexJs.mkMessage bid SenderBot t ts] ->
             w = IndexJs.mkWorld (IndexJs.net w) (IndexJs.fs w) (IndexJs.nStore w)
                   (IndexJs.nIds w)
                   (IndexJs.mkUI (IndexJs.sessions (IndexJs.ui w))
                      (IndexJs.currentSessionId (IndexJs.ui w))
                      (l ++ [IndexJs.mkMessage bid SenderBot t ts])
                      (IndexJs.input (IndexJs.ui w)) (IndexJs.isTyping (IndexJs.ui w))
                      (IndexJs.isAuthReady (IndexJs.ui w)) (IndexJs.userId (IndexJs.ui w))
                      (IndexJs.db (IndexJs.ui w)) (IndexJs.error (IndexJs.ui w)))
                   (IndexJs.timers w)).
  { intros w l t ts H. rewrite <- H. destruct w as [nt f ns ni u tm]. now destruct u. }
  induction fuel as [|fuel IH]; intros nxt botText s w l t ts Hmsgs;
    cbn [IndexJs.streamLoop].
  - exists botText, s, (IndexJs.net w), t. f_equal. now apply Hid.
  - destruct (done nxt).
    + exists botText, s, (IndexJs.net w), t. f_equal. now apply Hid.
    + destruct (IndexJs_next_never_throws (IndexJs.netEnv env) hist
                  IndexJs.SYSTEM_INSTRUCTION s
                  (IndexJs.net (IndexJs.setMessages
                     (IndexJs.updateLast bid (botText ++ textOf (value nxt))) w)))
        as [r Hr].
      destruct (IndexJs.next _ _ _ _ _) as [[c s'] n'] eqn:En. cbn [fst] in Hr. subst c.
      rewrite (IndexJs_stream_step_world bid t _ ts l n' w Hmsgs).
      edestruct (IH r (botText ++ textOf (value nxt)) s'
                    (IndexJs.mkWorld n' (IndexJs.fs w) (IndexJs.nStore w) (IndexJs.nIds w)
                       (IndexJs.mkUI (IndexJs.sessions (IndexJs.ui w))
                          (IndexJs.currentSessionId (IndexJs.ui w))
                          (l ++ [IndexJs.mkMessage bid SenderBot
                                   (botText ++ textOf (value nxt)) ts])
                          (IndexJs.input (IndexJs.ui w)) (IndexJs.isTyping (IndexJs.ui w))
                          (IndexJs.isAuthReady (IndexJs.ui w)) (IndexJs.userId (IndexJs.ui w))
                          (IndexJs.db (IndexJs.ui w)) (IndexJs.error (IndexJs.ui w)))
                       (IndexJs.timers w))
                    l (botText ++ textOf (value nxt)) ts eq_refl)
        as (text & s'' & n'' & t'' & Hloop).
      rewrite Hloop. exists text, s'', n'', t''. reflexivity.
Qed.

Lemma IndexJs_saveMessage_ok env closure who txt sid w :
  IndexJs.db closure = true -> truthy (IndexJs.userId closure) = true ->
  truthy (Some sid) = true ->
  IndexJs.storeError env (IndexJs.nStore w) = None ->
  IndexJs.saveMessage env closure who txt (Some sid) w
  = (Normal tt,
     IndexJs.tickIds (IndexJs.tickStore 1
       (IndexJs.setFs
          (IndexJs.mkFirestore (IndexJs.sessionsColl (IndexJs.fs w))
             (IndexJs.messagesColl (IndexJs.fs w)
              ++ [IndexJs.mkMessageDoc (IndexJs.freshId env (IndexJs.nIds w)) sid who txt
                    (Some (IndexJs.serverTime env (IndexJs.nStore w)))])) w))).
Proof.
  intros Hdb Huid Hs Hok. unfold IndexJs.saveMessage.
  rewrite Hdb, Huid, Hs. cbn [negb orb]. now rewrite Hok.
Qed.


Lemma IndexJs_updateTitle_ok env closure sid userInput w :
  (forall k, IndexJs.storeError env k = None) ->
  fst (IndexJs.updateTitle env closure sid userInput w) = Normal tt
  /\ IndexJs.ui (snd (IndexJs.updateTitle env closure sid userInput w)) = IndexJs.ui w
  /\ IndexJs.messagesColl (IndexJs.fs (snd (IndexJs.updateTitle env closure sid userInput w)))
     = IndexJs.messagesColl (IndexJs.fs w)
  /\ requests (IndexJs.net (snd (IndexJs.updateTitle env closure sid userInput w)))
     = requests (IndexJs.net w).
Proof.
  intros Hok. unfold IndexJs.updateTitle.
  destruct (_ && _); [|repeat split].
  rewrite (backoff_first_success _ _ tt) by (now rewrite Hok).
  repeat split.
Qed.

Lemma IndexJs_world_eta w l :
  IndexJs.messages (IndexJs.ui w) = l ->
  w = withNetMessages w (IndexJs.net w) l.
Proof.
  intros <-. destruct w as [nt f ns ni u tm]. now destruct u.
Qed.

(** The [try] block up to the end of the stream: whatever the fetch does,
    the loop ends, the placeholder shows the accumulated text, one request
    was sent per invocation of the backoff policy, and the block goes on with
    saving that text. *)
Lemma IndexJs_tryBlock_streamed env closure sid userInput hist bid w2 l ts :
  IndexJs.messages (IndexJs.ui w2) = l ++ [IndexJs.mkMessage bid SenderBot [] ts] ->
  exists n3,
    requests n3
    = requests (IndexJs.net w2)
      ++ repeat (mkRequest hist IndexJs.SYSTEM_INSTRUCTION true)
                (invocations (IndexJs.fetchRun (IndexJs.netEnv env) (IndexJs.net w2)))
    /\ IndexJs.tryBlock env closure sid userInput hist bid w2
       = match IndexJs.saveMessage env closure SenderBot
                 (streamedText (outcome (IndexJs.fetchRun (IndexJs.netEnv env)
                                                          (IndexJs.net w2))))
                 (Some sid)
                 (withNetMessages w2 n3
                    (l ++ [IndexJs.mkMessage bid SenderBot
                             (streamedText
                                (outcome (IndexJs.fetchRun (IndexJs.netEnv env)
                                                           (IndexJs.net w2)))) ts])) with
         | (Throw e, w4) => (Throw e, w4)
         | (Normal _, w4) => IndexJs.updateTitle env closure sid userInput w4
         end.
Proof.
  intros Hmsgs. unfold IndexJs.tryBlock.
  assert (Hdone : forall r s n,
             done r = true ->
             IndexJs.streamLoop env (S (length (chunks s))) hist bid r [] s
                                (IndexJs.setNet n w2)
             = (Normal [], s,
                withNetMessages w2 n (l ++ [IndexJs.mkMessage bid SenderBot [] ts]))).
  { intros r s n Hr. cbn [IndexJs.streamLoop]. rewrite Hr. f_equal.
    rewrite (IndexJs_world_eta (IndexJs.setNet n w2) _ Hmsgs). reflexivity. }
  destruct (outcome (IndexJs.fetchRun (IndexJs.netEnv env) (IndexJs.net w2)))
    as [[full|]|e] eqn:Hout; cbn [streamedText].
  - rewrite (IndexJs_next_first (IndexJs.netEnv env) hist IndexJs.SYSTEM_INSTRUCTION
               (IndexJs.net w2) full Hout).
    destruct (chunksOf full) as [|c cs] eqn:Hch.
    + rewrite IndexJs_next_done by (cbn; (discriminate || lia)).
      assert (Hfull : full = []).
      { rewrite <- (chunksOf_concat full), Hch. reflexivity. }
      cbv beta iota. rewrite Hdone by reflexivity. rewrite Hfull.
      eexists. split; [|reflexivity]. reflexivity.
    + rewrite IndexJs_next_yield_net by (cbn; (discriminate || lia)).
      cbn [fullResponse chunks chunkIndex nth_error].
      rewrite (IndexJs_streamLoop_exact env hist bid (length cs)
                 (S (length (c :: cs))) (mkIter (Some c) false) []
                 (mkStream (Some full) (c :: cs) 1) _ l [] ts)
        by (cbn; (discriminate || lia || reflexivity || exact Hmsgs)).
      cbn [fullResponse chunks chunkIndex value textOf skipn app].
      assert (Hfull : c ++ concat cs = full).
      { rewrite <- (chunksOf_concat full), Hch. reflexivity. }
      rewrite Hfull.
      eexists. split; [|reflexivity]. reflexivity.
  - unfold IndexJs.next at 1. cbn [IndexJs.askAIStream fullResponse]. rewrite Hout.
    change (length (chunks IndexJs.askAIStream) <=? chunkIndex IndexJs.askAIStream)
      with true.
    cbv beta iota. rewrite Hdone by reflexivity.
    eexists. split; [|reflexivity]. reflexivity.
  - unfold IndexJs.next at 1. cbn [IndexJs.askAIStream fullResponse]. rewrite Hout.
    cbv beta iota. rewrite Hdone by reflexivity.
    eexists. split; [|reflexivity]. reflexivity.
Qed.

(** ** [handleSend] of src/index.js *)

Lemma IndexJs_updateTitle_sessions env closure sid userInput w :
  (forall k, IndexJs.storeError env k = None) ->
  IndexJs.sessionsColl (IndexJs.fs (snd (IndexJs.updateTitle env closure sid userInput w)))
  = if IndexJs.db closure && truthy (IndexJs.userId closure)
       && match find (fun s => eqId (IndexJs.sessId s) sid) (IndexJs.sessions closure) with
          | None => true
          | Some s => startsWith (IndexJs.title s) (lit "Auto-Start Chat")
          end
    then IndexJs.mergeTitle sid
           (join (lit " ") (firstn 5 (split_ws userInput)) ++ lit "...")
           (IndexJs.sessionsColl (IndexJs.fs w))
    else IndexJs.sessionsColl (IndexJs.fs w).
Proof.
  intros Hok. unfold IndexJs.updateTitle.
  destruct (_ && _); [|reflexivity].
  rewrite (backoff_first_success _ _ tt) by (now rewrite Hok).
  reflexivity.
Qed.

Ltac world_proj :=
  cbn [IndexJs.net IndexJs.fs IndexJs.nStore IndexJs.nIds IndexJs.ui IndexJs.timers
       IndexJs.sessions IndexJs.currentSessionId IndexJs.messages IndexJs.input
       IndexJs.isTyping IndexJs.isAuthReady IndexJs.userId IndexJs.db IndexJs.error
       IndexJs.sessionsColl IndexJs.messagesColl
       withNetMessages IndexJs.tickIds IndexJs.tickStore IndexJs.setFs
       IndexJs.setError IndexJs.setIsTyping IndexJs.setInput IndexJs.setMessages
       IndexJs.setCurrentSessionId IndexJs.setSessions
       IndexJs.setUI IndexJs.setNet fst snd] in *.

(** What a send does when the guard lets it through and the store accepts
    every write, whatever the completion service does. *)
Lemma IndexJs_handleSend_when_store_accepts env closure w sid :
  canSend closure sid ->
  IndexJs.db closure = true ->
  (forall k, IndexJs.storeError env k = None) ->
  fst (IndexJs.handleSend env closure w) = Normal tt
  /\ IndexJs.messagesColl (IndexJs.fs (snd (IndexJs.handleSend env closure w)))
     = IndexJs.messagesColl (IndexJs.fs w)
       ++ [IndexJs.mkMessageDoc (IndexJs.freshId env (IndexJs.nIds w)) sid SenderUser
             (IndexJs.input closure) (Some (IndexJs.serverTime env (IndexJs.nStore w)));
           IndexJs.mkMessageDoc (IndexJs.freshId env (S (S (IndexJs.nIds w)))) sid SenderBot
             (streamedText (outcome (IndexJs.fetchRun (IndexJs.netEnv env) (IndexJs.net w))))
             (Some (IndexJs.serverTime env (IndexJs.nStore w + 1)))]
  /\ IndexJs.messages (IndexJs.ui (snd (IndexJs.handleSend env closure w)))
     = filter (fun msg => negb (eqId (IndexJs.msgId msg)
                                     (IndexJs.freshId env (S (IndexJs.nIds w)))))
              (IndexJs.messages (IndexJs.ui w))
  /\ IndexJs.isTyping (IndexJs.ui (snd (IndexJs.handleSend env closure w))) = false
  /\ IndexJs.input (IndexJs.ui (snd (IndexJs.handleSend env closure w))) = []
  /\ IndexJs.error (IndexJs.ui (snd (IndexJs.handleSend env closure w))) = None
  /\ requests (IndexJs.net (snd (IndexJs.handleSend env closure w)))
     = requests (IndexJs.net w)
       ++ repeat (mkRequest (IndexJs.chatHistoryForAPI (IndexJs.messages closure)
                                                       (IndexJs.input closure))
                            IndexJs.SYSTEM_INSTRUCTION true)
                 (invocations (IndexJs.fetchRun (IndexJs.netEnv env) (IndexJs.net w)))
  /\ IndexJs.sessionsColl (IndexJs.fs (snd (IndexJs.handleSend env closure w)))
     = if match find (fun s => eqId (IndexJs.sessId s) sid) (IndexJs.sessions closure) with
          | None => true
          | Some s => startsWith (IndexJs.title s) (lit "Auto-Start Chat")
          end
       then IndexJs.mergeTitle sid
              (join (lit " ") (firstn 5 (split_ws (IndexJs.input closure))) ++ lit "...")
              (IndexJs.sessionsColl (IndexJs.fs w))
       else IndexJs.sessionsColl (IndexJs.fs w).
Proof.
  intros (Hsid & Hin & Hty & Huid & Hs) Hdb Hstore.
  unfold IndexJs.handleSend. rewrite Hsid. cbv beta iota.
  rewrite Hin, Hty, Huid, Hs. cbn [negb orb]. cbv zeta.
  rewrite (IndexJs_saveMessage_ok env closure SenderUser _ sid _ Hdb Huid Hs (Hstore _)).
  set (hist := IndexJs.chatHistoryForAPI _ _).
  match goal with
  | |- context [IndexJs.tryBlock env closure sid ?ui ?h ?b ?w2] =>
      destruct (IndexJs_tryBlock_streamed env closure sid ui h b w2
                  (IndexJs.messages (IndexJs.ui w)) (IndexJs.clock env) eq_refl)
        as (n3 & Hreq & Htry);
      rewrite Htry; clear Htry
  end.
  rewrite (IndexJs_saveMessage_ok env closure SenderBot _ sid _ Hdb Huid Hs (Hstore _)).
  match goal with
  | |- context [IndexJs.updateTitle env closure sid ?ui ?w4] =>
      destruct (IndexJs_updateTitle_ok env closure sid ui w4 Hstore)
        as (Hf & Hu & Hm & Hr);
      pose proof (IndexJs_updateTitle_sessions env closure sid ui w4 Hstore) as Hsess;
      destruct (IndexJs.updateTitle env closure sid ui w4) as [c w5]
  end.
  cbn [fst snd] in Hf, Hu, Hm, Hr, Hsess. subst c.
  cbn [IndexJs.catchBlock fst snd].
  cbn [IndexJs.net IndexJs.fs IndexJs.nStore IndexJs.nIds IndexJs.ui IndexJs.timers
       IndexJs.sessions IndexJs.currentSessionId IndexJs.messages IndexJs.input
       IndexJs.isTyping IndexJs.isAuthReady IndexJs.userId IndexJs.db IndexJs.error
       IndexJs.setIsTyping IndexJs.setMessages IndexJs.setUI].
  rewrite Hu, Hm, Hr, Hsess. rewrite Hdb, Huid. cbn [andb].
  world_proj.
  repeat split; try assumption.
  - now rewrite <- app_assoc.
  - rewrite filter_app. cbn [filter]. rewrite eqId_refl. cbn [negb]. apply app_nil_r.
Qed.

(** X6. src/index.js, [handleSend]: when the store accepts every write and
    the completion service answers with [full], the call resolves, the
    collection of messages has gained exactly the question and then the
    whole reply [full], both under the current session, the placeholder is
    gone from the visible list, the input is empty, no error is shown and
    the busy flag is cleared. *)
Theorem X6_indexjs_send_stores_question_and_reply env closure w sid full :
  canSend closure sid ->
  IndexJs.db closure = true ->
  (forall k, IndexJs.storeError env k = None) ->
  outcome (IndexJs.fetchRun (IndexJs.netEnv env) (IndexJs.net w)) = Normal (Some full) ->
  fst (IndexJs.handleSend env closure w) = Normal tt
  /\ IndexJs.messagesColl (IndexJs.fs (snd (IndexJs.handleSend env closure w)))
     = IndexJs.messagesColl (IndexJs.fs w)
       ++ [IndexJs.mkMessageDoc (IndexJs.freshId env (IndexJs.nIds w)) sid SenderUser
             (IndexJs.input closure) (Some (IndexJs.serverTime env (IndexJs.nStore w)));
           IndexJs.mkMessageDoc (IndexJs.freshId env (S (S (IndexJs.nIds w)))) sid SenderBot
             full (Some (IndexJs.serverTime env (IndexJs.nStore w + 1)))]
  /\ IndexJs.messages (IndexJs.ui (snd (IndexJs.handleSend env closure w)))
     = filter (fun msg => negb (eqId (IndexJs.msgId msg)
                                     (IndexJs.freshId env (S (IndexJs.nIds w)))))
              (IndexJs.messages (IndexJs.ui w))
  /\ IndexJs.isTyping (IndexJs.ui (snd (IndexJs.handleSend env closure w))) = false
  /\ IndexJs.input (IndexJs.ui (snd (IndexJs.handleSend env closure w))) = []
  /\ IndexJs.error (IndexJs.ui (snd (IndexJs.handleSend env closure w))) = None.
Proof.
  intros Hcan Hdb Hstore Hout.
  destruct (IndexJs_handleSend_when_store_accepts env closure w sid Hcan Hdb Hstore)
    as (H1 & H2 & H3 & H4 & H5 & H6 & _).
  rewrite Hout in H2. cbn [streamedText] in H2. repeat split; assumption.
Qed.

Lemma X6_witness :
  fst (IndexJs.handleSend reliableStore typedHello typedHelloWorld) = Normal tt
  /\ IndexJs.messagesColl
       (IndexJs.fs (snd (IndexJs.handleSend reliableStore typedHello typedHelloWorld)))
     = [IndexJs.mkMessageDoc (lit "doc0") (lit "s1") SenderUser (lit "Hello") (Some 0%Z);
        IndexJs.mkMessageDoc (lit "doc2") (lit "s1") SenderBot (lit "Hi there!") (Some 1%Z)].
Proof.
  assert (Hcan : canSend typedHello (lit "s1")) by (repeat split).
  destruct (X6_indexjs_send_stores_question_and_reply reliableStore typedHello
              typedHelloWorld (lit "s1") (lit "Hi there!") Hcan eq_refl
              (fun _ => eq_refl) ltac:(vm_compute; reflexivity))
    as (H1 & H2 & _).
  split; [exact H1 | exact H2].
Defined.

(** X7. src/index.js, [handleSend]: when the completion service fails for
    good (the backoff policy gives up with an error) and the store accepts
    every write, the call still resolves; the reply stored after the question
    has the empty text, no message starting with "ERROR" is written, no error
    is shown and the busy flag is cleared: the failure of the service leaves
    no trace but the requests. *)
Theorem X7_indexjs_failed_service_stores_empty_reply env closure w sid e :
  canSend closure sid ->
  IndexJs.db closure = true ->
  (forall k, IndexJs.storeError env k = None) ->
  outcome (IndexJs.fetchRun (IndexJs.netEnv env) (IndexJs.net w)) = Throw e ->
  fst (IndexJs.handleSend env closure w) = Normal tt
  /\ IndexJs.messagesColl (IndexJs.fs (snd (IndexJs.handleSend env closure w)))
     = IndexJs.messagesColl (IndexJs.fs w)
       ++ [IndexJs.mkMessageDoc (IndexJs.freshId env (IndexJs.nIds w)) sid SenderUser
             (IndexJs.input closure) (Some (IndexJs.serverTime env (IndexJs.nStore w)));
           IndexJs.mkMessageDoc (IndexJs.freshId env (S (S (IndexJs.nIds w)))) sid SenderBot
             [] (Some (IndexJs.serverTime env (IndexJs.nStore w + 1)))]
  /\ IndexJs.error (IndexJs.ui (snd (IndexJs.handleSend env closure w))) = None
  /\ IndexJs.isTyping (IndexJs.ui (snd (IndexJs.handleSend env closure w))) = false.
Proof.
  intros Hcan Hdb Hstore Hout.
  destruct (IndexJs_handleSend_when_store_accepts env closure w sid Hcan Hdb Hstore)
    as (H1 & H2 & H3 & H4 & H5 & H6 & _).
  rewrite Hout in H2. cbn [streamedText] in H2. repeat split; assumption.
Qed.

Lemma X7_witness :
  fst (IndexJs.handleSend unreachableService typedHello typedHelloWorld) = Normal tt
  /\ IndexJs.messagesColl
       (IndexJs.fs (snd (IndexJs.handleSend unreachableService typedHello typedHelloWorld)))
     = [IndexJs.mkMessageDoc (lit "doc0") (lit "s1") SenderUser (lit "Hello") (Some 0%Z);
        IndexJs.mkMessageDoc (lit "doc2") (lit "s1") SenderBot [] (Some 1%Z)]
  /\ IndexJs.error
       (IndexJs.ui (snd (IndexJs.handleSend unreachableService typedHello typedHelloWorld)))
     = None.
Proof.
  assert (Hcan : canSend typedHello (lit "s1")) by (repeat split).
  destruct (X7_indexjs_failed_service_stores_empty_reply unreachableService typedHello
              typedHelloWorld (lit "s1") (mkError (lit "Failed to fetch")) Hcan eq_refl
              (fun _ => eq_refl) ltac:(vm_compute; reflexivity))
    as (H1 & H2 & H3 & _).
  split; [exact H1 | split; [exact H2 | exact H3]].
Defined.

(** X8. src/index.js, [handleSend]: one request is sent to the completion
    service per invocation of the backoff policy and none besides, each with
    the context of the render that sent, whatever the service answers; a
    service that answers at once is asked exactly once. *)
Theorem X8_indexjs_send_requests env closure w sid :
  canSend closure sid ->
  IndexJs.db closure = true ->
  (forall k, IndexJs.storeError env k = None) ->
  requests (IndexJs.net (snd (IndexJs.handleSend env closure w)))
  = requests (IndexJs.net w)
    ++ repeat (mkRequest (IndexJs.chatHistoryForAPI (IndexJs.messages closure)
                                                    (IndexJs.input closure))
                         IndexJs.SYSTEM_INSTRUCTION true)
              (invocations (IndexJs.fetchRun (IndexJs.netEnv env) (IndexJs.net w)))
  /\ 1 <= invocations (IndexJs.fetchRun (IndexJs.netEnv env) (IndexJs.net w)) <= 5.
Proof.
  intros Hcan Hdb Hstore.
  destruct (IndexJs_handleSend_when_store_accepts env closure w sid Hcan Hdb Hstore)
    as (_ & _ & _ & _ & _ & _ & H7 & _).
  split; [exact H7|].
  unfold IndexJs.fetchRun, withExponentialBackoff.
  destruct (backoffLoop_shape
              (fun k => IndexJs.fetchContent (IndexJs.netEnv env)
                          (fetchResult (IndexJs.netEnv env) (nFetch (IndexJs.net w) + k)))
              (fun k => random (IndexJs.netEnv env) (nRandom (IndexJs.net w) + k))
              5%Z (Z.to_nat 5) 0 ltac:(right; reflexivity)) as (Hle & _ & Hpos).
  change (Z.to_nat 5) with 5 in *.
  destruct (Hpos ltac:(lia)) as (Hp & _). lia.
Qed.

Lemma X8_witness :
  requests (IndexJs.net (snd (IndexJs.handleSend unreachableService typedHello
                                typedHelloWorld)))
  = repeat (mkRequest [mkTurn RoleUser (lit "Hello")] IndexJs.SYSTEM_INSTRUCTION true) 5.
Proof.
  assert (Hcan : canSend typedHello (lit "s1")) by (repeat split).
  destruct (X8_indexjs_send_requests unreachableService typedHello typedHelloWorld (lit "s1")
              Hcan eq_refl (fun _ => eq_refl)) as (H & _).
  rewrite H. vm_compute. reflexivity.
Defined.

(** The guard of [handleSend]: a refused call touches neither the store nor
    the network nor the visible conversation. *)
Lemma IndexJs_handleSend_refused env closure w :
  nonEmpty (trim (IndexJs.input closure)) = false \/ IndexJs.isTyping closure = true
  \/ truthy (IndexJs.userId closure) = false
  \/ truthy (IndexJs.currentSessionId closure) = false ->
  fst (IndexJs.handleSend env closure w) = Normal tt
  /\ IndexJs.fs (snd (IndexJs.handleSend env closure w)) = IndexJs.fs w
  /\ IndexJs.net (snd (IndexJs.handleSend env closure w)) = IndexJs.net w
  /\ IndexJs.messages (IndexJs.ui (snd (IndexJs.handleSend env closure w)))
     = IndexJs.messages (IndexJs.ui w)
  /\ IndexJs.input (IndexJs.ui (snd (IndexJs.handleSend env closure w)))
     = IndexJs.input (IndexJs.ui w)
  /\ IndexJs.isTyping (IndexJs.ui (snd (IndexJs.handleSend env closure w)))
     = IndexJs.isTyping (IndexJs.ui w).
Proof.
  intros H. unfold IndexJs.handleSend.
  destruct (IndexJs.currentSessionId closure) as [sid|]; [|repeat split].
  assert (Hg : negb (nonEmpty (trim (IndexJs.input closure))) || IndexJs.isTyping closure
               || negb (truthy (IndexJs.userId closure)) || negb (truthy (Some sid)) = true).
  { destruct H as [H|[H|[H|H]]]; rewrite H; cbn [negb orb];
      rewrite ?orb_true_r; reflexivity. }
  rewrite Hg. cbn [fst snd]. destruct (negb (truthy (Some sid))); repeat split.
Qed.

(** X9. src/index.js, [handleSend]: with a blank input, while a reply is
    being produced, or without a user or a session, the call resolves at once
    and nothing is written to the store, nothing is sent to the completion
    service, and the conversation, the input field and the busy flag stay as
    they are. *)
Theorem X9_indexjs_send_refused env closure w :
  nonEmpty (trim (IndexJs.input closure)) = false \/ IndexJs.isTyping closure = true
  \/ truthy (IndexJs.userId closure) = false
  \/ truthy (IndexJs.currentSessionId closure) = false ->
  fst (IndexJs.handleSend env closure w) = Normal tt
  /\ IndexJs.fs (snd (IndexJs.handleSend env closure w)) = IndexJs.fs w
  /\ IndexJs.net (snd (IndexJs.handleSend env closure w)) = IndexJs.net w
  /\ IndexJs.messages (IndexJs.ui (snd (IndexJs.handleSend env closure w)))
     = IndexJs.messages (IndexJs.ui w)
  /\ IndexJs.input (IndexJs.ui (snd (IndexJs.handleSend env closure w)))
     = IndexJs.input (IndexJs.ui w)
  /\ IndexJs.isTyping (IndexJs.ui (snd (IndexJs.handleSend env closure w)))
     = IndexJs.isTyping (IndexJs.ui w).
Proof.
  exact (IndexJs_handleSend_refused env closure w).
Qed.

Lemma X9_witness :
  IndexJs.fs (snd (IndexJs.handleSend reliableStore signedIn sampleWorld))
  = IndexJs.fs sampleWorld
  /\ IndexJs.net (snd (IndexJs.handleSend reliableStore signedIn sampleWorld))
     = IndexJs.net sampleWorld.
Proof.
  destruct (X9_indexjs_send_refused reliableStore signedIn sampleWorld)
    as (_ & H2 & H3 & _); [left; reflexivity|].
  split; [exact H2 | exact H3].
Defined.


(** ** The title that the first exchange gives to a session *)

Lemma splitWs_words_have_no_white_space (cur s : JSString) :
  countWhiteSpace cur = 0 ->
  Forall (fun p => countWhiteSpace p = 0) (splitWs false cur s).
Proof.
  funelim (splitWs false cur s); simp splitWs; intros Hcur.
  - constructor; [assumption|constructor].
  - cbn [app]. constructor; [assumption|]. now apply H.
  - apply H. unfold countWhiteSpace in *. rewrite filter_app, length_app.
    cbn [filter]. rewrite Heq. cbn [length]. lia.
Qed.

Lemma countWhiteSpace_app (a b : JSString) :
  countWhiteSpace (a ++ b) = countWhiteSpace a + countWhiteSpace b.
Proof. unfold countWhiteSpace. now rewrite filter_app, length_app. Qed.

Lemma countWhiteSpace_join (l : list JSString) :
  Forall (fun p => countWhiteSpace p = 0) l ->
  countWhiteSpace (join (lit " ") l) = length l - 1.
Proof.
  induction 1 as [|x l Hx Hl IH]; [reflexivity|].
  destruct l as [|y l]; [cbn [join length]; lia|].
  change (join (lit " ") (x :: y :: l)) with (x ++ lit " " ++ join (lit " ") (y :: l)).
  rewrite !countWhiteSpace_app, IH, Hx.
  change (countWhiteSpace (lit " ")) with 1. cbn [length]. lia.
Qed.

Lemma titleOf_mergeTitle sid t l m :
  titleOf (IndexJs.mkFirestore (IndexJs.mergeTitle sid t l) m) sid = Some (Some t).
Proof.
  unfold titleOf. cbn [IndexJs.sessionsColl].
  induction l as [|d l IH]; cbn [IndexJs.mergeTitle find IndexJs.sdId].
  - now rewrite eqId_refl.
  - destruct (eqId (IndexJs.sdId d) sid) eqn:E; cbn [find IndexJs.sdId].
    + now rewrite eqId_refl.
    + now rewrite E.
Qed.

Lemma titleOf_mergeTitle_other sid sid' t l m :
  eqId sid' sid = false ->
  titleOf (IndexJs.mkFirestore (IndexJs.mergeTitle sid t l) m) sid'
  = titleOf (IndexJs.mkFirestore l m) sid'.
Proof.
  intros Hne. unfold titleOf. cbn [IndexJs.sessionsColl].
  induction l as [|d l IH]; cbn [IndexJs.mergeTitle find IndexJs.sdId].
  - destruct (eqId sid sid') eqn:E; [|reflexivity].
    apply eqId_true in E. subst sid'. now rewrite eqId_refl in Hne.
  - destruct (eqId (IndexJs.sdId d) sid) eqn:E; cbn [find IndexJs.sdId].
    + apply eqId_true in E. rewrite E.
      destruct (eqId sid sid') eqn:E'; [|reflexivity].
      apply eqId_true in E'. subst sid'. now rewrite eqId_refl in Hne.
    + destruct (eqId (IndexJs.sdId d) sid'); [reflexivity|exact IH].
Qed.

(** X11. src/index.js, [handleSend]: when the session is unknown to the
    render or its title starts with "Auto-Start Chat", a send that goes
    through names the session after the question: the stored title is the
    first five pieces of the input between runs of white space, joined by
    single spaces and followed by "..."; it holds at most four white-space
    characters, and the titles of all other sessions stay as they are. *)
Theorem X11_indexjs_first_exchange_names_the_session env closure w sid :
  canSend closure sid ->
  IndexJs.db closure = true ->
  (forall k, IndexJs.storeError env k = None) ->
  (forall s, find (fun s => eqId (IndexJs.sessId s) sid) (IndexJs.sessions closure) = Some s ->
             startsWith (IndexJs.title s) (lit "Auto-Start Chat") = true) ->
  titleOf (IndexJs.fs (snd (IndexJs.handleSend env closure w))) sid
  = Some (Some (join (lit " ") (firstn 5 (split_ws (IndexJs.input closure))) ++ lit "..."))
  /\ countWhiteSpace
       (join (lit " ") (firstn 5 (split_ws (IndexJs.input closure))) ++ lit "...") <= 4
  /\ forall sid', eqId sid' sid = false ->
       titleOf (IndexJs.fs (snd (IndexJs.handleSend env closure w))) sid'
       = titleOf (IndexJs.fs w) sid'.
Proof.
  intros Hcan Hdb Hstore Htitle.
  destruct (IndexJs_handleSend_when_store_accepts env closure w sid Hcan Hdb Hstore)
    as (_ & _ & _ & _ & _ & _ & _ & H8).
  assert (Hc : match find (fun s => eqId (IndexJs.sessId s) sid) (IndexJs.sessions closure) with
               | None => true
               | Some s => startsWith (IndexJs.title s) (lit "Auto-Start Chat")
               end = true).
  { destruct (find _ _) as [s|]; [now apply Htitle|reflexivity]. }
  rewrite Hc in H8.
  destruct (IndexJs.fs (snd (IndexJs.handleSend env closure w))) as [sc mc].
  cbn [IndexJs.sessionsColl] in H8. subst sc.
  split; [apply titleOf_mergeTitle|]. split.
  - rewrite countWhiteSpace_app.
    rewrite countWhiteSpace_join.
    + change (countWhiteSpace (lit "...")) with 0.
      pose proof (length_firstn 5 (split_ws (IndexJs.input closure))). lia.
    + apply Forall_forall. intros p Hp. apply In_firstn in Hp.
      pose proof (splitWs_words_have_no_white_space [] (IndexJs.input closure) eq_refl) as HF.
      rewrite Forall_forall in HF. now apply HF.
  - intros sid' Hne. rewrite (titleOf_mergeTitle_other _ _ _ _ _ Hne).
    unfold titleOf. reflexivity.
Qed.

Lemma X11_witness :
  titleOf (IndexJs.fs (snd (IndexJs.handleSend reliableStore typedQuestion typedQuestionWorld)))
          (lit "s1")
  = Some (Some (lit "what is the weather in...")).
Proof.
  assert (Hcan : canSend typedQuestion (lit "s1")) by (repeat split).
  destruct (X11_indexjs_first_exchange_names_the_session reliableStore typedQuestion
              typedQuestionWorld (lit "s1") Hcan eq_refl (fun _ => eq_refl))
    as (H1 & _).
  - intros s Hs. vm_compute in Hs. injection Hs as <-. reflexivity.
  - rewrite H1. vm_compute. reflexivity.
Defined.

(** X12. src/index.js, [handleSend]: a session that the render knows under a
    title not starting with "Auto-Start Chat" keeps its title; a send that
    goes through leaves the collection of sessions untouched. *)
Theorem X12_indexjs_named_session_keeps_its_title env closure w sid s :
  canSend closure sid ->
  IndexJs.db closure = true ->
  (forall k, IndexJs.storeError env k = None) ->
  find (fun s => eqId (IndexJs.sessId s) sid) (IndexJs.sessions closure) = Some s ->
  startsWith (IndexJs.title s) (lit "Auto-Start Chat") = false ->
  IndexJs.sessionsColl (IndexJs.fs (snd (IndexJs.handleSend env closure w)))
  = IndexJs.sessionsColl (IndexJs.fs w).
Proof.
  intros Hcan Hdb Hstore Hfind Htitle.
  destruct (IndexJs_handleSend_when_store_accepts env closure w sid Hcan Hdb Hstore)
    as (_ & _ & _ & _ & _ & _ & _ & H8).
  now rewrite Hfind, Htitle in H8.
Qed.

Lemma X12_witness :
  IndexJs.sessionsColl
    (IndexJs.fs (snd (IndexJs.handleSend reliableStore typedHello typedHelloWorld)))
  = IndexJs.sessionsColl (IndexJs.fs typedHelloWorld).
Proof.
  assert (Hcan : canSend typedHello (lit "s1")) by (repeat split).
  exact (X12_indexjs_named_session_keeps_its_title reliableStore typedHello typedHelloWorld
           (lit "s1") (IndexJs.mkSession (lit "s1") (lit "First") 10%Z)
           Hcan eq_refl (fun _ => eq_refl) eq_refl eq_refl).
Defined.

(** ** Speech audio: the WAV file *)

Import TypedArrays.

Lemma length_bytesOf k v e : length (bytesOf k v e) = k.
Proof.
  unfold bytesOf. destruct e; rewrite ?length_rev, length_map, length_seq; reflexivity.
Qed.

(** A store inside the view replaces exactly the bytes it covers. *)
Lemma setViewValue_at re k off v e (pre old post : list Z) :
  length pre = off -> length old = k ->
  setViewValue re k off v e (pre ++ old ++ post)
  = Normal (pre ++ bytesOf k v e ++ post).
Proof.
  intros Hpre Hold. subst off k. unfold setViewValue.
  assert (Hf : firstn (length pre) (pre ++ old ++ post) = pre).
  { rewrite firstn_app, Nat.sub_diag, firstn_O, app_nil_r. apply firstn_all. }
  assert (Hs : skipn (length pre + length old) (pre ++ old ++ post) = post).
  { rewrite app_assoc, skipn_app, length_app, Nat.sub_diag, skipn_O.
    rewrite skipn_all2 by (rewrite length_app; lia). reflexivity. }
  rewrite Hf, Hs, !length_app.
  destruct (Nat.leb_spec (length pre + length old)
                         (length pre + (length old + length post))); [reflexivity|lia].
Qed.

Lemma byteAt_0 v : byteAt v 0 = (v mod 256)%Z.
Proof.
  unfold byteAt. change (8 * Z.of_nat 0)%Z with 0%Z. rewrite Z.shiftr_0_r.
  change 255%Z with (Z.ones 8). now rewrite Z.land_ones by lia.
Qed.

Lemma byteAt_1 v : byteAt v 1 = ((v / 256) mod 256)%Z.
Proof.
  unfold byteAt. change (8 * Z.of_nat 1)%Z with 8%Z.
  rewrite Z.shiftr_div_pow2 by lia.
  change 255%Z with (Z.ones 8). now rewrite Z.land_ones by lia.
Qed.

(** A sample survives being stored and read back. *)
Lemma int16_bytes x :
  (-32768 <= x < 32768)%Z -> int16 (byteAt x 0) (byteAt x 1) = x.
Proof.
  intros Hx. rewrite byteAt_0, byteAt_1. unfold int16.
  destruct (Z.ltb_spec (x mod 256 + 256 * ((x / 256) mod 256)) 32768);
    Z.div_mod_to_equations; lia.
Qed.

(** Two bytes survive being read as a sample and stored again. *)
Lemma bytes_int16 a b :
  (0 <= a < 256)%Z -> (0 <= b < 256)%Z ->
  byteAt (int16 a b) 0 = a /\ byteAt (int16 a b) 1 = b.
Proof.
  intros Ha Hb. rewrite byteAt_0, byteAt_1. unfold int16.
  destruct (Z.ltb_spec (a + 256 * b) 32768); split;
    Z.div_mod_to_equations; lia.
Qed.

Lemma IndexJsAudio_writeSamples_bytes re :
  forall pcm i pre,
    length pre = 44 + i * 2 ->
    IndexJsAudio.writeSamples re pcm i (pre ++ repeat 0%Z (length pcm * 2))
    = Normal (pre ++ flat_map (lowFirst 2) pcm).
Proof.
  induction pcm as [|x rest IH]; intros i pre Hpre.
  - cbn [IndexJsAudio.writeSamples length Nat.mul repeat flat_map]. reflexivity.
  - cbn [IndexJsAudio.writeSamples length Nat.mul Nat.add repeat flat_map].
    unfold setInt16.
    change (0%Z :: 0%Z :: repeat 0%Z (length rest * 2))
      with ([0%Z; 0%Z] ++ repeat 0%Z (length rest * 2)).
    rewrite (setViewValue_at re 2 (44 + i * 2) x true pre [0%Z; 0%Z] _ Hpre eq_refl).
    cbn [andThen]. rewrite app_assoc.
    rewrite (IH (S i) (pre ++ bytesOf 2 x true)).
    + now rewrite <- app_assoc.
    + rewrite length_app, length_bytesOf. lia.
Qed.

Lemma repeat_plus {A} (x : A) (n m : nat) : repeat x (n + m) = repeat x n ++ repeat x m.
Proof. induction n as [|n IH]; simpl; [reflexivity | now rewrite IH]. Qed.

Ltac header_writes :=
  cbn [setUint32 setUint16 setUint8 setViewValue andThen bytesOf map seq rev app
       firstn skipn length Nat.leb Nat.add repeat newArrayBuffer
       AppJsxAudio.writeString lit list_ascii_of_string].

Ltac header_bytes :=
  cbn [wavHeader ascii4 lowFirst lit list_ascii_of_string bytesOf map seq rev app length Nat.add];
  repeat (apply f_equal2; [first [reflexivity | f_equal; lia] | ]);
  try reflexivity.

Lemma length_wavHeader n rate : length (wavHeader n rate) = 44.
Proof. reflexivity. Qed.

Lemma IndexJsAudio_pcmToWav_bytes re pcm rate :
  IndexJsAudio.pcmToWav re pcm rate
  = Normal (wavHeader (length pcm) rate ++ flat_map (lowFirst 2) pcm).
Proof.
  unfold IndexJsAudio.pcmToWav. cbv zeta.
  unfold newArrayBuffer. rewrite repeat_plus.
  set (tail := repeat 0%Z (length pcm * 2)).
  header_writes.
  match goal with
  | |- IndexJsAudio.writeSamples re pcm 0 ?buf = _ =>
      replace buf with (wavHeader (length pcm) rate ++ tail) by header_bytes
  end.
  apply IndexJsAudio_writeSamples_bytes. reflexivity.
Qed.

Lemma int16ViewSet_fills re host pcm (pre : list Z) :
  length pre = 44 ->
  int16ViewSet re host 44 pcm (pre ++ repeat 0%Z (2 * length pcm))
  = Normal (pre ++ flat_map (fun x => bytesOf 2 x host) pcm).
Proof.
  intros Hpre. unfold int16ViewSet.
  rewrite length_app, repeat_length, Hpre.
  replace (44 + 2 * length pcm - 44) with (2 * length pcm) by lia.
  rewrite Nat.even_mul. change (Nat.even 44) with true. change (Nat.even 2) with true.
  rewrite (Nat.mul_comm 2), Nat.div_mul by lia.
  destruct (Nat.leb_spec 44 (44 + length pcm * 2)); [|lia].
  rewrite Nat.leb_refl. cbn [andb orb].
  rewrite <- Hpre at 1. rewrite firstn_app, Nat.sub_diag, firstn_O, app_nil_r, firstn_all.
  rewrite skipn_all2 by (rewrite length_app, repeat_length; lia).
  now rewrite app_nil_r.
Qed.

Lemma AppJsxAudio_pcmToWav_bytes re host pcm rate :
  AppJsxAudio.pcmToWav re host pcm rate
  = Normal (wavHeader (length pcm) rate ++ flat_map (fun x => bytesOf 2 x host) pcm).
Proof.
  unfold AppJsxAudio.pcmToWav, AppJsxAudio.byteLength. cbv zeta.
  unfold newArrayBuffer. rewrite repeat_plus.
  set (tail := repeat 0%Z (2 * length pcm)).
  header_writes.
  match goal with
  | |- int16ViewSet re host 44 pcm ?buf = _ =>
      replace buf with (wavHeader (length pcm) rate ++ tail) by header_bytes
  end.
  apply int16ViewSet_fills. reflexivity.
Qed.

(** Reading the bytes as samples and storing the samples again. *)
Lemma elementsOf_bytes host :
  forall n bytes,
    length bytes = 2 * n -> isBytes bytes ->
    length (elementsOf host bytes) = n
    /\ flat_map (fun x => bytesOf 2 x host) (elementsOf host bytes) = bytes
    /\ flat_map (fun x => bytesOf 2 x (negb host)) (elementsOf host bytes)
       = swapPairs bytes.
Proof.
  induction n as [|n IH]; intros bytes Hlen Hb.
  - destruct bytes; [repeat split|discriminate].
  - destruct bytes as [|a [|b rest]]; try (cbn in Hlen; lia).
    inversion Hb as [|? ? Ha Hb']. inversion Hb' as [|? ? Hb0 Hrest]. subst.
    destruct (IH rest ltac:(cbn in Hlen; lia) Hrest) as (IH1 & IH2 & IH3).
    cbn [elementsOf flat_map length swapPairs]. rewrite IH1, IH2, IH3.
    destruct (bytes_int16 a b Ha Hb0) as [E1 E2].
    destruct (bytes_int16 b a Hb0 Ha) as [E3 E4].
    destruct host; cbn [negb bytesOf map seq rev app];
      rewrite ?E1, ?E2, ?E3, ?E4; repeat split.
Qed.

Lemma firstn_exact_app {A} (n : nat) (a b : list A) :
  length a = n -> firstn n (a ++ b) = a.
Proof.
  intros <-. rewrite firstn_app, Nat.sub_diag, firstn_O, app_nil_r. apply firstn_all.
Qed.

Lemma skipn_flat_map_pairs (f : Z -> list Z) :
  (forall x, length (f x) = 2) ->
  forall i l, skipn (2 * i) (flat_map f l) = flat_map f (skipn i l).
Proof.
  intros Hf. induction i as [|i IH]; intros l; [reflexivity|].
  destruct l as [|x l]; [reflexivity|].
  cbn [flat_map skipn]. replace (2 * S i) with (length (f x) + 2 * i) by (rewrite Hf; lia).
  rewrite skipn_app, Nat.add_comm, Nat.add_sub.
  rewrite skipn_all2 by lia. cbn [app].
  rewrite <- IH. f_equal.
Qed.

Lemma wav_sample_read_back re (header : list Z) pcm i x :
  length header = 44 -> isInt16s pcm -> nth_error pcm i = Some x ->
  getInt16 re (44 + 2 * i) true (header ++ flat_map (lowFirst 2) pcm) = Normal x.
Proof.
  intros Hh Hpcm Hx. unfold getInt16.
  rewrite skipn_app, Hh.
  replace (44 + 2 * i - 44) with (2 * i) by lia.
  rewrite skipn_all2 by lia. cbn [app].
  rewrite (skipn_flat_map_pairs (lowFirst 2)) by (intros; apply length_bytesOf).
  rewrite (skipn_nth_error _ _ _ Hx).
  cbn [flat_map lowFirst bytesOf map seq app].
  f_equal. apply int16_bytes.
  unfold isInt16s in Hpcm. rewrite Forall_forall in Hpcm.
  apply Hpcm. eapply nth_error_In. exact Hx.
Qed.

(** X13. src/index.js, [pcmToWav]: for every sequence of samples and every
    sample rate the function returns (no store falls outside the buffer), the
    file has 44 + 2n bytes, its first 44 bytes are the canonical WAV header
    for n mono 16-bit samples at that rate, and every sample is read back
    unchanged, as a little-endian 16-bit number, from offset 44 + 2i. *)
Theorem X13_indexjs_pcmToWav_is_a_wav_file re pcm16 sampleRate :
  exists wav,
    IndexJsAudio.pcmToWav re pcm16 sampleRate = Normal wav
    /\ length wav = 44 + 2 * length pcm16
    /\ firstn 44 wav = wavHeader (length pcm16) sampleRate
    /\ (isInt16s pcm16 ->
        forall i x, nth_error pcm16 i = Some x ->
                    getInt16 re (44 + 2 * i) true wav = Normal x).
Proof.
  exists (wavHeader (length pcm16) sampleRate ++ flat_map (lowFirst 2) pcm16).
  split; [apply IndexJsAudio_pcmToWav_bytes|]. split; [|split].
  - rewrite length_app, length_wavHeader. f_equal.
    induction pcm16 as [|x l IH]; [reflexivity|].
    cbn [flat_map length]. rewrite length_app, IH. unfold lowFirst.
    rewrite length_bytesOf. lia.
  - apply firstn_exact_app, length_wavHeader.
  - intros Hpcm i x Hx. now apply wav_sample_read_back.
Qed.

Lemma X13_witness :
  exists wav,
    IndexJsAudio.pcmToWav engineRangeError [0; -1; 32767]%Z 24000%Z = Normal wav
    /\ getInt16 engineRangeError 46 true wav = Normal (-1)%Z.
Proof.
  destruct (X13_indexjs_pcmToWav_is_a_wav_file engineRangeError [0; -1; 32767]%Z 24000%Z)
    as (wav & H1 & _ & _ & H4).
  exists wav. split; [exact H1|].
  apply (H4 ltac:(repeat constructor; lia) 1 (-1)%Z eq_refl).
Defined.

(** X14. src/src/App.jsx, [pcmToWav]: the function returns for every input;
    the file has 44 + 2n bytes and starts with the same canonical header as
    the file of src/index.js, on every host; on a host that stores the low
    byte first the two versions produce the same file, byte for byte. *)
Theorem X14_appjsx_pcmToWav_agrees_with_indexjs re host pcm16 sampleRate :
  (exists wav,
      AppJsxAudio.pcmToWav re host pcm16 sampleRate = Normal wav
      /\ length wav = 44 + 2 * length pcm16
      /\ firstn 44 wav = wavHeader (length pcm16) sampleRate)
  /\ AppJsxAudio.pcmToWav re true pcm16 sampleRate
     = IndexJsAudio.pcmToWav re pcm16 sampleRate.
Proof.
  split.
  - exists (wavHeader (length pcm16) sampleRate
            ++ flat_map (fun x => bytesOf 2 x host) pcm16).
    split; [apply AppJsxAudio_pcmToWav_bytes|]. split.
    + rewrite length_app, length_wavHeader. f_equal.
      induction pcm16 as [|x l IH]; [reflexivity|].
      cbn [flat_map length]. rewrite length_app, IH, length_bytesOf. lia.
    + apply firstn_exact_app, length_wavHeader.
  - rewrite AppJsxAudio_pcmToWav_bytes, IndexJsAudio_pcmToWav_bytes. reflexivity.
Qed.

(** X15. The step from the decoded audio to the file, [new Int16Array(pcmData)]
    followed by [pcmToWav(pcm16, sampleRate)], in [fetchTts] of src/index.js
    and in [ttsApiCall] of src/src/App.jsx.  For an even number of bytes the
    file of src/src/App.jsx is the header followed by exactly the decoded
    bytes, on every host; the file of src/index.js is the same on a host that
    stores the low byte first, and has the two bytes of every sample exchanged
    on the others.  For an odd number of bytes both steps throw the
    [RangeError] of the typed array and no file is made. *)
Theorem X15_decoded_audio_is_copied_into_the_wav_file re host bytes sampleRate :
  isBytes bytes ->
  (Nat.even (length bytes) = true ->
   andThen (newInt16Array re host bytes)
           (fun pcm16 => AppJsxAudio.pcmToWav re host pcm16 sampleRate)
   = Normal (wavHeader (length bytes / 2) sampleRate ++ bytes)
   /\ andThen (newInt16Array re host bytes)
              (fun pcm16 => IndexJsAudio.pcmToWav re pcm16 sampleRate)
      = Normal (wavHeader (length bytes / 2) sampleRate
                ++ if host then bytes else swapPairs bytes))
  /\ (Nat.even (length bytes) = false ->
      andThen (newInt16Array re host bytes)
              (fun pcm16 => AppJsxAudio.pcmToWav re host pcm16 sampleRate)
      = Throw re
      /\ andThen (newInt16Array re host bytes)
                 (fun pcm16 => IndexJsAudio.pcmToWav re pcm16 sampleRate)
         = Throw re).
Proof.
  intros Hb. unfold newInt16Array. split; intros Hev; rewrite Hev; cbn [andThen].
  2:{ split; reflexivity. }
  apply Nat.even_spec in Hev. destruct Hev as [n Hn].
  destruct (elementsOf_bytes host n bytes Hn Hb) as (Hlen & Hsame & Hswap).
  rewrite AppJsxAudio_pcmToWav_bytes, IndexJsAudio_pcmToWav_bytes.
  rewrite Hlen, Hsame, Hn, (Nat.mul_comm 2 n), Nat.div_mul by lia.
  split; [reflexivity|]. f_equal. f_equal. unfold lowFirst.
  destruct host; [exact Hsame | exact Hswap].
Qed.

Lemma X15_witness :
  andThen (newInt16Array engineRangeError false [1; 2; 3; 4]%Z)
          (fun pcm16 => AppJsxAudio.pcmToWav engineRangeError false pcm16 24000%Z)
  = Normal (wavHeader 2 24000%Z ++ [1; 2; 3; 4]%Z)
  /\ andThen (newInt16Array engineRangeError false [1; 2; 3; 4]%Z)
             (fun pcm16 => IndexJsAudio.pcmToWav engineRangeError pcm16 24000%Z)
     = Normal (wavHeader 2 24000%Z ++ [2; 1; 4; 3]%Z).
Proof.
  destruct (X15_decoded_audio_is_copied_into_the_wav_file engineRangeError false
              [1; 2; 3; 4]%Z 24000%Z ltac:(repeat constructor; lia)) as (H & _).
  exact (H eq_refl).
Defined.

(** ** [handleSend] of src/src/App.jsx *)

Ltac world_proj_app :=
  cbn [AppJsx.net AppJsx.fs AppJsx.nStore AppJsx.nIds AppJsx.ui AppJsx.timers
       AppJsx.sessions AppJsx.currentSessionId AppJsx.messages AppJsx.input
       AppJsx.isTyping AppJsx.isAuthReady AppJsx.userId AppJsx.db AppJsx.errorMessage
       AppJsx.sessionsColl AppJsx.messagesColl
       withNetMessagesApp AppJsx.tickIds AppJsx.tickStore AppJsx.setFs
       AppJsx.setErrorMessage AppJsx.setIsTyping AppJsx.setInput AppJsx.setMessages
       AppJsx.setCurrentSessionId AppJsx.setSessions
       AppJsx.setUI AppJsx.setNet fst snd] in *.

Lemma AppJsx_setNet_eta n w :
  AppJsx.setNet n w = withNetMessagesApp w n (AppJsx.messages (AppJsx.ui w)).
Proof. destruct w as [nt f ns ni u tm]. now destruct u. Qed.

(** The loop [for await] on a stream that holds its reply: it ends with
    the accumulated text followed by the fragments not yet pulled, sends no
    request, and touches nothing but the timers of the network and the
    visible messages. *)
Lemma AppJsx_forAwait_exact env txt hist tmp :
  forall n fuel acc s w,
    fullResponse s <> None ->
    chunkIndex s + n = length (chunks s) -> n < fuel ->
    exists s' n' msgs',
      AppJsx.forAwait env fuel txt hist tmp acc s w
      = (Normal (acc ++ concat (skipn (chunkIndex s) (chunks s))), s',
         withNetMessagesApp w n' msgs')
      /\ requests n' = requests (AppJsx.net w).
Proof.
  induction n as [|n IH]; intros fuel acc s w Hfull Hn Hfuel;
    (destruct fuel as [|fuel]; [lia|]); cbn [AppJsx.forAwait].
  - rewrite AppJsx_next_done by (assumption || lia). cbn [done].
    rewrite skipn_all2 by lia. cbn [concat]. rewrite app_nil_r.
    exists s, (AppJsx.net w), (AppJsx.messages (AppJsx.ui w)).
    split; [|reflexivity]. f_equal.
    destruct w as [nt f ns ni u tm]. now destruct u.
  - rewrite AppJsx_next_yield_net by (assumption || lia). cbn [done value].
    destruct (nth_error (chunks s) (chunkIndex s)) as [c|] eqn:Hc.
    2:{ apply nth_error_None in Hc. lia. }
    match goal with
    | |- context [AppJsx.forAwait env fuel txt hist tmp ?a ?s1 ?w1] =>
        destruct (IH fuel a s1 w1) as (s' & n' & msgs' & Hloop & Hreq);
          try (cbn [fullResponse chunks chunkIndex]; (assumption || lia))
    end.
    rewrite Hloop. exists s', n', msgs'. split.
    + cbn [fullResponse chunks chunkIndex textOf].
      rewrite (skipn_nth_error _ _ _ Hc). cbn [concat].
      rewrite <- !app_assoc. reflexivity.
    + rewrite Hreq. reflexivity.
Qed.

Lemma AppJsx_saveMessage_ok env closure who txt sid w :
  AppJsx.currentSessionId closure = Some sid -> AppJsx.db closure = true ->
  truthy (AppJsx.userId closure) = true -> truthy (Some sid) = true ->
  nonEmpty txt = true ->
  AppJsx.storeError env (AppJsx.nStore w) = None ->
  AppJsx.saveMessage env closure who txt w
  = AppJsx.tickIds (AppJsx.tickStore
      (AppJsx.setFs
         (AppJsx.mkFirestore (AppJsx.sessionsColl (AppJsx.fs w))
            (AppJsx.messagesColl (AppJsx.fs w)
             ++ [AppJsx.mkMessageDoc (AppJsx.freshId env (AppJsx.nIds w)) sid who txt
                   (Some (AppJsx.serverTime env (AppJsx.nStore w)))])) w)).
Proof.
  intros Hsid Hdb Huid Hs Htxt Hok. unfold AppJsx.saveMessage.
  rewrite Hsid, Hdb, Huid, Hs, Htxt. cbn [negb orb]. now rewrite Hok.
Qed.

Lemma AppJsx_saveMessage_empty env closure who w :
  AppJsx.saveMessage env closure who [] w = w.
Proof.
  unfold AppJsx.saveMessage. destruct (AppJsx.currentSessionId closure); [|reflexivity].
  cbn [nonEmpty negb]. now rewrite !orb_true_r.
Qed.

(** The streaming part of [handleSend]: one request is sent, the loop ends
    whatever the service does, and the text accumulated is the whole reply, or
    nothing when the fetch fails; only the network log and the visible
    messages change. *)
Lemma AppJsx_streaming env txt hist tmp w2 :
  exists n3 msgs3,
    streamingApp env txt hist tmp w2
    = (Normal (accumulatedText
                 (AppJsx.fetchReply
                    (fetchResult (AppJsx.netEnv env) (nFetch (AppJsx.net w2))))),
       withNetMessagesApp w2 n3 msgs3)
    /\ requests n3 = requests (AppJsx.net w2) ++ [AppJsx.payload txt hist].
Proof.
  unfold streamingApp.
  destruct (AppJsx.fetchReply (fetchResult (AppJsx.netEnv env) (nFetch (AppJsx.net w2))))
    as [full|e] eqn:Hf; cbn [accumulatedText].
  - rewrite (AppJsx_next_first _ _ _ _ full Hf).
    destruct (chunksOf full) as [|c cs] eqn:Hch.
    + rewrite AppJsx_next_done by (cbn; (discriminate || lia)).
      cbn [done].
      assert (Hfull : full = []).
      { rewrite <- (chunksOf_concat full), Hch. reflexivity. }
      rewrite Hfull. eexists _, _. split.
      * f_equal. apply AppJsx_setNet_eta.
      * reflexivity.
    + rewrite AppJsx_next_yield_net by (cbn; (discriminate || lia)).
      cbn [done value fullResponse chunks chunkIndex nth_error]. cbv zeta.
      match goal with
      | |- context [AppJsx.forAwait env ?fu txt hist tmp ?a ?s1 ?w1] =>
          destruct (AppJsx_forAwait_exact env txt hist tmp (length cs) fu a s1 w1)
            as (s' & n' & msgs' & Hloop & Hreq);
            try (cbn [fullResponse chunks chunkIndex length]; (discriminate || lia))
      end.
      rewrite Hloop. cbn [fullResponse chunks chunkIndex textOf skipn].
      assert (Hfull : c ++ concat cs = full).
      { rewrite <- (chunksOf_concat full), Hch. reflexivity. }
      rewrite Hfull. exists n', msgs'. split; [reflexivity|].
      rewrite Hreq. reflexivity.
  - unfold AppJsx.next. cbn [AppJsx.askAIStream fullResponse]. rewrite Hf.
    cbn [done]. eexists _, _. split.
    + f_equal. apply AppJsx_setNet_eta.
    + reflexivity.
Qed.

(** What a send does when the store accepts every write, whatever the
    completion service does. *)
Lemma AppJsx_handleSend_when_store_accepts env closure transcript w sid :
  canSendApp closure transcript sid ->
  (forall k, AppJsx.storeError env k = None) ->
  fst (AppJsx.handleSend env closure transcript w) = Normal tt
  /\ AppJsx.messagesColl (AppJsx.fs (snd (AppJsx.handleSend env closure transcript w)))
     = AppJsx.messagesColl (AppJsx.fs w)
       ++ [AppJsx.mkMessageDoc (AppJsx.freshId env (AppJsx.nIds w)) sid SenderUser
             (trim (orElse transcript (AppJsx.input closure)))
             (Some (AppJsx.serverTime env (AppJsx.nStore w)))]
       ++ (if nonEmpty (accumulatedText
                          (AppJsx.fetchReply
                             (fetchResult (AppJsx.netEnv env) (nFetch (AppJsx.net w)))))
           then [AppJsx.mkMessageDoc (AppJsx.freshId env (S (S (AppJsx.nIds w)))) sid
                   SenderBot
                   (accumulatedText
                      (AppJsx.fetchReply
                         (fetchResult (AppJsx.netEnv env) (nFetch (AppJsx.net w)))))
                   (Some (AppJsx.serverTime env
                            (if (length (AppJsx.messages closure) =? 0)%nat
                             then S (S (AppJsx.nStore w)) else S (AppJsx.nStore w))))]
           else [])
  /\ AppJsx.sessionsColl (AppJsx.fs (snd (AppJsx.handleSend env closure transcript w)))
     = (if (length (AppJsx.messages closure) =? 0)%nat
        then AppJsx.mergeName sid
               (sessionNameOf (trim (orElse transcript (AppJsx.input closure))))
               (AppJsx.sessionsColl (AppJsx.fs w))
        else AppJsx.sessionsColl (AppJsx.fs w))
  /\ AppJsx.isTyping (AppJsx.ui (snd (AppJsx.handleSend env closure transcript w))) = false
  /\ AppJsx.errorMessage (AppJsx.ui (snd (AppJsx.handleSend env closure transcript w)))
     = None
  /\ AppJsx.input (AppJsx.ui (snd (AppJsx.handleSend env closure transcript w))) = []
  /\ requests (AppJsx.net (snd (AppJsx.handleSend env closure transcript w)))
     = requests (AppJsx.net w)
       ++ [AppJsx.payload (trim (orElse transcript (AppJsx.input closure)))
             (map (fun msg => AppJsx.mkHistoryItem (AppJsx.sender msg) (AppJsx.text msg))
                  (AppJsx.messages closure))].
Proof.
  intros (Htxt & Hsid & Hs & Huid & Hdb) Hstore.
  unfold AppJsx.handleSend. rewrite Htxt. cbn [negb]. cbv zeta.
  set (txt := trim (orElse transcript (AppJsx.input closure))) in *.
  rewrite Hsid, Hdb, Huid, Hs. cbn [andb].
  rewrite (AppJsx_saveMessage_ok env closure SenderUser txt sid _ Hsid Hdb Huid Hs Htxt
             (Hstore _)).
  set (hist := map _ (AppJsx.messages closure)).
  world_proj_app.
  set (w2 := AppJsx.setMessages (fun prev => _) _).
  match goal with
  | |- context [match ?X with _ => _ end] =>
      change X with (streamingApp env txt hist (AppJsx.freshId env (S (AppJsx.nIds w))) w2)
  end.
  destruct (AppJsx_streaming env txt hist (AppJsx.freshId env (S (AppJsx.nIds w))) w2)
    as (n3 & msgs3 & Hs3 & Hreq).
  rewrite Hs3. clear Hs3.
  cbv beta iota. unfold sessionNameOf. fold txt.
  set (acc := accumulatedText _).
  subst w2. world_proj_app. rewrite Hstore.
  destruct (length (AppJsx.messages closure) =? 0); cbv beta iota;
    (destruct acc as [|a acc];
     [rewrite AppJsx_saveMessage_empty
     |rewrite (AppJsx_saveMessage_ok env closure SenderBot (a :: acc) sid _
                 Hsid Hdb Huid Hs eq_refl (Hstore _))]);
    world_proj_app; cbn [nonEmpty];
    repeat split; try assumption; try (now rewrite <- app_assoc);
    try (now rewrite app_nil_r).
Qed.

Lemma AppJsx_fetchReply_nonEmpty r full :
  AppJsx.fetchReply r = Normal full -> nonEmpty full = true.
Proof.
  unfold AppJsx.fetchReply. destruct r as [response|e]; [|discriminate].
  destruct (negb (ok response)).
  - destruct (json response); discriminate.
  - destruct (json response) as [data|e]; [|discriminate].
    intros H. injection H as <-.
    destruct (bodyText data) as [[|c t]|]; reflexivity.
Qed.

(** X16. src/src/App.jsx, [handleSend]: with a text to send, a session, and
    a store that accepts every write, a reply [full] of the completion
    service is stored whole after the question, both under the current
    session; the call resolves, one request is sent, the busy flag is
    cleared and no error is shown.  Whether a reply is still being produced
    plays no part: the busy flag of the render is not looked at. *)
Theorem X16_appjsx_send_stores_question_and_reply env closure transcript w sid full :
  canSendApp closure transcript sid ->
  (forall k, AppJsx.storeError env k = None) ->
  AppJsx.fetchReply (fetchResult (AppJsx.netEnv env) (nFetch (AppJsx.net w))) = Normal full ->
  fst (AppJsx.handleSend env closure transcript w) = Normal tt
  /\ AppJsx.messagesColl (AppJsx.fs (snd (AppJsx.handleSend env closure transcript w)))
     = AppJsx.messagesColl (AppJsx.fs w)
       ++ [AppJsx.mkMessageDoc (AppJsx.freshId env (AppJsx.nIds w)) sid SenderUser
             (trim (orElse transcript (AppJsx.input closure)))
             (Some (AppJsx.serverTime env (AppJsx.nStore w)));
           AppJsx.mkMessageDoc (AppJsx.freshId env (S (S (AppJsx.nIds w)))) sid
             SenderBot full
             (Some (AppJsx.serverTime env
                      (if (length (AppJsx.messages closure) =? 0)%nat
                       then S (S (AppJsx.nStore w)) else S (AppJsx.nStore w))))]
  /\ length (requests (AppJsx.net (snd (AppJsx.handleSend env closure transcript w))))
     = S (length (requests (AppJsx.net w)))
  /\ AppJsx.isTyping (AppJsx.ui (snd (AppJsx.handleSend env closure transcript w))) = false
  /\ AppJsx.errorMessage (AppJsx.ui (snd (AppJsx.handleSend env closure transcript w)))
     = None.
Proof.
  intros Hcan Hstore Hf.
  destruct (AppJsx_handleSend_when_store_accepts env closure transcript w sid Hcan Hstore)
    as (H1 & H2 & _ & H4 & H5 & _ & H7).
  rewrite Hf in H2. cbn [accumulatedText] in H2.
  rewrite (AppJsx_fetchReply_nonEmpty _ _ Hf) in H2.
  split; [exact H1|]. split; [exact H2|]. split; [|split; assumption].
  rewrite H7, length_app. cbn [length]. lia.
Qed.

Lemma X16_witness :
  AppJsx.messagesColl
    (AppJsx.fs (snd (AppJsx.handleSend reliableStoreApp typedHelloApp None typedHelloWorldApp)))
  = [AppJsx.mkMessageDoc (lit "doc0") (lit "s1") SenderUser (lit "Hello") (Some 0%Z);
     AppJsx.mkMessageDoc (lit "doc2") (lit "s1") SenderBot (lit "Hi there!") (Some 2%Z)].
Proof.
  assert (Hcan : canSendApp typedHelloApp None (lit "s1")) by (repeat split).
  destruct (X16_appjsx_send_stores_question_and_reply reliableStoreApp typedHelloApp None
              typedHelloWorldApp (lit "s1") (lit "Hi there!") Hcan (fun _ => eq_refl)
              ltac:(vm_compute; reflexivity))
    as (_ & H2 & _).
  exact H2.
Defined.

(** X17. src/src/App.jsx, [handleSend]: when the completion service cannot
    be reached or answers with an error, the failure is silent: the call
    resolves, the question is the only message stored, no reply and no error
    text is written to the store, no error is shown and the busy flag is
    cleared. *)
Theorem X17_appjsx_failed_service_is_silent env closure transcript w sid e :
  canSendApp closure transcript sid ->
  (forall k, AppJsx.storeError env k = None) ->
  AppJsx.fetchReply (fetchResult (AppJsx.netEnv env) (nFetch (AppJsx.net w))) = Throw e ->
  fst (AppJsx.handleSend env closure transcript w) = Normal tt
  /\ AppJsx.messagesColl (AppJsx.fs (snd (AppJsx.handleSend env closure transcript w)))
     = AppJsx.messagesColl (AppJsx.fs w)
       ++ [AppJsx.mkMessageDoc (AppJsx.freshId env (AppJsx.nIds w)) sid SenderUser
             (trim (orElse transcript (AppJsx.input closure)))
             (Some (AppJsx.serverTime env (AppJsx.nStore w)))]
  /\ AppJsx.errorMessage (AppJsx.ui (snd (AppJsx.handleSend env closure transcript w)))
     = None
  /\ AppJsx.isTyping (AppJsx.ui (snd (AppJsx.handleSend env closure transcript w))) = false.
Proof.
  intros Hcan Hstore Hf.
  destruct (AppJsx_handleSend_when_store_accepts env closure transcript w sid Hcan Hstore)
    as (H1 & H2 & _ & H4 & H5 & _).
  rewrite Hf in H2. cbn [accumulatedText nonEmpty] in H2.
  repeat split; assumption.
Qed.

Lemma X17_witness :
  AppJsx.messagesColl
    (AppJsx.fs (snd (AppJsx.handleSend unreachableServiceApp typedHelloApp None
                       typedHelloWorldApp)))
  = [AppJsx.mkMessageDoc (lit "doc0") (lit "s1") SenderUser (lit "Hello") (Some 0%Z)]
  /\ AppJsx.errorMessage
       (AppJsx.ui (snd (AppJsx.handleSend unreachableServiceApp typedHelloApp None
                          typedHelloWorldApp)))
     = None.
Proof.
  assert (Hcan : canSendApp typedHelloApp None (lit "s1")) by (repeat split).
  destruct (X17_appjsx_failed_service_is_silent unreachableServiceApp typedHelloApp None
              typedHelloWorldApp (lit "s1") (mkError (lit "Failed to fetch")) Hcan
              (fun _ => eq_refl) eq_refl)
    as (_ & H2 & H3 & _).
  split; [exact H2 | exact H3].
Defined.

Lemma nameOf_mergeName sid t l m :
  nameOf (AppJsx.mkFirestore (AppJsx.mergeName sid t l) m) sid = Some (Some t).
Proof.
  unfold nameOf. cbn [AppJsx.sessionsColl].
  induction l as [|d l IH]; cbn [AppJsx.mergeName find AppJsx.sdId].
  - now rewrite eqId_refl.
  - destruct (eqId (AppJsx.sdId d) sid) eqn:E; cbn [find AppJsx.sdId].
    + now rewrite eqId_refl.
    + now rewrite E.
Qed.

(** X18. src/src/App.jsx, [handleSend]: a send from a render that shows no
    message names the session after the question: the stored name is the
    text itself when it has at most 30 code units, and otherwise its first 30
    code units followed by "...", so never more than 33; a send from a render
    that shows messages leaves the collection of sessions as it is. *)
Theorem X18_appjsx_first_message_names_the_session env closure transcript w sid :
  canSendApp closure transcript sid ->
  (forall k, AppJsx.storeError env k = None) ->
  (AppJsx.messages closure = [] ->
   nameOf (AppJsx.fs (snd (AppJsx.handleSend env closure transcript w))) sid
   = Some (Some (sessionNameOf (trim (orElse transcript (AppJsx.input closure)))))
   /\ length (sessionNameOf (trim (orElse transcript (AppJsx.input closure)))) <= 33
   /\ (length (trim (orElse transcript (AppJsx.input closure))) <= 30 ->
       sessionNameOf (trim (orElse transcript (AppJsx.input closure)))
       = trim (orElse transcript (AppJsx.input closure))))
  /\ (AppJsx.messages closure <> [] ->
      AppJsx.sessionsColl (AppJsx.fs (snd (AppJsx.handleSend env closure transcript w)))
      = AppJsx.sessionsColl (AppJsx.fs w)).
Proof.
  intros Hcan Hstore.
  destruct (AppJsx_handleSend_when_store_accepts env closure transcript w sid Hcan Hstore)
    as (_ & _ & H3 & _).
  set (txt := trim (orElse transcript (AppJsx.input closure))) in *.
  split.
  - intros Hm. rewrite Hm in H3. cbn [length Nat.eqb] in H3.
    destruct (AppJsx.fs (snd (AppJsx.handleSend env closure transcript w))) as [sc mc].
    cbn [AppJsx.sessionsColl] in H3. subst sc.
    split; [apply nameOf_mergeName|]. unfold sessionNameOf. split.
    + rewrite length_app, length_firstn.
      destruct (30 <? length txt); cbn [length lit]; [|lia].
      change (length (lit "...")) with 3. lia.
    + intros Hle. destruct (Nat.ltb_spec 30 (length txt)); [lia|].
      rewrite app_nil_r. apply firstn_all2. lia.
  - intros Hm. destruct (AppJsx.messages closure) as [|m ms]; [congruence|].
    exact H3.
Qed.

Lemma X18_witness :
  nameOf (AppJsx.fs (snd (AppJsx.handleSend reliableStoreApp typedHelloApp None
                            typedHelloWorldApp))) (lit "s1")
  = Some (Some (lit "Hello")).
Proof.
  assert (Hcan : canSendApp typedHelloApp None (lit "s1")) by (repeat split).
  destruct (X18_appjsx_first_message_names_the_session reliableStoreApp typedHelloApp None
              typedHelloWorldApp (lit "s1") Hcan (fun _ => eq_refl)) as (H & _).
  destruct (H eq_refl) as (H1 & _). rewrite H1. vm_compute. reflexivity.
Defined.

(** A send from a render without a session. *)
Lemma AppJsx_saveMessage_no_session env closure who txt w :
  AppJsx.currentSessionId closure = None ->
  AppJsx.saveMessage env closure who txt w = w.
Proof. intros H. unfold AppJsx.saveMessage. now rewrite H. Qed.

(** X19. src/src/App.jsx, [handleSend]: with a text to send but no session
    selected, the completion service is asked all the same (one request is
    sent), nothing is written to the store, and the call rejects with the
    error of the document reference; the busy flag is cleared. *)
Theorem X19_appjsx_send_without_session env closure transcript w :
  nonEmpty (trim (orElse transcript (AppJsx.input closure))) = true ->
  AppJsx.currentSessionId closure = None ->
  fst (AppJsx.handleSend env closure transcript w) = Throw (mkError (AppJsx.refError env))
  /\ AppJsx.fs (snd (AppJsx.handleSend env closure transcript w)) = AppJsx.fs w
  /\ requests (AppJsx.net (snd (AppJsx.handleSend env closure transcript w)))
     = requests (AppJsx.net w)
       ++ [AppJsx.payload (trim (orElse transcript (AppJsx.input closure)))
             (map (fun msg => AppJsx.mkHistoryItem (AppJsx.sender msg) (AppJsx.text msg))
                  (AppJsx.messages closure))]
  /\ AppJsx.isTyping (AppJsx.ui (snd (AppJsx.handleSend env closure transcript w))) = false.
Proof.
  intros Htxt Hsid.
  unfold AppJsx.handleSend. rewrite Htxt. cbn [negb]. cbv zeta.
  set (txt := trim (orElse transcript (AppJsx.input closure))) in *.
  rewrite Hsid. rewrite (AppJsx_saveMessage_no_session env closure _ _ _ Hsid).
  set (hist := map _ (AppJsx.messages closure)).
  set (w2 := AppJsx.setMessages (fun prev => _) _).
  match goal with
  | |- context [match ?X with _ => _ end] =>
      change X with (streamingApp env txt hist (AppJsx.freshId env (AppJsx.nIds w)) w2)
  end.
  destruct (AppJsx_streaming env txt hist (AppJsx.freshId env (AppJsx.nIds w)) w2)
    as (n3 & msgs3 & Hs3 & Hreq).
  rewrite Hs3. clear Hs3. cbv beta iota. subst w2. world_proj_app.
  repeat split. exact Hreq.
Qed.

Lemma X19_witness :
  fst (AppJsx.handleSend reliableStoreApp signedInApp (Some (lit "Hello")) emptyWorldApp)
  = Throw (mkError (lit "invalid document reference"))
  /\ length (requests (AppJsx.net (snd (AppJsx.handleSend reliableStoreApp signedInApp
                                          (Some (lit "Hello")) emptyWorldApp)))) = 1.
Proof.
  destruct (X19_appjsx_send_without_session reliableStoreApp signedInApp (Some (lit "Hello"))
              emptyWorldApp eq_refl eq_refl) as (H1 & _ & H3 & _).
  split; [exact H1 | rewrite H3; reflexivity].
Defined.

(** ** [deleteSession] of src/index.js: what is kept *)

Lemma NoDup_map_injective {A B} (f : A -> B) (l : list A) (a b : A) :
  NoDup (map f l) -> In a l -> In b l -> f a = f b -> a = b.
Proof.
  induction l as [|x l IH]; intros Hnd Ha Hb Hf; [contradiction|].
  cbn [map] in Hnd. inversion Hnd as [|? ? Hnotin Hnd']. subst.
  destruct Ha as [->|Ha], Hb as [->|Hb]; try reflexivity.
  - exfalso. apply Hnotin. rewrite Hf. now apply in_map.
  - exfalso. apply Hnotin. rewrite <- Hf. now apply in_map.
  - now apply IH.
Qed.

(** With unique document identifiers the batch removes the messages of the
    session and no others. *)
Lemma applyBatch_deleteSession_exact (id : Id) (f : IndexJs.Firestore) :
  NoDup (map IndexJs.mdId (IndexJs.messagesColl f)) ->
  IndexJs.applyBatch
    (map (fun d => IndexJs.MessageRef (IndexJs.mdId d))
         (filter (fun d => eqId (IndexJs.mdSessionId d) id) (IndexJs.messagesColl f))
     ++ [IndexJs.SessionRef id]) f
  = IndexJs.mkFirestore
      (filter (fun d => negb (eqId (IndexJs.sdId d) id)) (IndexJs.sessionsColl f))
      (filter (fun d => negb (eqId (IndexJs.mdSessionId d) id)) (IndexJs.messagesColl f)).
Proof.
  intros Hnd. unfold IndexJs.applyBatch. rewrite fold_left_app. cbn [fold_left].
  destruct (applyBatch_messages
              (filter (fun d => eqId (IndexJs.mdSessionId d) id) (IndexJs.messagesColl f)) f)
    as [Hs Hm].
  unfold IndexJs.applyBatch in Hs, Hm.
  set (F := fold_left _ _ f) in *. cbn [IndexJs.batchDelete].
  rewrite Hs, Hm. f_equal.
  apply filter_ext_in. intros d Hd. f_equal.
  destruct (eqId (IndexJs.mdSessionId d) id) eqn:E.
  - apply existsb_exists. exists d. split.
    + apply filter_In. now split.
    + apply eqId_refl.
  - destruct (existsb _ _) eqn:Ex; [|reflexivity].
    apply existsb_exists in Ex. destruct Ex as (x & Hx & Hid).
    apply filter_In in Hx. destruct Hx as [Hx Hsx].
    apply eqId_true in Hid.
    assert (d = x) by (eapply NoDup_map_injective; eauto).
    subst x. congruence.
Qed.

(** X20. src/index.js, [deleteSession]: when the read and the commit
    succeed and document identifiers are unique, the store afterwards is the
    old one without the session and without its messages, every other
    session and message is kept in place, and no error is reported.  If the
    deleted session was the selected one of the render, the selection moves
    to another session of the render or to none; otherwise the visible state
    is untouched. *)
Theorem X20_indexjs_delete_keeps_other_sessions env closure id w :
  IndexJs.db closure = true -> truthy (IndexJs.userId closure) = true ->
  IndexJs.storeError env (IndexJs.nStore w) = None ->
  IndexJs.storeError env (IndexJs.nStore w + 1) = None ->
  NoDup (map IndexJs.mdId (IndexJs.messagesColl (IndexJs.fs w))) ->
  IndexJs.fs (IndexJs.deleteSession env closure id w)
  = IndexJs.mkFirestore
      (filter (fun d => negb (eqId (IndexJs.sdId d) id))
              (IndexJs.sessionsColl (IndexJs.fs w)))
      (filter (fun d => negb (eqId (IndexJs.mdSessionId d) id))
              (IndexJs.messagesColl (IndexJs.fs w)))
  /\ IndexJs.error (IndexJs.ui (IndexJs.deleteSession env closure id w))
     = IndexJs.error (IndexJs.ui w)
  /\ (IndexJs.currentSessionId closure = Some id ->
      IndexJs.currentSessionId (IndexJs.ui (IndexJs.deleteSession env closure id w))
      <> Some id)
  /\ (IndexJs.currentSessionId closure <> Some id ->
      IndexJs.ui (IndexJs.deleteSession env closure id w) = IndexJs.ui w).
Proof.
  intros Hdb Huid Hr Hc Hnd. unfold IndexJs.deleteSession.
  rewrite Hdb, Huid. cbn [negb orb].
  rewrite (backoff_first_success _ _ tt)
    by (now rewrite Nat.add_0_r, Hr).
  cbn [outcome invocations delays length]. cbv zeta.
  world_proj. rewrite Hc.
  rewrite applyBatch_deleteSession_exact by exact Hnd.
  assert (Hcur : eqOptId (Some id) (IndexJs.currentSessionId closure) = true
                 <-> IndexJs.currentSessionId closure = Some id).
  { destruct (IndexJs.currentSessionId closure) as [c|]; cbn [eqOptId].
    - rewrite eqId_true. split; congruence.
    - split; discriminate. }
  destruct (eqOptId (Some id) (IndexJs.currentSessionId closure)) eqn:E.
  - destruct (filter _ (IndexJs.sessions closure)) as [|s rest] eqn:Hrem; world_proj.
    + split; [reflexivity|]. split; [reflexivity|]. split; [discriminate|].
      intros Hne. exfalso. apply Hne. now apply Hcur.
    + split; [reflexivity|]. split; [reflexivity|]. split.
      * intros _ Heq. injection Heq as Heq.
        assert (Hin : In s (filter (fun s => negb (eqId (IndexJs.sessId s) id))
                                   (IndexJs.sessions closure)))
          by (rewrite Hrem; now left).
        apply filter_In in Hin. destruct Hin as [_ Hin].
        rewrite Heq, eqId_refl in Hin. discriminate.
      * intros Hne. exfalso. apply Hne. now apply Hcur.
  - world_proj. split; [reflexivity|]. split; [reflexivity|]. split.
    + intros Heq. apply Hcur in Heq. discriminate.
    + intros _. reflexivity.
Qed.

Lemma X20_witness :
  IndexJs.messagesColl (IndexJs.fs (IndexJs.deleteSession reliableStore signedIn (lit "s1")
                                      sampleWorld))
  = [IndexJs.mkMessageDoc (lit "m2") (lit "s2") SenderUser (lit "Hey") (Some 21%Z)].
Proof.
  destruct (X20_indexjs_delete_keeps_other_sessions reliableStore signedIn (lit "s1")
              sampleWorld eq_refl eq_refl eq_refl eq_refl) as (H & _).
  - vm_compute. repeat constructor; cbn; intuition discriminate.
  - rewrite H. reflexivity.
Defined.

(** ** [deleteSession] of src/src/App.jsx *)

Lemma AppJsx_applyBatch_messages sid (l : list AppJsx.MessageDoc) (f : AppJsx.Firestore) :
  AppJsx.sessionsColl
    (AppJsxSessions.applyBatch
       (map (fun d => AppJsxSessions.MessageRef sid (AppJsx.mdId d)) l) f)
  = AppJsx.sessionsColl f
  /\ AppJsx.messagesColl
       (AppJsxSessions.applyBatch
          (map (fun d => AppJsxSessions.MessageRef sid (AppJsx.mdId d)) l) f)
     = filter (fun d => negb (eqId (AppJsx.mdSessionId d) sid
                              && existsb (fun x => eqId (AppJsx.mdId d) (AppJsx.mdId x)) l))
              (AppJsx.messagesColl f).
Proof.
  unfold AppJsxSessions.applyBatch. revert f.
  induction l as [|x l IH]; intros f.
  - cbn [map fold_left existsb]. split; [reflexivity|]. symmetry.
    apply filter_all. intros d _. now rewrite andb_false_r.
  - cbn [map fold_left].
    destruct (IH (AppJsxSessions.batchDelete f
                    (AppJsxSessions.MessageRef sid (AppJsx.mdId x)))) as [Hs Hm].
    rewrite Hs, Hm. cbn [AppJsxSessions.batchDelete AppJsx.sessionsColl AppJsx.messagesColl].
    split; [reflexivity|].
    induction (AppJsx.messagesColl f) as [|d ds IHd]; [reflexivity|].
    cbn [filter existsb].
    destruct (eqId (AppJsx.mdSessionId d) sid) eqn:E1;
      destruct (eqId (AppJsx.mdId d) (AppJsx.mdId x)) eqn:E2;
      cbn [andb negb orb filter]; rewrite ?E1, ?E2; cbn [andb negb orb];
      rewrite ?IHd; reflexivity.
Qed.

(** The batch that [deleteSession] commits removes the session and exactly
    its messages. *)
Lemma AppJsx_applyBatch_deleteSession (id : Id) (f : AppJsx.Firestore) :
  AppJsxSessions.applyBatch
    (map (fun d => AppJsxSessions.MessageRef id (AppJsx.mdId d))
         (filter (fun d => eqId (AppJsx.mdSessionId d) id) (AppJsx.messagesColl f))
     ++ [AppJsxSessions.SessionRef id]) f
  = AppJsx.mkFirestore
      (filter (fun d => negb (eqId (AppJsx.sdId d) id)) (AppJsx.sessionsColl f))
      (filter (fun d => negb (eqId (AppJsx.mdSessionId d) id)) (AppJsx.messagesColl f)).
Proof.
  unfold AppJsxSessions.applyBatch. rewrite fold_left_app. cbn [fold_left].
  destruct (AppJsx_applyBatch_messages id
              (filter (fun d => eqId (AppJsx.mdSessionId d) id) (AppJsx.messagesColl f)) f)
    as [Hs Hm].
  unfold AppJsxSessions.applyBatch in Hs, Hm.
  set (F := fold_left _ _ f) in *. cbn [AppJsxSessions.batchDelete].
  rewrite Hs, Hm. f_equal.
  apply filter_ext_in. intros d Hd. f_equal.
  destruct (eqId (AppJsx.mdSessionId d) id) eqn:E; [|reflexivity].
  cbn [andb]. apply existsb_exists. exists d. split.
  - apply filter_In. now split.
  - apply eqId_refl.
Qed.

(** X21. src/src/App.jsx, [deleteSession]: when the user does not confirm,
    nothing at all happens.  When the user confirms and the read and the
    commit succeed, the store afterwards is the old one without the session
    and without its messages, everything else kept in place.  When the read
    or the commit fails, the store is unchanged and the error text "Failed to
    delete the chat session." is shown. *)
Theorem X21_appjsx_delete_session env closure id w :
  AppJsx.db closure = true -> truthy (AppJsx.userId closure) = true ->
  truthy (Some id) = true ->
  AppJsxSessions.deleteSession env closure false id w = w
  /\ (AppJsx.storeError env (AppJsx.nStore w) = None ->
      AppJsx.storeError env (S (AppJsx.nStore w)) = None ->
      AppJsx.fs (AppJsxSessions.deleteSession env closure true id w)
      = AppJsx.mkFirestore
          (filter (fun d => negb (eqId (AppJsx.sdId d) id))
                  (AppJsx.sessionsColl (AppJsx.fs w)))
          (filter (fun d => negb (eqId (AppJsx.mdSessionId d) id))
                  (AppJsx.messagesColl (AppJsx.fs w)))
      /\ AppJsx.errorMessage (AppJsx.ui (AppJsxSessions.deleteSession env closure true id w))
         = AppJsx.errorMessage (AppJsx.ui w))
  /\ (AppJsx.storeError env (AppJsx.nStore w) <> None
      \/ AppJsx.storeError env (S (AppJsx.nStore w)) <> None ->
      AppJsx.fs (AppJsxSessions.deleteSession env closure true id w) = AppJsx.fs w
      /\ AppJsx.errorMessage (AppJsx.ui (AppJsxSessions.deleteSession env closure true id w))
         = Some (lit "Failed to delete the chat session.")).
Proof.
  intros Hdb Huid Hid. unfold AppJsxSessions.deleteSession.
  assert (Hid' : negb (truthy (@Some Id id)) = false) by exact (f_equal negb Hid).
  rewrite Hdb, Huid, Hid'. cbn [negb orb]. cbv zeta.
  split; [reflexivity|]. split.
  - intros H0 H1. rewrite H0. world_proj_app. rewrite H1.
    rewrite AppJsx_applyBatch_deleteSession.
    destruct (eqOptId _ _); [destruct (filter _ (AppJsx.sessions closure))|];
      split; reflexivity.
  - intros Hfail.
    destruct (AppJsx.storeError env (AppJsx.nStore w)) as [m|] eqn:H0;
      [split; reflexivity|].
    world_proj_app.
    destruct (AppJsx.storeError env (S (AppJsx.nStore w))) as [m|] eqn:H1;
      [split; reflexivity|].
    destruct Hfail as [Hf|Hf]; congruence.
Qed.

Lemma X21_witness :
  AppJsxSessions.deleteSession reliableStoreApp typedHelloApp false (lit "s1")
                               typedHelloWorldApp
  = typedHelloWorldApp
  /\ AppJsx.fs (AppJsxSessions.deleteSession reliableStoreApp typedHelloApp true (lit "s1")
                                            typedHelloWorldApp)
     = AppJsx.mkFirestore [] [].
Proof.
  destruct (X21_appjsx_delete_session reliableStoreApp typedHelloApp (lit "s1")
              typedHelloWorldApp eq_refl eq_refl eq_refl) as (H1 & H2 & _).
  split; [exact H1|]. destruct (H2 eq_refl eq_refl) as (H & _). exact H.
Defined.

(** X22. src/src/App.jsx, [deleteSession] and the sessions listener:
    deleting the only session creates more than one.  [deleteSession] empties
    the collection, clears the selection and schedules [createSession] after
    100 ms; the sessions listener, once it is handed the empty collection,
    schedules [createSession] as well, after 0 ms.  Neither timer is ever
    cancelled, so once both have run, the store accepting every write, the
    collection holds two fresh sessions, in whichever order the timers fire.
    Each is named from the number of sessions of the render that scheduled
    it: when both renders showed the one session, both new sessions are
    called "Chat 2". *)
Theorem X22_appjsx_deleting_the_last_session_creates_two env closure listener id w :
  AppJsx.db closure = true -> truthy (AppJsx.userId closure) = true ->
  truthy (Some id) = true ->
  (forall k, AppJsx.storeError env k = None) ->
  AppJsx.currentSessionId closure = Some id ->
  (forall s, In s (AppJsx.sessions closure) -> AppJsx.sessId s = id) ->
  (forall d, In d (AppJsx.sessionsColl (AppJsx.fs w)) -> AppJsx.sdId d = id) ->
  AppJsx.timers w = [] ->
  AppJsx.isAuthReady listener = true -> AppJsx.db listener = true ->
  truthy (AppJsx.userId listener) = true ->
  AppJsx.sessionsColl (AppJsx.fs (AppJsxSessions.deleteSession env closure true id w)) = []
  /\ AppJsx.currentSessionId (AppJsx.ui (AppJsxSessions.deleteSession env closure true id w))
     = None
  /\ AppJsx.timers (AppJsxSessions.deleteSession env closure true id w)
     = [AppJsx.CreateSession 100 closure]
  /\ AppJsx.timers (deletedAndObserved env closure listener id w)
     = [AppJsx.CreateSession 100 closure; AppJsx.CreateSession 0 listener]
  /\ AppJsx.sessionsColl
       (AppJsx.fs (AppJsx.runTimers env (deletedAndObserved env closure listener id w)))
     = [AppJsx.mkSessionDoc (AppJsx.freshId env (AppJsx.nIds w))
          (Some (lit "Chat " ++ numToString (length (AppJsx.sessions closure) + 1)))
          (Some (AppJsx.serverTime env (S (S (AppJsx.nStore w)))));
        AppJsx.mkSessionDoc (AppJsx.freshId env (S (AppJsx.nIds w)))
          (Some (lit "Chat " ++ numToString (length (AppJsx.sessions listener) + 1)))
          (Some (AppJsx.serverTime env (S (S (S (AppJsx.nStore w))))))]
  /\ AppJsx.sessionsColl
       (AppJsx.fs (AppJsx.runTimers env
                     (withTimersApp (deletedAndObserved env closure listener id w)
                        [AppJsx.CreateSession 0 listener; AppJsx.CreateSession 100 closure])))
     = [AppJsx.mkSessionDoc (AppJsx.freshId env (AppJsx.nIds w))
          (Some (lit "Chat " ++ numToString (length (AppJsx.sessions listener) + 1)))
          (Some (AppJsx.serverTime env (S (S (AppJsx.nStore w)))));
        AppJsx.mkSessionDoc (AppJsx.freshId env (S (AppJsx.nIds w)))
          (Some (lit "Chat " ++ numToString (length (AppJsx.sessions closure) + 1)))
          (Some (AppJsx.serverTime env (S (S (S (AppJsx.nStore w))))))].
Proof.
  intros Hdb Huid Hid Hstore Hcur Honly Hstoreonly Htm Hauth Hdbl Huidl.
  assert (Hid' : negb (truthy (@Some Id id)) = false) by exact (f_equal negb Hid).
  assert (Hrem : filter (fun s => negb (eqId (AppJsx.sessId s) id)) (AppJsx.sessions closure)
                 = []).
  { apply filter_none. intros s Hs. rewrite (Honly s Hs), eqId_refl. reflexivity. }
  assert (Hgone : filter (fun d => negb (eqId (AppJsx.sdId d) id))
                         (AppJsx.sessionsColl (AppJsx.fs w)) = []).
  { apply filter_none. intros d Hd. rewrite (Hstoreonly d Hd), eqId_refl. reflexivity. }
  unfold deletedAndObserved, withTimersApp, AppJsxSessions.deleteSession.
  rewrite Hdb, Huid, Hid', !Hstore, Hcur, Hrem. cbn [negb orb eqOptId]. cbv zeta.
  rewrite eqId_refl. rewrite AppJsx_applyBatch_deleteSession.
  unfold AppJsx.addTimer. world_proj_app. rewrite Hgone.
  unfold AppJsx.sessionsEffect. rewrite Hauth, Hdbl, Huidl. cbn [negb orb].
  unfold AppJsx.onSessionsSnapshot, AppJsx.runTimers, AppJsx.addTimer.
  world_proj_app. cbn [map]. unfold AppJsx.addTimer. world_proj_app. rewrite Htm.
  cbn [app fold_left AppJsx.runTimer].
  unfold AppJsx.createSession. rewrite Hdb, Huid, Hdbl, Huidl, !Hstore. cbn [negb orb].
  world_proj_app. rewrite ?Hstore. world_proj_app.
  repeat split.
Qed.

Lemma X22_witness :
  AppJsx.sessionsColl
    (AppJsx.fs (AppJsx.runTimers reliableStoreApp
                  (deletedAndObserved reliableStoreApp typedHelloApp typedHelloApp (lit "s1")
                                      typedHelloWorldApp)))
  = [AppJsx.mkSessionDoc (lit "doc0") (Some (lit "Chat 2")) (Some 2%Z);
     AppJsx.mkSessionDoc (lit "doc1") (Some (lit "Chat 2")) (Some 3%Z)].
Proof.
  assert (Honly : forall s, In s (AppJsx.sessions typedHelloApp) ->
                            AppJsx.sessId s = lit "s1")
    by (intros s [<-|[]]; reflexivity).
  assert (Hstoreonly : forall d, In d (AppJsx.sessionsColl (AppJsx.fs typedHelloWorldApp)) ->
                                 AppJsx.sdId d = lit "s1")
    by (intros d [<-|[]]; reflexivity).
  destruct (X22_appjsx_deleting_the_last_session_creates_two reliableStoreApp
              typedHelloApp typedHelloApp (lit "s1") typedHelloWorldApp eq_refl eq_refl eq_refl
              (fun _ => eq_refl) eq_refl Honly Hstoreonly eq_refl eq_refl eq_refl eq_refl)
    as (_ & _ & _ & _ & H & _).
  exact H.
Defined.

(** ** [handleSend] of src/unnamed/part_000 *)

Lemma Part000_next_yield_net env txt hist s w :
  fullResponse s <> None -> chunkIndex s < length (chunks s) ->
  Part000.next env txt hist s w =
  (Normal (mkIter (nth_error (chunks s) (chunkIndex s)) false),
   mkStream (fullResponse s) (chunks s) (S (chunkIndex s)), w).
Proof.
  intros Hf Hi. unfold Part000.next.
  destruct (fullResponse s) eqn:E; [|congruence].
  destruct (Nat.leb_spec (length (chunks s)) (chunkIndex s)); [lia|].
  now rewrite E.
Qed.

Lemma Part000App_forAwait_exact env txt hist tmp :
  forall n fuel acc s w,
    fullResponse s <> None ->
    chunkIndex s + n = length (chunks s) -> n < fuel ->
    exists s' msgs',
      Part000App.forAwait env fuel txt hist tmp acc s w
      = (Normal (acc ++ concat (skipn (chunkIndex s) (chunks s))), s',
         withNetMessagesApp w (AppJsx.net w) msgs').
Proof.
  induction n as [|n IH]; intros fuel acc s w Hfull Hn Hfuel;
    (destruct fuel as [|fuel]; [lia|]); cbn [Part000App.forAwait].
  - rewrite Part000_next_done by (assumption || lia). cbn [done].
    rewrite skipn_all2 by lia. cbn [concat]. rewrite app_nil_r.
    exists s, (AppJsx.messages (AppJsx.ui w)). f_equal.
    destruct w as [nt f ns ni u tm]. now destruct u.
  - rewrite Part000_next_yield_net by (assumption || lia). cbn [done value].
    destruct (nth_error (chunks s) (chunkIndex s)) as [c|] eqn:Hc.
    2:{ apply nth_error_None in Hc. lia. }
    match goal with
    | |- context [Part000App.forAwait env fuel txt hist tmp ?a ?s1 ?w1] =>
        destruct (IH fuel a s1 w1) as (s' & msgs' & Hloop);
          try (cbn [fullResponse chunks chunkIndex]; (assumption || lia))
    end.
    rewrite Hloop. exists s', msgs'.
    cbn [fullResponse chunks chunkIndex textOf].
    rewrite (skipn_nth_error _ _ _ Hc). cbn [concat].
    rewrite <- !app_assoc. reflexivity.
Qed.

(** The streaming part of [handleSend]: one request is sent; the loop ends
    with the whole reply, or it is left with the error of the fetch. *)
Lemma Part000App_streaming env txt hist tmp w2 :
  exists n3 msgs3,
    streamingPart000 env txt hist tmp w2
    = (Part000.fetchReply (fetchResult (AppJsx.netEnv env) (nFetch (AppJsx.net w2))),
       withNetMessagesApp w2 n3 msgs3)
    /\ requests n3 = requests (AppJsx.net w2) ++ [Part000.payload txt hist].
Proof.
  unfold streamingPart000.
  destruct (Part000.fetchReply (fetchResult (AppJsx.netEnv env) (nFetch (AppJsx.net w2))))
    as [full|e] eqn:Hf.
  - rewrite (Part000_next_first _ _ _ _ full Hf).
    destruct (chunksOf full) as [|c cs] eqn:Hch.
    + rewrite Part000_next_done by (cbn; (discriminate || lia)).
      cbn [done].
      assert (Hfull : full = []).
      { rewrite <- (chunksOf_concat full), Hch. reflexivity. }
      rewrite Hfull. eexists _, _. split.
      * f_equal. apply AppJsx_setNet_eta.
      * reflexivity.
    + rewrite Part000_next_yield_net by (cbn; (discriminate || lia)).
      cbn [done value fullResponse chunks chunkIndex nth_error]. cbv zeta.
      match goal with
      | |- context [Part000App.forAwait env ?fu txt hist tmp ?a ?s1 ?w1] =>
          destruct (Part000App_forAwait_exact env txt hist tmp (length cs) fu a s1 w1)
            as (s' & msgs' & Hloop);
            try (cbn [fullResponse chunks chunkIndex length]; (discriminate || lia))
      end.
      rewrite Hloop. cbn [fullResponse chunks chunkIndex textOf skipn].
      assert (Hfull : c ++ concat cs = full).
      { rewrite <- (chunksOf_concat full), Hch. reflexivity. }
      rewrite Hfull. eexists _, msgs'. split; [reflexivity|]. reflexivity.
  - unfold Part000.next. cbn [Part000.askAIStream fullResponse]. rewrite Hf.
    eexists _, _. split.
    + f_equal. apply AppJsx_setNet_eta.
    + reflexivity.
Qed.

Lemma Part000App_saveMessage_ok env closure who txt sid w :
  AppJsx.currentSessionId closure = Some sid -> AppJsx.db closure = true ->
  truthy (AppJsx.userId closure) = true -> truthy (Some sid) = true ->
  AppJsx.storeError env (AppJsx.nStore w) = None ->
  Part000App.saveMessage env closure who txt w
  = (Normal tt,
     AppJsx.tickIds (AppJsx.tickStore
      (AppJsx.setFs
         (AppJsx.mkFirestore (AppJsx.sessionsColl (AppJsx.fs w))
            (AppJsx.messagesColl (AppJsx.fs w)
             ++ [AppJsx.mkMessageDoc (AppJsx.freshId env (AppJsx.nIds w)) sid who txt
                   (Some (AppJsx.serverTime env (AppJsx.nStore w)))])) w))).
Proof.
  intros Hsid Hdb Huid Hs Hok. unfold Part000App.saveMessage.
  rewrite Hsid, Hdb, Huid, Hs. cbn [negb orb]. now rewrite Hok.
Qed.

(** X23. src/unnamed/part_000, [handleSend]: with a text to send, a session
    and a store that accepts every write, the call resolves, one request is
    sent, and exactly two messages are stored under the session: the question
    and then the reply.  The stored reply is the whole text of the service
    when the fetch succeeds, and the text "Error generating response." when
    the fetch or the decoding of its body fails.  The busy flag is cleared. *)
Theorem X23_part000_send_stores_reply_or_apology env closure manualText w sid :
  canSendPart000 closure manualText sid ->
  (forall k, AppJsx.storeError env k = None) ->
  fst (Part000App.handleSend env closure manualText w) = Normal tt
  /\ AppJsx.messagesColl (AppJsx.fs (snd (Part000App.handleSend env closure manualText w)))
     = AppJsx.messagesColl (AppJsx.fs w)
       ++ [AppJsx.mkMessageDoc (AppJsx.freshId env (AppJsx.nIds w)) sid SenderUser
             (orElse manualText (trim (AppJsx.input closure)))
             (Some (AppJsx.serverTime env (AppJsx.nStore w)));
           AppJsx.mkMessageDoc (AppJsx.freshId env (S (S (AppJsx.nIds w)))) sid SenderBot
             (replyOrApology
                (Part000.fetchReply
                   (fetchResult (AppJsx.netEnv env) (nFetch (AppJsx.net w)))))
             (Some (AppJsx.serverTime env (S (AppJsx.nStore w))))]
  /\ requests (AppJsx.net (snd (Part000App.handleSend env closure manualText w)))
     = requests (AppJsx.net w)
       ++ [Part000.payload (orElse manualText (trim (AppJsx.input closure)))
             (map (fun m => AppJsx.mkHistoryItem (AppJsx.sender m) (AppJsx.text m))
                  (AppJsx.messages closure))]
  /\ AppJsx.isTyping (AppJsx.ui (snd (Part000App.handleSend env closure manualText w)))
     = false.
Proof.
  intros (Htxt & Hsid & Hs & Huid & Hdb) Hstore.
  unfold Part000App.handleSend. rewrite Htxt. cbn [negb]. cbv zeta.
  set (txt := orElse manualText (trim (AppJsx.input closure))) in *.
  rewrite (Part000App_saveMessage_ok env closure SenderUser txt sid _ Hsid Hdb Huid Hs
             (Hstore _)).
  set (hist := map _ (AppJsx.messages closure)).
  world_proj_app.
  set (w2 := AppJsx.setMessages (fun prev => _) _).
  match goal with
  | |- context [match ?X with _ => _ end] =>
      change X with (streamingPart000 env txt hist (AppJsx.freshId env (S (AppJsx.nIds w))) w2)
  end.
  destruct (Part000App_streaming env txt hist (AppJsx.freshId env (S (AppJsx.nIds w))) w2)
    as (n3 & msgs3 & Hs3 & Hreq).
  rewrite Hs3. clear Hs3. cbv beta iota.
  rewrite (Part000App_saveMessage_ok env closure SenderBot _ sid _ Hsid Hdb Huid Hs
             (Hstore _)).
  subst w2. world_proj_app.
  split; [reflexivity|]. split; [now rewrite <- app_assoc|]. split; [exact Hreq|reflexivity].
Qed.

Lemma X23_witness :
  AppJsx.messagesColl
    (AppJsx.fs (snd (Part000App.handleSend unreachableServiceApp typedHelloApp None
                       typedHelloWorldApp)))
  = [AppJsx.mkMessageDoc (lit "doc0") (lit "s1") SenderUser (lit "Hello") (Some 0%Z);
     AppJsx.mkMessageDoc (lit "doc2") (lit "s1") SenderBot
       (lit "Error generating response.") (Some 1%Z)].
Proof.
  assert (Hcan : canSendPart000 typedHelloApp None (lit "s1")) by (repeat split).
  destruct (X23_part000_send_stores_reply_or_apology unreachableServiceApp typedHelloApp None
              typedHelloWorldApp (lit "s1") Hcan (fun _ => eq_refl)) as (_ & H2 & _).
  exact H2.
Defined.

(** X24. src/unnamed/part_000, [handleSend]: when the store rejects the
    question, the call rejects with the error of the store; no request is
    sent to the completion service and nothing is stored, but the input field
    has been emptied and the busy flag stays set. *)
Theorem X24_part000_failed_question_write_rejects env closure manualText w sid m :
  canSendPart000 closure manualText sid ->
  AppJsx.storeError env (AppJsx.nStore w) = Some m ->
  fst (Part000App.handleSend env closure manualText w) = Throw (mkError m)
  /\ AppJsx.fs (snd (Part000App.handleSend env closure manualText w)) = AppJsx.fs w
  /\ AppJsx.net (snd (Part000App.handleSend env closure manualText w)) = AppJsx.net w
  /\ AppJsx.input (AppJsx.ui (snd (Part000App.handleSend env closure manualText w))) = []
  /\ AppJsx.isTyping (AppJsx.ui (snd (Part000App.handleSend env closure manualText w)))
     = true.
Proof.
  intros (Htxt & Hsid & Hs & Huid & Hdb) Hfail.
  unfold Part000App.handleSend. rewrite Htxt. cbn [negb]. cbv zeta.
  unfold Part000App.saveMessage. rewrite Hsid, Hdb, Huid, Hs. cbn [negb orb].
  world_proj_app. rewrite Hfail. world_proj_app. repeat split.
Qed.

Lemma X24_witness :
  fst (Part000App.handleSend firstWriteFailsApp typedHelloApp None typedHelloWorldApp)
  = Throw (mkError (lit "unavailable"))
  /\ AppJsx.isTyping
       (AppJsx.ui (snd (Part000App.handleSend firstWriteFailsApp typedHelloApp None
                          typedHelloWorldApp)))
     = true.
Proof.
  assert (Hcan : canSendPart000 typedHelloApp None (lit "s1")) by (repeat split).
  destruct (X24_part000_failed_question_write_rejects firstWriteFailsApp typedHelloApp None
              typedHelloWorldApp (lit "s1") (lit "unavailable") Hcan eq_refl)
    as (H1 & _ & _ & _ & H5).
  split; [exact H1 | exact H5].
Defined.

(** ** The exchange of messages on the server *)

Lemma ServerChat_askAI_with_key key fetched userText history :
  truthy key = true ->
  ServerChat.askAI key fetched userText history
  = (Normal (serverReply fetched), [ServerChat.payload userText history])
  /\ nonEmpty (serverReply fetched) = true.
Proof.
  intros Hk. unfold ServerChat.askAI, serverReply. rewrite Hk. cbn [negb]. split.
  - destruct fetched as [response|e]; [|reflexivity].
    destruct (ok response); cbn [negb]; [|reflexivity].
    destruct (json response); reflexivity.
  - destruct fetched as [response|e]; [|reflexivity].
    destruct (ok response); [|reflexivity].
    destruct (json response) as [data|e]; [|reflexivity].
    destruct (bodyText data) as [[|c t]|]; reflexivity.
Qed.

(** X25. src/src/App.jsx (server), [POST /api/chats/:id/messages]: with an
    API key, a non-empty text and a database on which the three statements
    succeed, the handler answers with the reply of [askAI]; that reply is
    never empty; the table of messages has gained exactly the question and
    then the reply, under the chat.  One request is sent to the completion
    service, and the question stands in it twice in a row: once as the last
    row of the history and once as the new turn. *)
Theorem X25_server_exchange key fetched sql chatId text d :
  truthy key = true -> nonEmpty text = true ->
  ServerChat.historyError sql = None -> ServerChat.userError sql = None ->
  ServerChat.botError sql = None ->
  answerOf (ServerChat.postMessageHandler key fetched sql chatId (Some text) d)
  = ServerChat.ExchangeComplete (Some (ServerChat.botRowid sql)) (serverReply fetched)
  /\ nonEmpty (serverReply fetched) = true
  /\ dbOf (ServerChat.postMessageHandler key fetched sql chatId (Some text) d)
     = ServerJs.mkDb (ServerJs.chats d)
         (ServerJs.messages d
          ++ [ServerJs.mkMessageRow (ServerChat.userRowid sql) chatId (lit "user") text
                (ServerChat.userTimestamp sql);
              ServerJs.mkMessageRow (ServerChat.botRowid sql) chatId (lit "bot")
                (serverReply fetched) (ServerChat.botTimestamp sql)])
  /\ sentBy (ServerChat.postMessageHandler key fetched sql chatId (Some text) d)
     = [mkRequest
          (ServerChat.formattedHistory
             (map (fun r => ServerChat.mkHistoryRow (ServerJs.sender r) (ServerJs.content r))
                  (ServerJs.sqlSelectMessages chatId d))
           ++ [mkTurn RoleUser text; mkTurn RoleUser text])
          ServerChat.SYSTEM_INSTRUCTION false].
Proof.
  intros Hk Ht Hh Hu Hb.
  destruct text as [|c text]; [discriminate|].
  unfold ServerChat.postMessageHandler. rewrite Hh, Hu. cbv zeta.
  destruct (ServerChat_askAI_with_key key fetched (c :: text)
              (map (fun r => ServerChat.mkHistoryRow (ServerJs.sender r) (ServerJs.content r))
                   (ServerJs.sqlSelectMessages chatId d)
               ++ [ServerChat.mkHistoryRow (lit "user") (c :: text)]) Hk) as [Hask Hne].
  rewrite Hask, Hb. unfold answerOf, dbOf, sentBy. cbn [fst snd ServerJs.chats ServerJs.messages].
  split; [reflexivity|]. split; [exact Hne|]. split.
  - now rewrite <- app_assoc.
  - unfold ServerChat.payload, ServerChat.formattedHistory.
    rewrite map_app, <- app_assoc. reflexivity.
Qed.

Lemma X25_witness :
  answerOf (ServerChat.postMessageHandler (Some (lit "key"))
              (Normal (okResponse (lit "Fine, thanks."))) sqlOk 1 (Some (lit "How are you?"))
              dbOneChat)
  = ServerChat.ExchangeComplete (Some 101%Z) (lit "Fine, thanks.")
  /\ sentBy (ServerChat.postMessageHandler (Some (lit "key"))
               (Normal (okResponse (lit "Fine, thanks."))) sqlOk 1 (Some (lit "How are you?"))
               dbOneChat)
     = [mkRequest [mkTurn RoleUser (lit "Hello"); mkTurn RoleModel (lit "Hi there!");
                   mkTurn RoleUser (lit "How are you?"); mkTurn RoleUser (lit "How are you?")]
                  ServerChat.SYSTEM_INSTRUCTION false].
Proof.
  destruct (X25_server_exchange (Some (lit "key")) (Normal (okResponse (lit "Fine, thanks.")))
              sqlOk 1 (lit "How are you?") dbOneChat eq_refl eq_refl eq_refl eq_refl eq_refl)
    as (H1 & _ & _ & H4).
  split; [exact H1 | exact H4].
Defined.

Lemma insertSorted_last {A} (cmp : A -> A -> Z) (x a : A) (m : list A) :
  (cmp x a <= 0)%Z -> insertSorted cmp x (m ++ [a]) = insertSorted cmp x m ++ [a].
Proof.
  intros Hx. induction m as [|y m IH]; cbn [app insertSorted].
  - destruct (Z.leb_spec (cmp x a) 0); [reflexivity|lia].
  - destruct (cmp x y <=? 0)%Z; [reflexivity|]. now rewrite IH.
Qed.

Lemma sortBy_last {A} (cmp : A -> A -> Z) (a : A) (l : list A) :
  (forall x, In x l -> (cmp x a <= 0)%Z) ->
  sortBy cmp (l ++ [a]) = sortBy cmp l ++ [a].
Proof.
  induction l as [|x l IH]; intros H; [reflexivity|].
  cbn [app sortBy]. rewrite IH by (intros y Hy; apply H; now right).
  apply insertSorted_last. apply H. now left.
Qed.

Section AscendingListings.
Variable A : Type.
Variable key : A -> Z.

Lemma StronglySorted_app_inv (l1 l2 : list A) :
  StronglySorted (fun a b => (key a <= key b)%Z) (l1 ++ l2) ->
  StronglySorted (fun a b => (key a <= key b)%Z) l1
  /\ forall x y, In x l1 -> In y l2 -> (key x <= key y)%Z.
Proof.
  induction l1 as [|x l1 IH]; cbn [app]; intros H.
  - split; [constructor|]. intros x y [].
  - inversion H as [|? ? Hs Hall]. subst. destruct (IH Hs) as [H1 H2].
    split.
    + constructor; [exact H1|]. rewrite Forall_forall in *.
      intros y Hy. apply Hall. apply in_or_app. now left.
    + intros x' y [<-|Hx'] Hy.
      * rewrite Forall_forall in Hall. apply Hall. apply in_or_app. now right.
      * now apply H2.
Qed.

(** In every ascending arrangement of a collection, a row that is strictly
    later than all the others stands last. *)
Lemma ascending_latest_is_last (listing l : list A) (a : A) :
  Sorted (fun x y => (key x <= key y)%Z) listing ->
  Permutation listing (l ++ [a]) ->
  (forall x, In x l -> (key x < key a)%Z) ->
  exists before,
    listing = before ++ [a] /\ Permutation before l
    /\ Sorted (fun x y => (key x <= key y)%Z) before.
Proof.
  intros Hsorted Hperm Hlate.
  assert (Htrans : Relations_1.Transitive (fun x y : A => (key x <= key y)%Z))
    by (intros x y z; lia).
  apply (Sorted_StronglySorted Htrans) in Hsorted.
  destruct listing as [|h t] using rev_ind.
  { apply Permutation_nil in Hperm. destruct l; discriminate. }
  rename h into z, t into before.
  destruct (StronglySorted_app_inv _ _ Hsorted) as [Hbefore Hle].
  assert (Hz : z = a).
  { assert (Hzin : In z (l ++ [a]))
      by (eapply Permutation_in; [exact Hperm | apply in_or_app; right; now left]).
    apply in_app_or in Hzin. destruct Hzin as [Hzl|[Hza|[]]]; [|now symmetry].
    assert (Hain : In a (before ++ [z]))
      by (eapply Permutation_in; [symmetry; exact Hperm | apply in_or_app; right; now left]).
    apply in_app_or in Hain. destruct Hain as [Hab|[Haz|[]]]; [|exact Haz].
    specialize (Hle a z Hab (or_introl eq_refl)). specialize (Hlate z Hzl). lia. }
  subst z. exists before. split; [reflexivity|]. split.
  - eapply Permutation_app_inv_r. exact Hperm.
  - now apply StronglySorted_Sorted.
Qed.
End AscendingListings.

(** X26. src/src/App.jsx (server): an exchange followed by the listing of
    the chat.  When the question gets a timestamp strictly after those of the
    rows the chat already has, and the reply one strictly after that of the
    question, [GET /api/chats/:id/messages] after the exchange shows what it
    showed before, followed by the question and the reply, in this order.
    This does not hang on how the database arranges rows with equal
    timestamps: every arrangement of the rows of the chat in non-decreasing
    order of timestamp ends with the question and then the reply, after an
    ascending arrangement of the rows the chat had before. *)
Theorem X26_server_exchange_then_list key fetched sql chatId text d :
  truthy key = true -> nonEmpty text = true ->
  ServerChat.historyError sql = None -> ServerChat.userError sql = None ->
  ServerChat.botError sql = None ->
  (forall r, In r (ServerJs.messages d) -> ServerJs.msg_chat_id r = chatId ->
             (ServerJs.timestamp r < ServerChat.userTimestamp sql)%Z) ->
  (ServerChat.userTimestamp sql < ServerChat.botTimestamp sql)%Z ->
  dataOf (ServerJs.getMessagesHandler None chatId
            (dbOf (ServerChat.postMessageHandler key fetched sql chatId (Some text) d)))
  = dataOf (ServerJs.getMessagesHandler None chatId d)
    ++ [ServerJs.mkMessageJson (ServerChat.userRowid sql) (lit "user") text;
        ServerJs.mkMessageJson (ServerChat.botRowid sql) (lit "bot") (serverReply fetched)]
  /\ forall listing,
       Permutation listing
         (filter (fun m => (ServerJs.msg_chat_id m =? chatId)%Z)
                 (ServerJs.messages
                    (dbOf (ServerChat.postMessageHandler key fetched sql chatId
                                                         (Some text) d)))) ->
       Sorted (fun a b => (ServerJs.timestamp a <= ServerJs.timestamp b)%Z) listing ->
       exists before,
         listing
         = before
           ++ [ServerJs.mkMessageRow (ServerChat.userRowid sql) chatId (lit "user") text
                 (ServerChat.userTimestamp sql);
               ServerJs.mkMessageRow (ServerChat.botRowid sql) chatId (lit "bot")
                 (serverReply fetched) (ServerChat.botTimestamp sql)]
         /\ Permutation before
              (filter (fun m => (ServerJs.msg_chat_id m =? chatId)%Z) (ServerJs.messages d))
         /\ Sorted (fun a b => (ServerJs.timestamp a <= ServerJs.timestamp b)%Z) before.
Proof.
  intros Hk Ht Hh Hu Hb Hold Hub.
  destruct text as [|c text]; [discriminate|].
  unfold ServerChat.postMessageHandler. rewrite Hh, Hu. cbv zeta.
  destruct (ServerChat_askAI_with_key key fetched (c :: text)
              (map (fun r => ServerChat.mkHistoryRow (ServerJs.sender r) (ServerJs.content r))
                   (ServerJs.sqlSelectMessages chatId d)
               ++ [ServerChat.mkHistoryRow (lit "user") (c :: text)]) Hk) as [Hask _].
  rewrite Hask, Hb. unfold dbOf. cbn [fst snd ServerJs.chats ServerJs.messages].
  rewrite !filter_app. cbn [filter ServerJs.msg_chat_id]. rewrite Z.eqb_refl.
  set (old := filter _ (ServerJs.messages d)).
  set (u := ServerJs.mkMessageRow (ServerChat.userRowid sql) _ _ _ _).
  set (b := ServerJs.mkMessageRow (ServerChat.botRowid sql) _ _ _ _).
  assert (Hin : forall r, In r old -> (ServerJs.timestamp r < ServerChat.userTimestamp sql)%Z).
  { intros r Hr. apply filter_In in Hr. destruct Hr as [Hr Hc].
    apply Hold; [exact Hr | now apply Z.eqb_eq]. }
  assert (Hlate : forall r, In r (old ++ [u]) ->
                            (ServerJs.timestamp r < ServerJs.timestamp b)%Z).
  { intros r Hr. apply in_app_or in Hr. destruct Hr as [Hr|[<-|[]]].
    - specialize (Hin r Hr). subst b. cbn. lia.
    - subst u b. cbn. lia. }
  split.
  - unfold ServerJs.getMessagesHandler, dataOf, ServerJs.sqlSelectMessages.
    cbn [ServerJs.body ServerJs.messages].
    rewrite !filter_app.
    replace (filter (fun m => (ServerJs.msg_chat_id m =? chatId)%Z) [u]) with [u]
      by (subst u; cbn [filter ServerJs.msg_chat_id]; now rewrite Z.eqb_refl).
    replace (filter (fun m => (ServerJs.msg_chat_id m =? chatId)%Z) [b]) with [b]
      by (subst b; cbn [filter ServerJs.msg_chat_id]; now rewrite Z.eqb_refl).
    fold old.
    rewrite sortBy_last by (intros r Hr; specialize (Hlate r Hr); lia).
    rewrite sortBy_last by (intros r Hr; specialize (Hin r Hr); subst u; cbn; lia).
    rewrite !map_app. cbn [map]. rewrite <- app_assoc. reflexivity.
  - intros listing Hperm Hsorted.
    destruct (ascending_latest_is_last _ ServerJs.timestamp listing (old ++ [u]) b
                Hsorted Hperm Hlate) as (l1 & -> & Hp1 & Hs1).
    destruct (ascending_latest_is_last _ ServerJs.timestamp l1 old u Hs1 Hp1)
      as (l0 & -> & Hp0 & Hs0).
    { intros r Hr. specialize (Hin r Hr). subst u. cbn. lia. }
    exists l0. rewrite <- app_assoc. split; [reflexivity|]. split; assumption.
Qed.

Lemma X26_witness :
  dataOf (ServerJs.getMessagesHandler None 1
            (dbOf (ServerChat.postMessageHandler (Some (lit "key"))
                     (Normal (okResponse (lit "Fine, thanks."))) sqlOk 1
                     (Some (lit "How are you?")) dbOneChat)))
  = [ServerJs.mkMessageJson 1 (lit "user") (lit "Hello");
     ServerJs.mkMessageJson 2 (lit "bot") (lit "Hi there!");
     ServerJs.mkMessageJson 100 (lit "user") (lit "How are you?");
     ServerJs.mkMessageJson 101 (lit "bot") (lit "Fine, thanks.")].
Proof.
  destruct (X26_server_exchange_then_list (Some (lit "key"))
              (Normal (okResponse (lit "Fine, thanks."))) sqlOk 1 (lit "How are you?")
              dbOneChat eq_refl eq_refl eq_refl eq_refl eq_refl) as (H & _).
  - intros r [<-|[<-|[]]] _; cbn; lia.
  - cbn. lia.
  - exact H.
Defined.

(** X27. src/src/App.jsx (server), [POST /api/chats/:id/messages], the ways
    out.  Without a text the answer is 400 "Missing message content"; when
    the history cannot be read it is 500, when the question cannot be stored
    it is 400; in these three cases the database is unchanged and the
    completion service is not asked.  Without an API key the question is
    stored but the completion service is not asked and the request is never
    answered.  When only the reply cannot be stored, the answer still carries
    the reply, without an identifier, and the table holds the question
    alone. *)
Theorem X27_server_exchange_ways_out key fetched sql chatId d :
  (forall content, truthy content = false ->
     ServerChat.postMessageHandler key fetched sql chatId content d
     = (ServerChat.Failure 400 (lit "Missing message content"), d, []))
  /\ (forall text m, nonEmpty text = true -> ServerChat.historyError sql = Some m ->
        ServerChat.postMessageHandler key fetched sql chatId (Some text) d
        = (ServerChat.Failure 500 m, d, []))
  /\ (forall text m, nonEmpty text = true -> ServerChat.historyError sql = None ->
        ServerChat.userError sql = Some m ->
        ServerChat.postMessageHandler key fetched sql chatId (Some text) d
        = (ServerChat.Failure 400 m, d, []))
  /\ (forall text, nonEmpty text = true -> ServerChat.historyError sql = None ->
        ServerChat.userError sql = None -> truthy key = false ->
        ServerChat.postMessageHandler key fetched sql chatId (Some text) d
        = (ServerChat.Unanswered,
           ServerJs.mkDb (ServerJs.chats d)
             (ServerJs.messages d
              ++ [ServerJs.mkMessageRow (ServerChat.userRowid sql) chatId (lit "user") text
                    (ServerChat.userTimestamp sql)]),
           []))
  /\ (forall text m, nonEmpty text = true -> ServerChat.historyError sql = None ->
        ServerChat.userError sql = None -> truthy key = true ->
        ServerChat.botError sql = Some m ->
        answerOf (ServerChat.postMessageHandler key fetched sql chatId (Some text) d)
        = ServerChat.ExchangeComplete None (serverReply fetched)
        /\ dbOf (ServerChat.postMessageHandler key fetched sql chatId (Some text) d)
           = ServerJs.mkDb (ServerJs.chats d)
               (ServerJs.messages d
                ++ [ServerJs.mkMessageRow (ServerChat.userRowid sql) chatId (lit "user") text
                      (ServerChat.userTimestamp sql)])).
Proof.
  repeat apply conj.
  - intros [[|c t]|] H; try discriminate; reflexivity.
  - intros [|c t] m Ht Hh; [discriminate|].
    unfold ServerChat.postMessageHandler. now rewrite Hh.
  - intros [|c t] m Ht Hh Hu; [discriminate|].
    unfold ServerChat.postMessageHandler. now rewrite Hh, Hu.
  - intros [|c t] Ht Hh Hu Hk; [discriminate|].
    unfold ServerChat.postMessageHandler, ServerChat.askAI. now rewrite Hh, Hu, Hk.
  - intros [|c t] m Ht Hh Hu Hk Hb; [discriminate|].
    unfold ServerChat.postMessageHandler. rewrite Hh, Hu. cbv zeta.
    destruct (ServerChat_askAI_with_key key fetched (c :: t)
                (map (fun r => ServerChat.mkHistoryRow (ServerJs.sender r) (ServerJs.content r))
                     (ServerJs.sqlSelectMessages chatId d)
                 ++ [ServerChat.mkHistoryRow (lit "user") (c :: t)]) Hk) as [Hask _].
    rewrite Hask, Hb. split; reflexivity.
Qed.

Lemma X27_witness :
  ServerChat.postMessageHandler None (Normal (okResponse (lit "Fine, thanks."))) sqlOk 1
                                (Some (lit "How are you?")) dbOneChat
  = (ServerChat.Unanswered,
     ServerJs.mkDb (ServerJs.chats dbOneChat)
       (ServerJs.messages dbOneChat
        ++ [ServerJs.mkMessageRow 100 1 (lit "user") (lit "How are you?") 50]),
     []).
Proof.
  destruct (X27_server_exchange_ways_out None (Normal (okResponse (lit "Fine, thanks.")))
              sqlOk 1 dbOneChat) as (_ & _ & _ & H & _).
  exact (H (lit "How are you?") eq_refl eq_refl eq_refl eq_refl).
Defined.

(** ** The client of the REST back end *)

Ltac rest_proj :=
  cbn [RestClient.ui RestClient.lastSession RestClient.posted RestClient.nIds
       RestClient.sessions RestClient.currentSessionId RestClient.messages RestClient.input
       RestClient.isTyping RestClient.errorMessage RestClient.isSidebarOpen
       RestClient.setUI RestClient.setSessions RestClient.setCurrentSessionId
       RestClient.setMessages RestClient.setInput RestClient.setIsTyping
       RestClient.setErrorMessage RestClient.setIsSidebarOpen RestClient.storeLastSession
       RestClient.brId RestClient.brSender RestClient.brText
       RestClient.msgId RestClient.sender RestClient.text] in *.

Lemma strictEq_refl a : RestClient.strictEq a a = true.
Proof. destruct a; cbn; [apply Z.eqb_refl | apply eqId_refl]. Qed.

Lemma strictEq_false a b : a <> b -> RestClient.strictEq a b = false.
Proof.
  intros H. destruct a as [x|x], b as [y|y]; cbn; try reflexivity.
  - apply Z.eqb_neq. congruence.
  - apply eqId_false. congruence.
Qed.

Lemma map_untouched {A} (f : A -> A) (l : list A) :
  (forall x, In x l -> f x = x) -> map f l = l.
Proof.
  induction l as [|x l IH]; intros H; [reflexivity|].
  cbn [map]. rewrite (H x (or_introl eq_refl)), IH; [reflexivity|].
  intros y Hy. apply H. now right.
Qed.

(** X28. src/unnamed/part_001 against the server of src/src/App.jsx: a
    question sent by [handleSend] and handled by [POST /api/chats/:id/messages]
    with an API key and a working database.  Afterwards the page shows, after
    what it showed before, the question under its temporary identifier and
    the reply under the identifier of the row the server stored; the reply
    shown is the content of that row; the input is empty, no error is shown
    and the busy flag is cleared. *)
Theorem X28_rest_send_shows_the_stored_reply
        freshId closure manualText w n key fetched sql d :
  canSendRest freshId closure manualText w n ->
  truthy key = true ->
  ServerChat.historyError sql = None -> ServerChat.userError sql = None ->
  ServerChat.botError sql = None -> ServerChat.botRowid sql <> 0%Z ->
  RestClient.messages
    (RestClient.ui
       (RestClient.handleSend freshId closure manualText
          (axiosPost (answerOf (ServerChat.postMessageHandler key fetched sql n
                                  (Some (orElse manualText (trim (RestClient.input closure))))
                                  d)))
          w))
  = RestClient.messages (RestClient.ui w)
    ++ [RestClient.mkMessage (RestClient.StrId (freshId (RestClient.nIds w))) (lit "user")
          (orElse manualText (trim (RestClient.input closure)));
        RestClient.mkMessage (RestClient.NumId (ServerChat.botRowid sql)) (lit "bot")
          (serverReply fetched)]
  /\ In (ServerJs.mkMessageRow (ServerChat.botRowid sql) n (lit "bot") (serverReply fetched)
           (ServerChat.botTimestamp sql))
        (ServerJs.messages
           (dbOf (ServerChat.postMessageHandler key fetched sql n
                    (Some (orElse manualText (trim (RestClient.input closure)))) d)))
  /\ RestClient.isTyping
       (RestClient.ui
          (RestClient.handleSend freshId closure manualText
             (axiosPost (answerOf (ServerChat.postMessageHandler key fetched sql n
                                     (Some (orElse manualText
                                                   (trim (RestClient.input closure))))
                                     d)))
             w))
     = false
  /\ RestClient.errorMessage
       (RestClient.ui
          (RestClient.handleSend freshId closure manualText
             (axiosPost (answerOf (ServerChat.postMessageHandler key fetched sql n
                                     (Some (orElse manualText
                                                   (trim (RestClient.input closure))))
                                     d)))
             w))
     = [].
Proof.
  intros (Hsid & Hn & Htxt & Hfresh & Hnew) Hk Hh Hu Hb Hrow.
  set (userText := orElse manualText (trim (RestClient.input closure))) in *.
  destruct userText as [|c t] eqn:Hut; [discriminate|].
  unfold ServerChat.postMessageHandler. rewrite Hh, Hu. cbv zeta.
  destruct (ServerChat_askAI_with_key key fetched (c :: t)
              (map (fun r => ServerChat.mkHistoryRow (ServerJs.sender r) (ServerJs.content r))
                   (ServerJs.sqlSelectMessages n d)
               ++ [ServerChat.mkHistoryRow (lit "user") (c :: t)]) Hk) as [Hask _].
  rewrite Hask, Hb. unfold answerOf, dbOf. cbn [fst snd axiosPost ServerJs.messages].
  unfold RestClient.handleSend. rewrite Hsid. fold userText. rewrite Hut.
  cbn [nonEmpty negb orb RestClient.truthyId].
  assert (Hn' : negb (n =? 0)%Z = true) by (apply negb_true_iff, Z.eqb_neq; exact Hn).
  rewrite Hn'. cbn [negb]. cbv zeta. rest_proj.
  assert (Hr' : negb (ServerChat.botRowid sql =? 0)%Z = true)
    by (apply negb_true_iff, Z.eqb_neq; exact Hrow).
  cbn [option_map RestClient.truthyId]. rewrite Hr'.
  split; [|split; [|split; reflexivity]].
  - rewrite map_app. cbn [map RestClient.msgId].
    assert (Hdiff : RestClient.strictEq (RestClient.StrId (freshId (RestClient.nIds w)))
                                        (RestClient.StrId (freshId (S (RestClient.nIds w))))
                    = false) by (apply strictEq_false; congruence).
    rewrite strictEq_refl, Hdiff.
    rewrite map_untouched; [reflexivity|].
    intros m Hm. now rewrite (strictEq_false _ _ (Hnew m Hm)).
  - apply in_or_app. right. now left.
Qed.

Lemma X28_witness :
  RestClient.messages
    (RestClient.ui
       (RestClient.handleSend tmpId restTyped None
          (axiosPost (answerOf (ServerChat.postMessageHandler (Some (lit "key"))
                                  (Normal (okResponse (lit "Fine, thanks."))) sqlOk 1
                                  (Some (lit "How are you?")) dbOneChat)))
          restTypedWorld))
  = [RestClient.mkMessage (RestClient.NumId 1) (lit "user") (lit "Hello");
     RestClient.mkMessage (RestClient.NumId 2) (lit "bot") (lit "Hi there!");
     RestClient.mkMessage (RestClient.StrId (lit "tmp0")) (lit "user") (lit "How are you?");
     RestClient.mkMessage (RestClient.NumId 101) (lit "bot") (lit "Fine, thanks.")].
Proof.
  assert (Hcan : canSendRest tmpId restTyped None restTypedWorld 1).
  { split; [reflexivity|]. split; [discriminate|]. split; [reflexivity|].
    split; [discriminate|]. intros m [<-|[<-|[]]]; discriminate. }
  destruct (X28_rest_send_shows_the_stored_reply tmpId restTyped None restTypedWorld 1
              (Some (lit "key")) (Normal (okResponse (lit "Fine, thanks."))) sqlOk dbOneChat
              Hcan eq_refl eq_refl eq_refl eq_refl ltac:(discriminate)) as (H & _).
  exact H.
Defined.

(** X29. src/unnamed/part_001 against the server of src/src/App.jsx, when
    the exchange fails.  If the server cannot read the history or cannot store
    the question, the page drops the placeholder, keeps showing the question
    although the database does not hold it, shows "Message failed: " followed
    by the error of the database, and clears the busy flag.  If the server has
    no API key, the question is stored, the handler sends no response and the
    call of the client is rejected without one; the page again drops the
    placeholder, keeps showing the question, shows a text that starts with
    "Message failed: " and clears the busy flag.  In no case does the page
    stay busy. *)
Theorem X29_rest_send_when_the_server_fails freshId closure manualText w n key fetched sql d :
  canSendRest freshId closure manualText w n ->
  (forall m,
     nonEmpty m = true ->
     ServerChat.historyError sql = Some m
     \/ (ServerChat.historyError sql = None /\ ServerChat.userError sql = Some m) ->
     dbOf (ServerChat.postMessageHandler key fetched sql n
             (Some (orElse manualText (trim (RestClient.input closure)))) d) = d
     /\ RestClient.ui
          (RestClient.handleSend freshId closure manualText
             (axiosPost (answerOf (ServerChat.postMessageHandler key fetched sql n
                                     (Some (orElse manualText
                                                   (trim (RestClient.input closure))))
                                     d)))
             w)
        = RestClient.mkUI (RestClient.sessions (RestClient.ui w))
            (RestClient.currentSessionId (RestClient.ui w))
            (RestClient.messages (RestClient.ui w)
             ++ [RestClient.mkMessage (RestClient.StrId (freshId (RestClient.nIds w)))
                   (lit "user") (orElse manualText (trim (RestClient.input closure)))])
            [] false (lit "Message failed: " ++ m)
            (RestClient.isSidebarOpen (RestClient.ui w)))
  /\ (ServerChat.historyError sql = None -> ServerChat.userError sql = None ->
      truthy key = false ->
      answerOf (ServerChat.postMessageHandler key fetched sql n
                  (Some (orElse manualText (trim (RestClient.input closure)))) d)
      = ServerChat.Unanswered
      /\ ServerJs.messages
           (dbOf (ServerChat.postMessageHandler key fetched sql n
                    (Some (orElse manualText (trim (RestClient.input closure)))) d))
         = ServerJs.messages d
           ++ [ServerJs.mkMessageRow (ServerChat.userRowid sql) n (lit "user")
                 (orElse manualText (trim (RestClient.input closure)))
                 (ServerChat.userTimestamp sql)]
      /\ exists failure,
           RestClient.ui
             (RestClient.handleSend freshId closure manualText
                (axiosPost (answerOf (ServerChat.postMessageHandler key fetched sql n
                                        (Some (orElse manualText
                                                      (trim (RestClient.input closure))))
                                        d)))
                w)
           = RestClient.mkUI (RestClient.sessions (RestClient.ui w))
               (RestClient.currentSessionId (RestClient.ui w))
               (RestClient.messages (RestClient.ui w)
                ++ [RestClient.mkMessage (RestClient.StrId (freshId (RestClient.nIds w)))
                      (lit "user") (orElse manualText (trim (RestClient.input closure)))])
               [] false (lit "Message failed: " ++ failure)
               (RestClient.isSidebarOpen (RestClient.ui w))).
Proof.
  intros (Hsid & Hn & Htxt & Hfresh & Hnew).
  set (userText := orElse manualText (trim (RestClient.input closure))) in *.
  assert (Hn' : negb (n =? 0)%Z = true) by (apply negb_true_iff, Z.eqb_neq; exact Hn).
  assert (Hdiff : RestClient.strictEq (RestClient.StrId (freshId (RestClient.nIds w)))
                                      (RestClient.StrId (freshId (S (RestClient.nIds w))))
                  = false) by (apply strictEq_false; congruence).
  assert (Hkeep : filter (fun m => negb (RestClient.strictEq (RestClient.msgId m)
                                           (RestClient.StrId (freshId (S (RestClient.nIds w))))))
                         (RestClient.messages (RestClient.ui w))
                  = RestClient.messages (RestClient.ui w)).
  { apply filter_all. intros x Hx. now rewrite (strictEq_false _ _ (Hnew x Hx)). }
  destruct userText as [|c t] eqn:Hut; [discriminate|].
  split.
  - intros m Hm Herr. unfold ServerChat.postMessageHandler.
    destruct Herr as [Hh|[Hh Hu]]; rewrite Hh; [|rewrite Hu];
      unfold answerOf, dbOf; cbn [fst snd axiosPost];
      (split; [reflexivity|]);
      unfold RestClient.handleSend; rewrite Hsid; fold userText; rewrite Hut;
      cbn [nonEmpty negb orb RestClient.truthyId]; rewrite Hn'; cbn [negb]; cbv zeta;
      rest_proj;
      (f_equal;
       [rewrite filter_app; cbn [filter RestClient.msgId];
        rewrite strictEq_refl, Hdiff, Hkeep; reflexivity
       |destruct m; [discriminate|reflexivity]]).
  - intros Hh Hu Hk.
    unfold ServerChat.postMessageHandler, ServerChat.askAI. rewrite Hh, Hu, Hk.
    unfold answerOf, dbOf. cbn [negb fst snd axiosPost ServerJs.messages].
    split; [reflexivity|]. split; [reflexivity|].
    exists (lit "Network Error").
    unfold RestClient.handleSend. rewrite Hsid. fold userText. rewrite Hut.
    cbn [nonEmpty negb orb RestClient.truthyId]. rewrite Hn'. cbn [negb]. cbv zeta.
    rest_proj. f_equal.
    rewrite filter_app. cbn [filter RestClient.msgId].
    rewrite strictEq_refl, Hdiff, Hkeep. reflexivity.
Qed.

Lemma X29_witness :
  RestClient.isTyping
    (RestClient.ui
       (RestClient.handleSend tmpId restTyped None
          (axiosPost (answerOf (ServerChat.postMessageHandler None
                                  (Normal (okResponse (lit "Fine, thanks."))) sqlOk 1
                                  (Some (lit "How are you?")) dbOneChat)))
          restTypedWorld))
  = false
  /\ RestClient.messages
       (RestClient.ui
          (RestClient.handleSend tmpId restTyped None
             (axiosPost (answerOf (ServerChat.postMessageHandler None
                                     (Normal (okResponse (lit "Fine, thanks."))) sqlOk 1
                                     (Some (lit "How are you?")) dbOneChat)))
             restTypedWorld))
     = [RestClient.mkMessage (RestClient.NumId 1) (lit "user") (lit "Hello");
        RestClient.mkMessage (RestClient.NumId 2) (lit "bot") (lit "Hi there!");
        RestClient.mkMessage (RestClient.StrId (lit "tmp0")) (lit "user")
          (lit "How are you?")].
Proof.
  assert (Hcan : canSendRest tmpId restTyped None restTypedWorld 1).
  { split; [reflexivity|]. split; [discriminate|]. split; [reflexivity|].
    split; [discriminate|]. intros m [<-|[<-|[]]]; discriminate. }
  destruct (X29_rest_send_when_the_server_fails tmpId restTyped None restTypedWorld 1
              None (Normal (okResponse (lit "Fine, thanks."))) sqlOk dbOneChat Hcan)
    as (_ & H).
  destruct (H eq_refl eq_refl eq_refl) as (_ & _ & failure & H3).
  split; [exact (f_equal RestClient.isTyping H3) | exact (f_equal RestClient.messages H3)].
Defined.

(** X30. src/unnamed/part_001, [fetchSessions]: an identifier restored from
    [localStorage] is a string, the identifiers listed by the server are
    numbers, and the two are compared with [===].  So after a reload the
    remembered session is never found in the list: whenever the server lists
    at least one chat, the first of the list becomes the selected one and its
    identifier is written to [localStorage], whichever chat was remembered. *)
Theorem X30_rest_remembered_session_is_not_restored closure s first rest creation w :
  RestClient.currentSessionId closure = Some (RestClient.StrId s) ->
  (forall x, In x (first :: rest) -> exists k, RestClient.sessId x = RestClient.NumId k) ->
  RestClient.currentSessionId
    (RestClient.ui (RestClient.fetchSessions closure
                      (RestClient.Answered (Some (first :: rest))) creation w))
  = Some (RestClient.sessId first)
  /\ RestClient.lastSession
       (RestClient.fetchSessions closure (RestClient.Answered (Some (first :: rest)))
                                 creation w)
     = Some (RestClient.idToString (RestClient.sessId first))
  /\ RestClient.sessions
       (RestClient.ui (RestClient.fetchSessions closure
                         (RestClient.Answered (Some (first :: rest))) creation w))
     = first :: rest.
Proof.
  intros Hcur Hnum. unfold RestClient.fetchSessions. rewrite Hcur. cbv zeta.
  assert (Hnone : existsb (fun x => RestClient.strictEq (RestClient.sessId x)
                                                        (RestClient.StrId s))
                          (first :: rest) = false).
  { apply not_true_is_false. intros Hex. apply existsb_exists in Hex.
    destruct Hex as (x & Hx & Heq). destruct (Hnum x Hx) as [k Hk].
    rewrite Hk in Heq. discriminate. }
  rewrite Hnone. cbn [length Nat.ltb Nat.leb negb andb RestClient.truthyId].
  destruct (nonEmpty s); cbn [negb andb]; rest_proj; repeat split.
Qed.

Lemma X30_witness :
  RestClient.currentSessionId
    (RestClient.ui
       (RestClient.fetchSessions restReloaded
          (RestClient.Answered
             (Some [RestClient.mkSession (RestClient.NumId 2) (lit "New Chat");
                    RestClient.mkSession (RestClient.NumId 1) (lit "New Chat")]))
          RestClient.Pending restReloadedWorld))
  = Some (RestClient.NumId 2).
Proof.
  destruct (X30_rest_remembered_session_is_not_restored restReloaded (lit "1")
              (RestClient.mkSession (RestClient.NumId 2) (lit "New Chat"))
              [RestClient.mkSession (RestClient.NumId 1) (lit "New Chat")]
              RestClient.Pending restReloadedWorld eq_refl) as (H & _).
  - intros x [<-|[<-|[]]]; eexists; reflexivity.
  - exact H.
Defined.
